(** * GitHub repository monitoring engine of ARL

    A shallow embedding of the scheduled repository monitoring code:
    - [app/utils/github_repo_task.py]: task submission, the periodic
      scheduler tick, and the delete / stop / recover helpers;
    - [app/routes/github_repo_scheduler.py]: the create, update, delete,
      stop and recover request handlers;
    - [app/tasks/github.py]: the worker body [GithubRepoMonitorTask];
    - [app/services/github_repo_monitor.py]: event fetch and rendering;
    - [app/services/dingtalk_webhook.py]: the webhook client.

    Modelling conventions.
    - A MongoDB collection whose documents are addressed by [_id] is a
      [gmap] from the 24-character rendering of the id to the document;
      the event collection, which is only queried by its fields, is a list
      in insertion order.
    - A Python string is the byte sequence of its UTF-8 encoding; [py_len]
      counts its characters and [strip] removes the white space of
      [str.isspace].
    - [ObjectId(s)] accepts the strings of 24 hexadecimal digits in either
      case and raises on every other string; [str] of the result is the
      lower-case rendering, which is the key of the document.  (The white
      space that [bytes.fromhex] would skip inside [s] is not modelled.)
    - Python exceptions are the [Raise] case of [Exc]; [try]/[except] is a
      [match] on it.  Store operations themselves do not raise.
    - The clock counts rational seconds since the epoch, and arithmetic on
      its readings is exact.  Its readings during one operation are
      identified and passed as [now].
    - Code outside these files (cron evaluator, date formatting, the worker
      queue, HTTP transport, configuration) is a field of [Externals].
    - Logging is not modelled. *)

From Stdlib Require Import QArith Qabs Qround Lqa ZArith Lia Ascii.
From stdpp Require Import gmap strings list fin_maps pretty.

Set Warnings "-register-all".
Close Scope Q_scope.
Open Scope Z_scope.
Open Scope string_scope.
Open Scope list_scope.

(** ** Python values and exceptions *)

Inductive Exc (A : Type) : Type :=
| Ok (a : A)
| Raise (e : string).
Arguments Ok {A} a.
Arguments Raise {A} e.

Definition exc_bind {A B} (m : Exc A) (f : A -> Exc B) : Exc B :=
  match m with
  | Ok a => f a
  | Raise e => Raise e
  end.

Notation "'let*' x ':=' m 'in' k" := (exc_bind m (fun x => k))
  (at level 10, x name, m at level 100, k at level 200).

(** Truth value of a Python string: [None] and [""] are both falsy and are
    both written [""]. *)
Definition truthy (s : string) : bool := negb (String.eqb s "").

(** [x or y] on strings. *)
Definition py_or (x y : string) : string := if truthy x then x else y.

(** [x < y] on rationals, as a boolean. *)
Definition Qltb (x y : Q) : bool :=
  match Qcompare x y with
  | Lt => true
  | _ => false
  end.

(** [int(x)]: truncation towards zero. *)
Definition py_int (x : Q) : Z := Z.quot (Qnum x) (Z.pos (Qden x)).

(** [round(x)]: to the nearest integer, ties to the even one. *)
Definition py_round (x : Q) : Z :=
  let f := Qfloor x in
  match Qcompare (x - inject_Z f) (1 # 2) with
  | Lt => f
  | Gt => f + 1
  | Eq => if Z.even f then f else f + 1
  end.

(** A byte that does not continue a UTF-8 sequence starts a character. *)
Definition starts_char (c : Ascii.ascii) : bool :=
  let n := Ascii.nat_of_ascii c in
  (n <? 128)%nat || (192 <=? n)%nat.

(** [len(s)]: the number of characters. *)
Fixpoint py_len (s : string) : nat :=
  match s with
  | String c r => if starts_char c then S (py_len r) else py_len r
  | EmptyString => O
  end.

(** [s[:n]]: the first [n] characters. *)
Fixpoint py_take (n : nat) (s : string) : string :=
  match s with
  | String c r =>
      if starts_char c then
        match n with
        | O => EmptyString
        | S n' => String c (py_take n' r)
        end
      else String c (py_take n r)
  | EmptyString => EmptyString
  end.

(** The white space of [str.isspace], by the bytes of its encoding:
    U+0009 to U+000D, U+001C to U+0020; *)
Definition is_space (c : Ascii.ascii) : bool :=
  let n := Ascii.nat_of_ascii c in
  ((9 <=? n)%nat && (n <=? 13)%nat) || ((28 <=? n)%nat && (n <=? 32)%nat).

(** U+0085 and U+00A0; *)
Definition is_space2 (c d : Ascii.ascii) : bool :=
  let n := Ascii.nat_of_ascii c in
  let m := Ascii.nat_of_ascii d in
  (n =? 194)%nat && ((m =? 133)%nat || (m =? 160)%nat).

(** U+1680, U+2000 to U+200A, U+2028, U+2029, U+202F, U+205F and U+3000. *)
Definition is_space3 (c d e : Ascii.ascii) : bool :=
  let n := Ascii.nat_of_ascii c in
  let m := Ascii.nat_of_ascii d in
  let k := Ascii.nat_of_ascii e in
  ((n =? 225)%nat && (m =? 154)%nat && (k =? 128)%nat)
  || ((n =? 226)%nat && (m =? 128)%nat &&
      (((128 <=? k)%nat && (k <=? 138)%nat) || (k =? 168)%nat || (k =? 169)%nat
       || (k =? 175)%nat))
  || ((n =? 226)%nat && (m =? 129)%nat && (k =? 159)%nat)
  || ((n =? 227)%nat && (m =? 128)%nat && (k =? 128)%nat).

(** [s.lstrip()]. *)
Fixpoint lstrip (s : string) : string :=
  match s with
  | String c r =>
      if is_space c then lstrip r
      else
        match r with
        | String d r' =>
            if is_space2 c d then lstrip r'
            else
              match r' with
              | String e r'' => if is_space3 c d e then lstrip r'' else s
              | EmptyString => s
              end
        | EmptyString => s
        end
  | EmptyString => EmptyString
  end.

(** [s.rstrip()] on the reversed string: the last byte comes first. *)
Fixpoint rstrip_rev (s : string) : string :=
  match s with
  | String c r =>
      if is_space c then rstrip_rev r
      else
        match r with
        | String d r' =>
            if is_space2 d c then rstrip_rev r'
            else
              match r' with
              | String e r'' => if is_space3 e d c then rstrip_rev r'' else s
              | EmptyString => s
              end
        | EmptyString => s
        end
  | EmptyString => EmptyString
  end.

(** [s.strip()]. *)
Definition strip (s : string) : string :=
  String.rev (rstrip_rev (String.rev (lstrip s))).

(** The encodings of the white-space characters. *)
Definition chr (n : nat) : string := String (Ascii.ascii_of_nat n) EmptyString.

Definition chr2 (n m : nat) : string :=
  String (Ascii.ascii_of_nat n) (chr m).

Definition chr3 (n m k : nat) : string :=
  String (Ascii.ascii_of_nat n) (chr2 m k).

Definition white_space : list string :=
  (chr <$> [9; 10; 11; 12; 13; 28; 29; 30; 31; 32]%nat)
  ++ [chr2 194 133; chr2 194 160; chr3 225 154 128]
  ++ (chr3 226 128 <$> [128; 129; 130; 131; 132; 133; 134; 135; 136; 137; 138;
                        168; 169; 175]%nat)
  ++ [chr3 226 129 159; chr3 227 128 128].

Fixpoint join (l : list string) : string :=
  match l with
  | [] => EmptyString
  | x :: r => x +:+ join r
  end.

(** ** Persisted documents *)

Inductive SchedulerStatus := RUNNING | STOP.

#[global] Instance SchedulerStatus_eq_dec : EqDecision SchedulerStatus.
Proof. solve_decision. Defined.

Inductive TaskStatus :=
| WAITING
| DONE
| ERROR
| Phase (label : string).

Inductive CeleryAction := GITHUB_REPO_MONITOR.

Module Scheduler.
(** A document of the [github_repo_scheduler] collection. *)
Record item := {
  name : string;
  repo_owner : string;
  repo_name : string;
  cron : string;
  monitored_events : list string;
  run_number : Z;
  last_run_date : string;
  last_run_time : Z;
  next_run_date : string;
  status : SchedulerStatus
}.

Definition set_name (v : string) (i : item) : item :=
  {| name := v; repo_owner := repo_owner i; repo_name := repo_name i;
     cron := cron i; monitored_events := monitored_events i;
     run_number := run_number i; last_run_date := last_run_date i;
     last_run_time := last_run_time i; next_run_date := next_run_date i;
     status := status i |}.

Definition set_repo_owner (v : string) (i : item) : item :=
  {| name := name i; repo_owner := v; repo_name := repo_name i;
     cron := cron i; monitored_events := monitored_events i;
     run_number := run_number i; last_run_date := last_run_date i;
     last_run_time := last_run_time i; next_run_date := next_run_date i;
     status := status i |}.

Definition set_repo_name (v : string) (i : item) : item :=
  {| name := name i; repo_owner := repo_owner i; repo_name := v;
     cron := cron i; monitored_events := monitored_events i;
     run_number := run_number i; last_run_date := last_run_date i;
     last_run_time := last_run_time i; next_run_date := next_run_date i;
     status := status i |}.

Definition set_cron (v : string) (i : item) : item :=
  {| name := name i; repo_owner := repo_owner i; repo_name := repo_name i;
     cron := v; monitored_events := monitored_events i;
     run_number := run_number i; last_run_date := last_run_date i;
     last_run_time := last_run_time i; next_run_date := next_run_date i;
     status := status i |}.

Definition set_monitored_events (v : list string) (i : item) : item :=
  {| name := name i; repo_owner := repo_owner i; repo_name := repo_name i;
     cron := cron i; monitored_events := v;
     run_number := run_number i; last_run_date := last_run_date i;
     last_run_time := last_run_time i; next_run_date := next_run_date i;
     status := status i |}.

Definition set_run_number (v : Z) (i : item) : item :=
  {| name := name i; repo_owner := repo_owner i; repo_name := repo_name i;
     cron := cron i; monitored_events := monitored_events i;
     run_number := v; last_run_date := last_run_date i;
     last_run_time := last_run_time i; next_run_date := next_run_date i;
     status := status i |}.

Definition set_last_run_date (v : string) (i : item) : item :=
  {| name := name i; repo_owner := repo_owner i; repo_name := repo_name i;
     cron := cron i; monitored_events := monitored_events i;
     run_number := run_number i; last_run_date := v;
     last_run_time := last_run_time i; next_run_date := next_run_date i;
     status := status i |}.

Definition set_last_run_time (v : Z) (i : item) : item :=
  {| name := name i; repo_owner := repo_owner i; repo_name := repo_name i;
     cron := cron i; monitored_events := monitored_events i;
     run_number := run_number i; last_run_date := last_run_date i;
     last_run_time := v; next_run_date := next_run_date i;
     status := status i |}.

Definition set_next_run_date (v : string) (i : item) : item :=
  {| name := name i; repo_owner := repo_owner i; repo_name := repo_name i;
     cron := cron i; monitored_events := monitored_events i;
     run_number := run_number i; last_run_date := last_run_date i;
     last_run_time := last_run_time i; next_run_date := v;
     status := status i |}.

Definition set_status (v : SchedulerStatus) (i : item) : item :=
  {| name := name i; repo_owner := repo_owner i; repo_name := repo_name i;
     cron := cron i; monitored_events := monitored_events i;
     run_number := run_number i; last_run_date := last_run_date i;
     last_run_time := last_run_time i; next_run_date := next_run_date i;
     status := v |}.
End Scheduler.

Module Task.
(** A document of the [github_repo_task] collection.  [statistic] is the
    [event_count] entry once it has been written. *)
Record doc := {
  name : string;
  repo_owner : string;
  repo_name : string;
  start_time : string;
  end_time : string;
  github_repo_scheduler_id : option string;
  status : TaskStatus;
  celery_id : string;
  statistic : option Z
}.

Definition set_status (v : TaskStatus) (t : doc) : doc :=
  {| name := name t; repo_owner := repo_owner t; repo_name := repo_name t;
     start_time := start_time t; end_time := end_time t;
     github_repo_scheduler_id := github_repo_scheduler_id t;
     status := v; celery_id := celery_id t; statistic := statistic t |}.

Definition set_start_time (v : string) (t : doc) : doc :=
  {| name := name t; repo_owner := repo_owner t; repo_name := repo_name t;
     start_time := v; end_time := end_time t;
     github_repo_scheduler_id := github_repo_scheduler_id t;
     status := status t; celery_id := celery_id t; statistic := statistic t |}.

Definition set_end_time (v : string) (t : doc) : doc :=
  {| name := name t; repo_owner := repo_owner t; repo_name := repo_name t;
     start_time := start_time t; end_time := v;
     github_repo_scheduler_id := github_repo_scheduler_id t;
     status := status t; celery_id := celery_id t; statistic := statistic t |}.

Definition set_celery_id (v : string) (t : doc) : doc :=
  {| name := name t; repo_owner := repo_owner t; repo_name := repo_name t;
     start_time := start_time t; end_time := end_time t;
     github_repo_scheduler_id := github_repo_scheduler_id t;
     status := status t; celery_id := v; statistic := statistic t |}.

Definition set_statistic (v : Z) (t : doc) : doc :=
  {| name := name t; repo_owner := repo_owner t; repo_name := repo_name t;
     start_time := start_time t; end_time := end_time t;
     github_repo_scheduler_id := github_repo_scheduler_id t;
     status := status t; celery_id := celery_id t; statistic := Some v |}.
End Task.

(** The work item handed to the worker queue: [task_options], whose ["data"]
    is the task dictionary after [_id] has been replaced by [task_id]. *)
Record TaskOptions := {
  celery_action : CeleryAction;
  data_task_id : string;
  data : Task.doc
}.

(** ** Events of the activity API *)

Module Api.
(** The JSON objects of one event, with each key the code reads; [None] is
    an absent key. *)
Record Commit := { message : option string }.

Record Issue := { title : option string; html_url : option string }.

Record Release := {
  release_name : option string;
  tag_name : option string;
  release_html_url : option string
}.

Record Payload := {
  commits : option (list Commit);
  ref : option string;
  size : option Z;
  action : option string;
  issue : option Issue;
  pull_request : option Issue;
  ref_type : option string;
  release : option Release
}.

Record EventData := {
  id : option string;
  type : option string;
  event_created_at : option string;
  actor_login : option string;
  repo_full_name : option string;
  payload : option Payload
}.
End Api.

(** The attributes [_parse_event] sets, which depend on the event type. *)
Inductive EventDetail :=
| PushDetail (commits : list Api.Commit) (ref : string) (size : Z)
| IssuesDetail (action : string) (issue : Api.Issue)
| PullRequestDetail (action : string) (pull_request : Api.Issue)
| CreateDetail (ref_type ref : string)
| DeleteDetail (ref_type ref : string)
| ReleaseDetail (action : string) (release : Api.Release)
| NoDetail.

Module Event.
(** An instance of [GithubRepoEvent]. *)
Record t := {
  event_data : Api.EventData;
  event_type : string;
  repo_name : string;
  created_at : string;
  actor : string;
  event_id : string;
  detail : EventDetail
}.

(** A document of the [github_repo_event] collection: [to_dict()] extended
    by [save_events]. *)
Record doc := {
  of_event : t;
  github_repo_scheduler_id : option string;
  github_repo_task_id : string;
  saved_at : string
}.
End Event.

(** ** The webhook's messages and replies *)

Inductive MessageBody :=
| TextMessage (content : string)
| MarkdownMessage (title text : string)
| LinkMessage (title text messageUrl : string) (picUrl : option string).

Record Message := {
  body : MessageBody;
  at_ : option (list string * bool)
}.

(** A decoded JSON value. *)
Inductive PyValue :=
| PyNone
| PyBool (b : bool)
| PyInt (n : Z)
| PyStr (s : string)
| PyList (l : list PyValue)
| PyDict (d : list (string * PyValue)).

Fixpoint dict_get (d : list (string * PyValue)) (k : string) : option PyValue :=
  match d with
  | [] => None
  | (k', v) :: r => if String.eqb k' k then Some v else dict_get r k
  end.

(** The name of the type of a value. *)
Definition type_name (v : PyValue) : string :=
  match v with
  | PyNone => "NoneType"
  | PyBool _ => "bool"
  | PyInt _ => "int"
  | PyStr _ => "str"
  | PyList _ => "list"
  | PyDict _ => "dict"
  end.

(** The text of the [AttributeError] of [v.get] on a value without [get]. *)
Definition no_get (v : PyValue) : string :=
  "'" +:+ type_name v +:+ "' object has no attribute 'get'".

(** [v.get(k, default)]: an [AttributeError] unless [v] is a dictionary. *)
Definition py_get (v : PyValue) (k : string) (dflt : PyValue) : Exc PyValue :=
  match v with
  | PyDict d => Ok (default dflt (dict_get d k))
  | _ => Raise (no_get v)
  end.

Record HttpResponse (B : Type) := {
  status_code : Z;
  json : Exc B
}.
Arguments status_code {B} _.
Arguments json {B} _.

(** ** The store and the observable effects *)

Inductive Effect :=
| Sleep (seconds : Z)
| HttpGet (url : string) (headers : list (string * string))
| HttpPost (url : string) (msg : Message)
| StatusWrite (task_id : string) (value : TaskStatus).

Record World := {
  db_scheduler : gmap string Scheduler.item;
  db_task : gmap string Task.doc;
  db_event : list Event.doc;
  celery_queue : list (string * TaskOptions);
  trace : list Effect
}.

Definition with_scheduler (f : gmap string Scheduler.item -> gmap string Scheduler.item)
    (w : World) : World :=
  {| db_scheduler := f (db_scheduler w); db_task := db_task w;
     db_event := db_event w; celery_queue := celery_queue w; trace := trace w |}.

Definition with_task (f : gmap string Task.doc -> gmap string Task.doc)
    (w : World) : World :=
  {| db_scheduler := db_scheduler w; db_task := f (db_task w);
     db_event := db_event w; celery_queue := celery_queue w; trace := trace w |}.

Definition with_event (f : list Event.doc -> list Event.doc) (w : World) : World :=
  {| db_scheduler := db_scheduler w; db_task := db_task w;
     db_event := f (db_event w); celery_queue := celery_queue w; trace := trace w |}.

Definition enqueue (celery_id : string) (o : TaskOptions) (w : World) : World :=
  {| db_scheduler := db_scheduler w; db_task := db_task w;
     db_event := db_event w; celery_queue := celery_queue w ++ [(celery_id, o)];
     trace := trace w |}.

Definition emit (e : Effect) (w : World) : World :=
  {| db_scheduler := db_scheduler w; db_task := db_task w;
     db_event := db_event w; celery_queue := celery_queue w;
     trace := trace w ++ [e] |}.

(** Computations that read and write the store and may raise. *)
Definition M (A : Type) : Type := World -> World * Exc A.

Definition ret {A} (a : A) : M A := fun w => (w, Ok a).

Definition raise {A} (e : string) : M A := fun w => (w, Raise e).

Definition bind {A B} (m : M A) (f : A -> M B) : M B :=
  fun w =>
    match m w with
    | (w', Ok a) => f a w'
    | (w', Raise e) => (w', Raise e)
    end.

Notation "x <- m ;; k" := (bind m (fun x => k))
  (at level 100, m at next level, right associativity).
Notation "m ;;; k" := (bind m (fun _ => k))
  (at level 100, right associativity).

Definition lift {A} (x : Exc A) : M A := fun w => (w, x).

Definition modify (f : World -> World) : M unit := fun w => (f w, Ok tt).

Definition gets {A} (f : World -> A) : M A := fun w => (w, Ok (f w)).

(** [try: m  except Exception as e: h e]. *)
Definition try_except {A} (m : M A) (h : string -> M A) : M A :=
  fun w =>
    match m w with
    | (w', Ok a) => (w', Ok a)
    | (w', Raise e) => h e w'
    end.

(** [try: m  finally: f]. *)
Definition try_finally {A} (m : M A) (f : M unit) : M A :=
  fun w =>
    match m w with
    | (w', r) =>
        match f w' with
        | (w'', Ok _) => (w'', r)
        | (w'', Raise e) => (w'', Raise e)
        end
    end.

Definition is_hex (c : Ascii.ascii) : bool :=
  let n := Ascii.nat_of_ascii c in
  ((48 <=? n)%nat && (n <=? 57)%nat) || ((65 <=? n)%nat && (n <=? 70)%nat)
  || ((97 <=? n)%nat && (n <=? 102)%nat).

(** The lower-case form of a hexadecimal digit. *)
Definition lower (c : Ascii.ascii) : Ascii.ascii :=
  let n := Ascii.nat_of_ascii c in
  if (65 <=? n)%nat && (n <=? 70)%nat then Ascii.ascii_of_nat (n + 32) else c.

Fixpoint all_hex (s : string) : bool :=
  match s with
  | String c r => is_hex c && all_hex r
  | EmptyString => true
  end.

Fixpoint hex_lower (s : string) : string :=
  match s with
  | String c r => String (lower c) (hex_lower r)
  | EmptyString => EmptyString
  end.

(** [str(ObjectId(s))]: the twelve bytes that the 24 hexadecimal digits of
    [s] spell, rendered in lower case; [InvalidId] for any other [s]. *)
Definition ObjectId (s : string) : Exc string :=
  if (py_len s =? 24)%nat && all_hex s then Ok (hex_lower s) else Raise "InvalidId".

(** [find_one_and_replace({"_id": k}, item)]: no document is created when
    none matches. *)
Definition find_one_and_replace {V} (k : string) (item : V) (m : gmap string V) : gmap string V :=
  match m !! k with
  | Some _ => <[k := item]> m
  | None => m
  end.

(** ** Replies of the request handlers *)

Inductive ErrorMsg :=
| Success
| Error
| JobNotFound
| SchedulerStatusNotRunning
| SchedulerStatusNotStop.

Inductive RetData :=
| DataMessage (m : string)
| DataId (_id : string)
| DataIds (ids : list string)
| DataItem (_id : string) (item : Scheduler.item).

Definition Ret : Type := ErrorMsg * RetData.

(** [utils.build_ret(code, data)]. *)
Definition build_ret (code : ErrorMsg) (data : RetData) : Ret := (code, data).

(** ** External collaborators *)

Record Externals := {
  (** [CronTab(expr)]: raises on an expression it cannot parse; the entry
      is given by its [next(now)], the seconds until the next fire. *)
  CronTab : string -> Exc (Q -> Q);
  (** [utils.check_cron_interval(expr)]: [Some msg] when the expression is
      rejected, [msg] being the reply to return. *)
  check_cron_interval : string -> option Ret;
  (** [utils.check_cron(expr)]: its second component, the seconds until the
      next fire, at the given instant. *)
  check_cron : string -> Q -> Exc Q;
  time2date : Q -> string;
  curr_date : Q -> string;
  curr_date_obj : Q -> string;
  parse_datetime : string -> Exc (option Q);
  (** The id generated for a document inserted in a collection with the
      given ids. *)
  new_ObjectId : gset string -> string;
  (** [celerytask.arl_github.delay(options=...)]: the string of the handle. *)
  celery_delay : TaskOptions -> Exc string;
  (** [celerytask.arl_github(options=...)]: the synchronous call. *)
  arl_github : TaskOptions -> M unit;
  (** [http_req(url, headers=...)] on the events endpoint. *)
  http_get : string -> list (string * string) -> Exc (HttpResponse (list Api.EventData));
  (** [http_req(url, method='post', json=...)] on the webhook. *)
  http_post : string -> Message -> Exc (HttpResponse PyValue);
  (** The URL-quoted base64 HMAC-SHA256 of [timestamp\nsecret] keyed by the
      secret. *)
  hmac_sign : string -> string -> string;
  GITHUB_TOKEN : string;
  DINGTALK_WEBHOOK_URL : string;
  DINGDING_SECRET : string
}.

Definition nl : string := String (Ascii.ascii_of_nat 10) "".

(** ** [app/utils/github_repo_task.py] *)

Inductive SubmitResult :=
| Submitted (task_id : string) (task_data : Task.doc)
| SubmitFailed (error : string).

Fixpoint for_each {A} (f : A -> M unit) (l : list A) : M unit :=
  match l with
  | [] => ret tt
  | x :: r => f x ;;; for_each f r
  end.

(** The [task_data] dictionary [github_repo_cron_run] builds for [item],
    [_id] being the item's id. *)
Definition cron_task_data (_id : string) (item : Scheduler.item) : Task.doc :=
  {| Task.name := "GitHub仓库监控-" +:+ Scheduler.name item;
     Task.repo_owner := Scheduler.repo_owner item;
     Task.repo_name := Scheduler.repo_name item;
     Task.start_time := "-";
     Task.end_time := "-";
     Task.github_repo_scheduler_id := Some _id;
     Task.status := WAITING;
     Task.celery_id := "";
     Task.statistic := None |}.

Section Engine.
Context (X : Externals).

(** [submit_github_repo_task(task_data, delay_flag)].  The result is the
    task dictionary, or the string of the exception. *)
Definition submit_github_repo_task (task_data : Task.doc) (delay_flag : bool) : M SubmitResult :=
  let task_data := Task.set_celery_id "" task_data in
  coll <- gets db_task ;;
  let task_id := new_ObjectId X (dom coll) in
  modify (with_task (insert task_id task_data)) ;;;
  let task_options :=
    {| celery_action := GITHUB_REPO_MONITOR;
       data_task_id := task_id;
       data := task_data |} in
  try_except
    (celery_id <-
       (if delay_flag then
          (cid <- lift (celery_delay X task_options) ;;
           modify (enqueue cid task_options) ;;;
           ret cid)
        else
          (arl_github X task_options ;;;
           ret "fake_celery_id")) ;;
     modify (with_task (alter (Task.set_celery_id celery_id) task_id)) ;;;
     ret (Submitted task_id (Task.set_celery_id celery_id task_data)))
    (fun e =>
       modify (with_task (delete task_id)) ;;;
       ret (SubmitFailed e)).

(** [github_repo_cron_run(item)], with [_id] the item's id. *)
Definition github_repo_cron_run (now : Q) (_id : string) (item : Scheduler.item) : M unit :=
  let task_data := cron_task_data _id item in
  submit_github_repo_task task_data true ;;;
  let item := Scheduler.set_run_number (Scheduler.run_number item + 1) item in
  let item := Scheduler.set_last_run_date (curr_date X now) item in
  let item := Scheduler.set_last_run_time (py_int now) item in
  entry <- lift (CronTab X (Scheduler.cron item)) ;;
  let now_time := (now + 61)%Q in
  let next_sec := entry now_time in
  let item := Scheduler.set_next_run_date (time2date X (now_time + next_sec - 60)%Q) item in
  modify (with_scheduler (find_one_and_replace _id item)).

(** The guard of the scheduler's loop body: an entry that is not running is
    skipped, an expression that does not parse ends in the [except] branch,
    and otherwise the two comparisons decide. *)
Definition fires (now : Q) (item : Scheduler.item) : bool :=
  if decide (Scheduler.status item <> RUNNING) then false
  else
    match CronTab X (Scheduler.cron item) with
    | Raise _ => false
    | Ok entry =>
        let next_sec := entry now in
        Qltb next_sec 60 &&
        Qltb (60 * 3) (Qabs (now - inject_Z (Scheduler.last_run_time item)))
    end.

(** The body of the loop of [github_repo_scheduler] for one item. *)
Definition tick_item (now : Q) (p : string * Scheduler.item) : M unit :=
  try_except
    (if fires now p.2 then github_repo_cron_run now p.1 p.2 else ret tt)
    (fun _ => ret tt).

(** [github_repo_scheduler()]. *)
Definition github_repo_scheduler (now : Q) : M unit :=
  items <- gets (fun w => map_to_list (db_scheduler w)) ;;
  for_each (tick_item now) items.

(** [find_github_repo_scheduler(_id)]. *)
Definition find_github_repo_scheduler (_id : string) : M (option Scheduler.item) :=
  oid <- lift (ObjectId _id) ;;
  gets (fun w => db_scheduler w !! oid).

(** [delete_github_repo_scheduler(_id)]. *)
Definition delete_github_repo_scheduler (_id : string) : M unit :=
  if negb (py_len _id =? 24)%nat then ret tt
  else
    oid <- lift (ObjectId _id) ;;
    modify (with_scheduler (delete oid)) ;;;
    modify (with_event
      (filter (fun d => Event.github_repo_scheduler_id d <> Some _id))) ;;;
    modify (with_task
      (filter (fun kv : string * Task.doc =>
                 Task.github_repo_scheduler_id kv.2 <> Some _id))).

(** [recover_github_repo_task(_id)]. *)
Definition recover_github_repo_task (now : Q) (_id : string) : M unit :=
  if negb (py_len _id =? 24)%nat then ret tt
  else
    found <- find_github_repo_scheduler _id ;;
    match found with
    | None => ret tt
    | Some item =>
        let item := Scheduler.set_status RUNNING item in
        entry <- lift (CronTab X (Scheduler.cron item)) ;;
        let next_sec := entry now in
        let item := Scheduler.set_next_run_date (time2date X (now + next_sec)%Q) item in
        oid <- lift (ObjectId _id) ;;
        modify (with_scheduler (find_one_and_replace oid item))
    end.

(** [stop_github_repo_task(_id)]. *)
Definition stop_github_repo_task (_id : string) : M unit :=
  if negb (py_len _id =? 24)%nat then ret tt
  else
    found <- find_github_repo_scheduler _id ;;
    match found with
    | None => ret tt
    | Some item =>
        let item := Scheduler.set_status STOP item in
        let item := Scheduler.set_next_run_date "-" item in
        oid <- lift (ObjectId _id) ;;
        modify (with_scheduler (find_one_and_replace oid item))
    end.

End Engine.

(** ** [app/routes/github_repo_scheduler.py] *)

Section Routes.
Context (X : Externals).

(** [ARLGithubRepoScheduler.post]: add a schedule entry.  An absent
    [monitored_events] is the empty list. *)
Definition add_post (now : Q) (name repo_owner repo_name cron : string)
    (monitored_events : list string) : M Ret :=
  let repo_owner := strip repo_owner in
  let repo_name := strip repo_name in
  if negb (truthy repo_owner) || negb (truthy repo_name) then
    ret (build_ret Error (DataMessage "仓库所有者和仓库名称不能为空"))
  else
    match check_cron_interval X cron with
    | Some msg => ret msg
    | None =>
        next_sec <- lift (check_cron X cron now) ;;
        let scheduler_data :=
          {| Scheduler.name := name;
             Scheduler.repo_owner := repo_owner;
             Scheduler.repo_name := repo_name;
             Scheduler.cron := cron;
             Scheduler.monitored_events :=
               match monitored_events with
               | [] => ["PushEvent"; "IssuesEvent"; "PullRequestEvent"]
               | _ => monitored_events
               end;
             Scheduler.run_number := 0;
             Scheduler.last_run_date := "-";
             Scheduler.last_run_time := 0;
             Scheduler.next_run_date := time2date X (now + next_sec)%Q;
             Scheduler.status := RUNNING |} in
        coll <- gets db_scheduler ;;
        let _id := new_ObjectId X (dom coll) in
        modify (with_scheduler (insert _id scheduler_data)) ;;;
        ret (build_ret Success (DataItem _id scheduler_data))
    end.

(** The first loop of [DeleteGithubRepoScheduler.post]: [Some] is the reply
    of the early return. *)
Fixpoint delete_check (ret_data : RetData) (job_id_list : list string) : M (option Ret) :=
  match job_id_list with
  | [] => ret None
  | job_id :: rest =>
      item <- find_github_repo_scheduler job_id ;;
      match item with
      | None => ret (Some (build_ret JobNotFound ret_data))
      | Some _ => delete_check ret_data rest
      end
  end.

(** [DeleteGithubRepoScheduler.post]. *)
Definition delete_post (job_id_list : list string) : M Ret :=
  let ret_data := DataIds job_id_list in
  early <- delete_check ret_data job_id_list ;;
  match early with
  | Some r => ret r
  | None =>
      for_each delete_github_repo_scheduler job_id_list ;;;
      ret (build_ret Success ret_data)
  end.

(** [UpdateGithubRepoScheduler.post]; an absent field is [""] or [[]]. *)
Definition update_post (now : Q) (job_id name repo_owner repo_name cron : string)
    (monitored_events : list string) : M Ret :=
  found <- find_github_repo_scheduler job_id ;;
  match found with
  | None => ret (build_ret JobNotFound (DataId job_id))
  | Some item =>
      let item := if truthy name then Scheduler.set_name name item else item in
      let item :=
        if truthy repo_owner then Scheduler.set_repo_owner (strip repo_owner) item
        else item in
      let item :=
        if truthy repo_name then Scheduler.set_repo_name (strip repo_name) item
        else item in
      let item :=
        match monitored_events with
        | [] => item
        | _ => Scheduler.set_monitored_events monitored_events item
        end in
      let finish (item : Scheduler.item) : M Ret :=
        oid <- lift (ObjectId job_id) ;;
        modify (with_scheduler (find_one_and_replace oid item)) ;;;
        ret (build_ret Success (DataItem oid item)) in
      if truthy cron then
        match check_cron_interval X cron with
        | Some msg => ret msg
        | None =>
            next_sec <- lift (check_cron X cron now) ;;
            let item := Scheduler.set_next_run_date (time2date X (now + next_sec)%Q) item in
            let item := Scheduler.set_cron cron item in
            finish item
        end
      else finish item
  end.

(** [RecoverGithubRepoScheduler.post]. *)
Fixpoint recover_loop (now : Q) (job_id_list : list string) : M (option Ret) :=
  match job_id_list with
  | [] => ret None
  | job_id :: rest =>
      found <- find_github_repo_scheduler job_id ;;
      match found with
      | None => ret (Some (build_ret JobNotFound (DataId job_id)))
      | Some item =>
          if decide (Scheduler.status item <> STOP) then
            ret (Some (build_ret SchedulerStatusNotStop (DataId job_id)))
          else
            recover_github_repo_task X now job_id ;;;
            recover_loop now rest
      end
  end.

Definition recover_post (now : Q) (job_id_list : list string) : M Ret :=
  early <- recover_loop now job_id_list ;;
  match early with
  | Some r => ret r
  | None => ret (build_ret Success (DataIds job_id_list))
  end.

(** [StopGithubRepoScheduler.post]. *)
Fixpoint stop_loop (job_id_list : list string) : M (option Ret) :=
  match job_id_list with
  | [] => ret None
  | job_id :: rest =>
      found <- find_github_repo_scheduler job_id ;;
      match found with
      | None => ret (Some (build_ret JobNotFound (DataId job_id)))
      | Some item =>
          if decide (Scheduler.status item <> RUNNING) then
            ret (Some (build_ret SchedulerStatusNotRunning (DataId job_id)))
          else
            stop_github_repo_task job_id ;;;
            stop_loop rest
      end
  end.

Definition stop_post (job_id_list : list string) : M Ret :=
  early <- stop_loop job_id_list ;;
  match early with
  | Some r => ret r
  | None => ret (build_ret Success (DataIds job_id_list))
  end.

End Routes.

(** ** [app/services/github_repo_monitor.py] *)

#[global] Instance TaskStatus_eq_dec : EqDecision TaskStatus.
Proof. solve_decision. Defined.

(** [GithubRepoEvent(event_data, event_type)]: the constructor together
    with [_parse_event]. *)
Definition GithubRepoEvent (event_data : Api.EventData) (event_type : string) : Event.t :=
  let field {A} (f : Api.Payload -> option A) : option A := Api.payload event_data ≫= f in
  let empty := {| Api.title := None; Api.html_url := None |} in
  {| Event.event_data := event_data;
     Event.event_type := event_type;
     Event.repo_name := default "" (Api.repo_full_name event_data);
     Event.created_at := default "" (Api.event_created_at event_data);
     Event.actor := default "Unknown" (Api.actor_login event_data);
     Event.event_id := default "" (Api.id event_data);
     Event.detail :=
       if String.eqb event_type "PushEvent" then
         PushDetail (default [] (field Api.commits)) (default "" (field Api.ref))
                    (default 0 (field Api.size))
       else if String.eqb event_type "IssuesEvent" then
         IssuesDetail (default "" (field Api.action)) (default empty (field Api.issue))
       else if String.eqb event_type "PullRequestEvent" then
         PullRequestDetail (default "" (field Api.action))
                           (default empty (field Api.pull_request))
       else if String.eqb event_type "CreateEvent" then
         CreateDetail (default "" (field Api.ref_type)) (default "" (field Api.ref))
       else if String.eqb event_type "DeleteEvent" then
         DeleteDetail (default "" (field Api.ref_type)) (default "" (field Api.ref))
       else if String.eqb event_type "ReleaseEvent" then
         ReleaseDetail (default "" (field Api.action))
           (default {| Api.release_name := None; Api.tag_name := None;
                       Api.release_html_url := None |} (field Api.release))
       else NoDetail |}.

(** [s.split('/')[-1]]. *)
Fixpoint last_segment (acc s : string) : string :=
  match s with
  | EmptyString => acc
  | String c r =>
      if Ascii.eqb c "/"%char then last_segment "" r
      else last_segment (acc +:+ String c "") r
  end.

(** [event.get_summary()]; the attributes read are those the constructor
    has set for the event's type. *)
Definition get_summary (e : Event.t) : string :=
  let actor := Event.actor e in
  match Event.detail e with
  | PushDetail _ ref size =>
      let branch := if truthy ref then last_segment "" ref else "unknown" in
      actor +:+ " pushed " +:+ pretty size +:+ " commit(s) to " +:+ branch
  | IssuesDetail action issue =>
      actor +:+ " " +:+ action +:+ " issue: " +:+ default "Unknown issue" (Api.title issue)
  | PullRequestDetail action pr =>
      actor +:+ " " +:+ action +:+ " pull request: " +:+ default "Unknown PR" (Api.title pr)
  | CreateDetail ref_type ref =>
      actor +:+ " created " +:+ ref_type +:+ ": " +:+ ref
  | DeleteDetail ref_type ref =>
      actor +:+ " deleted " +:+ ref_type +:+ ": " +:+ ref
  | ReleaseDetail action release =>
      actor +:+ " " +:+ action +:+ " release: " +:+
      default (default "Unknown" (Api.tag_name release)) (Api.release_name release)
  | NoDetail => actor +:+ " triggered " +:+ Event.event_type e
  end.

(** The events monitored when none are given to [GithubRepoMonitor]. *)
Definition default_monitored_events : list string :=
  ["PushEvent"; "IssuesEvent"; "PullRequestEvent";
   "CreateEvent"; "DeleteEvent"; "ReleaseEvent"].

Record GithubRepoMonitor := {
  monitor_repo_owner : string;
  monitor_repo_name : string;
  full_repo_name : string;
  monitored_events : list string
}.

Definition GithubRepoMonitor_init (repo_owner repo_name : string)
    (monitored_events : option (list string)) : GithubRepoMonitor :=
  {| monitor_repo_owner := repo_owner;
     monitor_repo_name := repo_name;
     full_repo_name := repo_owner +:+ "/" +:+ repo_name;
     monitored_events := default default_monitored_events monitored_events |}.

Section Monitor.
Context (X : Externals).

(** The loop of [fetch_events] over the decoded reply; [events] is
    [self.events]. *)
Fixpoint fetch_loop (self : GithubRepoMonitor) (since_time : option Q)
    (data : list Api.EventData) (events : list Event.t) : Exc (list Event.t) :=
  match data with
  | [] => Ok events
  | event_data :: rest =>
      let event_type := default "" (Api.type event_data) in
      if negb (bool_decide (event_type ∈ monitored_events self)) then
        fetch_loop self since_time rest events
      else
        let* old :=
          match since_time with
          | Some since =>
              let* created :=
                parse_datetime X (default "" (Api.event_created_at event_data)) in
              Ok (match created with
                  | Some c => Qle_bool c since
                  | None => false
                  end)
          | None => Ok false
          end in
        if (old : bool) then fetch_loop self since_time rest events
        else
          fetch_loop self since_time rest
            (events ++ [GithubRepoEvent event_data event_type])
  end.

(** [GithubRepoMonitor.fetch_events(since_time)] on a new monitor. *)
Definition monitor_fetch_events (self : GithubRepoMonitor) (since_time : option Q)
    : M (list Event.t) :=
  if negb (truthy (GITHUB_TOKEN X)) then ret []
  else
    let url := "https://api.github.com/repos/" +:+ full_repo_name self +:+ "/events" in
    let headers :=
      [("Authorization", "Bearer " +:+ GITHUB_TOKEN X);
       ("Accept", "application/vnd.github.v3+json")] in
    try_except
      (modify (emit (Sleep 1)) ;;;
       modify (emit (HttpGet url headers)) ;;;
       conn <- lift (http_get X url headers) ;;
       if negb (status_code conn =? 200)%Z then ret []
       else
         data <- lift (json conn) ;;
         lift (fetch_loop self since_time data []))
      (fun _ => ret []).

(** [monitor_github_repo(repo_owner, repo_name, since_time, monitored_events)]. *)
Definition monitor_github_repo (repo_owner repo_name : string)
    (since_time : option Q) (monitored_events : option (list string))
    : M (list Event.t) :=
  let monitor := GithubRepoMonitor_init repo_owner repo_name monitored_events in
  monitor_fetch_events monitor since_time.

End Monitor.

(** The lines of [format_events_for_dingtalk] for the event numbered [idx]. *)
Definition format_event (idx : nat) (event : Event.t) : string :=
  "**" +:+ pretty idx +:+ ". " +:+ Event.event_type event +:+ "**" +:+ nl +:+ nl +:+
  "- **操作者**: " +:+ Event.actor event +:+ nl +:+
  "- **时间**: " +:+ Event.created_at event +:+ nl +:+
  "- **详情**: " +:+ get_summary event +:+ nl +:+ nl +:+
  match Event.detail event with
  | PushDetail (commit :: _) _ _ =>
      "- **提交信息**: " +:+
      py_take 100 (default "N/A" (Api.message commit)) +:+ nl
  | IssuesDetail _ issue =>
      "- **Issue链接**: " +:+ default "N/A" (Api.html_url issue) +:+ nl
  | PullRequestDetail _ pr =>
      "- **PR链接**: " +:+ default "N/A" (Api.html_url pr) +:+ nl
  | ReleaseDetail _ release =>
      "- **Release链接**: " +:+ default "N/A" (Api.release_html_url release) +:+ nl
  | _ => ""
  end +:+ nl.

Fixpoint format_event_list (idx : nat) (events : list Event.t) : string :=
  match events with
  | [] => ""
  | event :: rest => format_event idx event +:+ format_event_list (S idx) rest
  end.

(** [format_events_for_dingtalk(repo_owner, repo_name, events)]. *)
Definition format_events_for_dingtalk (repo_owner repo_name : string)
    (events : list Event.t) : string :=
  match events with
  | [] =>
      "### GitHub 仓库监控 - " +:+ repo_owner +:+ "/" +:+ repo_name +:+ nl +:+ nl +:+
      "暂无新事件"
  | _ =>
      "### GitHub 仓库监控" +:+ nl +:+ nl +:+
      "**仓库**: [" +:+ repo_owner +:+ "/" +:+ repo_name +:+
        "](https://github.com/" +:+ repo_owner +:+ "/" +:+ repo_name +:+ ")" +:+ nl +:+ nl +:+
      "**事件数量**: " +:+ pretty (length events) +:+ nl +:+ nl +:+
      "---" +:+ nl +:+ nl +:+
      format_event_list 1 (take 10 events) +:+
      (if (10 <? length events)%nat then
         nl +:+ "... 还有 " +:+ pretty (length events - 10)%nat +:+ " 个事件未显示" +:+ nl
       else "")
  end.

(** ** [app/services/dingtalk_webhook.py] *)

Record DingTalkWebhook := {
  webhook_url : string;
  secret : string
}.

Definition errcode_dict (errmsg : string) : PyValue :=
  PyDict [("errcode", PyInt (-1)); ("errmsg", PyStr errmsg)].

Section DingTalk.
Context (X : Externals).

(** [DingTalkWebhook(webhook_url, secret)]. *)
Definition DingTalkWebhook_init (webhook_url secret : string) : DingTalkWebhook :=
  {| webhook_url := py_or webhook_url (DINGTALK_WEBHOOK_URL X);
     secret := py_or secret (DINGDING_SECRET X) |}.

(** [self._generate_sign()]. *)
Definition _generate_sign (self : DingTalkWebhook) (now : Q) : string * string :=
  let timestamp := pretty (py_round (now * 1000)%Q) in
  (timestamp, hmac_sign X (secret self) timestamp).

(** The URL of a send operation: signed when a secret is configured. *)
Definition request_url (self : DingTalkWebhook) (now : Q) : string :=
  let url := webhook_url self in
  if truthy (secret self) then
    let '(timestamp, sign) := _generate_sign self now in
    url +:+ "&timestamp=" +:+ timestamp +:+ "&sign=" +:+ sign
  else url.

(** The ["at"] entry of a message. *)
Definition at_entry (at_mobiles : list string) (is_at_all : bool)
    : option (list string * bool) :=
  match at_mobiles, is_at_all with
  | [], false => None
  | _, _ => Some (at_mobiles, is_at_all)
  end.

(** The [try] block shared by the send operations. *)
Definition post_message (url : string) (message : Message) : M PyValue :=
  try_except
    (modify (emit (HttpPost url message)) ;;;
     conn <- lift (http_post X url message) ;;
     response <- lift (json conn) ;;
     _ <- lift (py_get response "errcode" (PyInt (-1))) ;;
     ret response)
    (fun e => ret (errcode_dict e)).

(** [self.send_text(content, at_mobiles, is_at_all)]. *)
Definition send_text (self : DingTalkWebhook) (now : Q) (content : string)
    (at_mobiles : list string) (is_at_all : bool) : M PyValue :=
  if negb (truthy (webhook_url self)) then
    ret (errcode_dict "Webhook URL not configured")
  else
    let url := request_url self now in
    let message :=
      {| body := TextMessage content; at_ := at_entry at_mobiles is_at_all |} in
    post_message url message.

(** [self.send_markdown(title, content, at_mobiles, is_at_all)]. *)
Definition send_markdown (self : DingTalkWebhook) (now : Q) (title content : string)
    (at_mobiles : list string) (is_at_all : bool) : M PyValue :=
  if negb (truthy (webhook_url self)) then
    ret (errcode_dict "Webhook URL not configured")
  else
    let url := request_url self now in
    let message :=
      {| body := MarkdownMessage title content;
         at_ := at_entry at_mobiles is_at_all |} in
    post_message url message.

(** [self.send_link(title, text, message_url, pic_url)]. *)
Definition send_link (self : DingTalkWebhook) (now : Q)
    (title text message_url pic_url : string) : M PyValue :=
  if negb (truthy (webhook_url self)) then
    ret (errcode_dict "Webhook URL not configured")
  else
    let url := request_url self now in
    let message :=
      {| body := LinkMessage title text message_url
                   (if truthy pic_url then Some pic_url else None);
         at_ := None |} in
    post_message url message.

(** [send_github_event_notification(repo_owner, repo_name, events,
    webhook_url, secret)]. *)
Definition send_github_event_notification (now : Q) (repo_owner repo_name : string)
    (events : list Event.t) (webhook_url secret : string) : M PyValue :=
  let dingtalk := DingTalkWebhook_init webhook_url secret in
  let title := "GitHub 监控 - " +:+ repo_owner +:+ "/" +:+ repo_name in
  let content := format_events_for_dingtalk repo_owner repo_name events in
  send_markdown dingtalk now title content [] false.

End DingTalk.

(** ** [app/tasks/github.py] *)

Record GithubRepoMonitorTask := {
  task_id : string;
  repo_owner : string;
  repo_name : string;
  scheduler_id : option string;
  events : list Event.t
}.

Definition set_events (events : list Event.t) (self : GithubRepoMonitorTask)
    : GithubRepoMonitorTask :=
  {| task_id := task_id self; repo_owner := repo_owner self;
     repo_name := repo_name self; scheduler_id := scheduler_id self;
     events := events |}.

(** The document [find_one(query, sort=[("end_time", -1)])] returns among
    [l]: one with the greatest [end_time]. *)
Fixpoint latest_by_end_time (l : list Task.doc) : option Task.doc :=
  match l with
  | [] => None
  | t :: r =>
      match latest_by_end_time r with
      | None => Some t
      | Some u =>
          if String.ltb (Task.end_time t) (Task.end_time u) then Some u else Some t
      end
  end.

(** The documents matching the query of [save_events] for [event]: same
    [event_id] and same [github_repo_scheduler_id]. *)
Definition existing_records (self : GithubRepoMonitorTask) (event : Event.t)
    (l : list Event.doc) : list Event.doc :=
  filter (fun d => Event.event_id (Event.of_event d) = Event.event_id event
                   /\ Event.github_repo_scheduler_id d = scheduler_id self) l.

Section Worker.
Context (X : Externals).

Definition GithubRepoMonitorTask_init (task_id repo_owner repo_name : string)
    (scheduler_id : option string) : GithubRepoMonitorTask :=
  {| task_id := task_id; repo_owner := repo_owner; repo_name := repo_name;
     scheduler_id := scheduler_id; events := [] |}.

Definition update_status (self : GithubRepoMonitorTask) (value : TaskStatus) : M unit :=
  oid <- lift (ObjectId (task_id self)) ;;
  modify (emit (StatusWrite oid value)) ;;;
  modify (with_task (alter (Task.set_status value) oid)).

Definition set_start_time (self : GithubRepoMonitorTask) (now : Q) : M unit :=
  oid <- lift (ObjectId (task_id self)) ;;
  modify (with_task (alter (Task.set_start_time (curr_date X now)) oid)).

Definition set_end_time (self : GithubRepoMonitorTask) (now : Q) : M unit :=
  oid <- lift (ObjectId (task_id self)) ;;
  modify (with_task (alter (Task.set_end_time (curr_date X now)) oid)).

(** [self.get_last_check_time()]. *)
Definition get_last_check_time (self : GithubRepoMonitorTask) (now : Q) : M (option Q) :=
  last_task <- gets (fun w =>
    latest_by_end_time
      (filter (fun t => Task.github_repo_scheduler_id t = scheduler_id self
                        /\ Task.status t = DONE)
              (map_to_list (db_task w)).*2)) ;;
  let fallback : M (option Q) := ret (Some (now - 3600)%Q) in
  match last_task with
  | Some t =>
      if truthy (Task.end_time t) then
        match parse_datetime X (Task.end_time t) with
        | Ok last_time => ret last_time
        | Raise _ => fallback
        end
      else fallback
  | None => fallback
  end.

(** [self.fetch_events()]: the task with [self.events] assigned. *)
Definition fetch_events (self : GithubRepoMonitorTask) (now : Q)
    : M GithubRepoMonitorTask :=
  update_status self (Phase "fetching events") ;;;
  try_except
    (last_check_time <- get_last_check_time self now ;;
     events <- monitor_github_repo X (repo_owner self) (repo_name self)
                 last_check_time None ;;
     ret (set_events events self))
    (fun _ => ret self).

(** The [event_data] dictionary [save_events] builds for [event]. *)
Definition event_doc (self : GithubRepoMonitorTask) (now : Q) (event : Event.t) : Event.doc :=
  {| Event.of_event := event;
     Event.github_repo_scheduler_id := scheduler_id self;
     Event.github_repo_task_id := task_id self;
     Event.saved_at := curr_date_obj X now |}.

(** One iteration of the loop of [save_events]. *)
Definition save_event (self : GithubRepoMonitorTask) (now : Q) (event : Event.t) : M unit :=
  let event_data := event_doc self now event in
  existing <- gets (fun w => existing_records self event (db_event w)) ;;
  match existing with
  | [] => modify (with_event (fun l => (l ++ [event_data])%list))
  | _ :: _ => ret tt
  end.

(** [self.save_events()]. *)
Definition save_events (self : GithubRepoMonitorTask) (now : Q) : M unit :=
  update_status self
    (Phase ("saving " +:+ pretty (length (events self)) +:+ " events")) ;;;
  for_each (save_event self now) (events self).

(** [self.send_notification()]. *)
Definition send_notification (self : GithubRepoMonitorTask) (now : Q) : M unit :=
  match events self with
  | [] => ret tt
  | _ :: _ =>
      try_except
        (let webhook_url := DINGTALK_WEBHOOK_URL X in
         let secret := DINGDING_SECRET X in
         if negb (truthy webhook_url) then ret tt
         else
           response <- send_github_event_notification X now
                         (repo_owner self) (repo_name self) (events self)
                         webhook_url secret ;;
           _ <- lift (py_get response "errcode" (PyInt (-1))) ;;
           ret tt)
        (fun _ => ret tt)
  end.

(** [self.statistic()]. *)
Definition statistic (self : GithubRepoMonitorTask) : M unit :=
  oid <- lift (ObjectId (task_id self)) ;;
  modify (with_task
    (alter (Task.set_statistic (Z.of_nat (length (events self)))) oid)).

(** [self.run()]. *)
Definition run (self : GithubRepoMonitorTask) (now : Q) : M unit :=
  set_start_time self now ;;;
  try_finally
    (try_except
       (self <- fetch_events self now ;;
        save_events self now ;;;
        send_notification self now ;;;
        statistic self ;;;
        update_status self DONE)
       (fun _ => update_status self ERROR))
    (set_end_time self now).

(** [github_repo_monitor_task(task_id, repo_owner, repo_name, scheduler_id)]. *)
Definition github_repo_monitor_task (now : Q) (task_id repo_owner repo_name : string)
    (scheduler_id : option string) : M unit :=
  let task := GithubRepoMonitorTask_init task_id repo_owner repo_name scheduler_id in
  try_except
    (if negb (truthy (GITHUB_TOKEN X)) then
       update_status task ERROR ;;;
       set_end_time task now
     else run task now)
    (fun _ =>
       update_status task ERROR ;;;
       set_end_time task now).

End Worker.

(** ** What a tick does to one entry *)

(** The entry [github_repo_cron_run] stores for [item], [entry] being its
    parsed expression. *)
Definition fired_item (X : Externals) (now : Q) (entry : Q -> Q)
    (item : Scheduler.item) : Scheduler.item :=
  let item := Scheduler.set_run_number (Scheduler.run_number item + 1) item in
  let item := Scheduler.set_last_run_date (curr_date X now) item in
  let item := Scheduler.set_last_run_time (py_int now) item in
  let now_time := (now + 61)%Q in
  Scheduler.set_next_run_date
    (time2date X (now_time + entry now_time - 60)%Q) item.

(** The stored entry after the loop body has handled it. *)
Definition tick_entry (X : Externals) (now : Q) (item : Scheduler.item)
    : Scheduler.item :=
  if fires X now item then
    match CronTab X (Scheduler.cron item) with
    | Ok entry => fired_item X now entry item
    | Raise _ => item
    end
  else item.

(** ** Orphaned tasks *)

(** A work item for the task is in the worker queue. *)
Definition enqueued (w : World) (task_id : string) : Prop :=
  exists celery_id o, (celery_id, o) ∈ celery_queue w /\ data_task_id o = task_id.

(** Every WAITING task record has its work item. *)
Definition no_orphan_waiting (w : World) : Prop :=
  forall task_id t,
    db_task w !! task_id = Some t ->
    Task.status t = WAITING ->
    enqueued w task_id.

(** ** Operations on the registry *)

Inductive Operation :=
| Create (name repo_owner repo_name cron : string) (monitored_events : list string)
| Update (job_id name repo_owner repo_name cron : string) (monitored_events : list string)
| Stop (job_id_list : list string)
| Recover (job_id_list : list string)
| Tick.

(** The store after an operation handled at [now]. *)
Definition perform (X : Externals) (now : Q) (op : Operation) (w : World) : World :=
  match op with
  | Create name repo_owner repo_name cron monitored_events =>
      (add_post X now name repo_owner repo_name cron monitored_events w).1
  | Update job_id name repo_owner repo_name cron monitored_events =>
      (update_post X now job_id name repo_owner repo_name cron monitored_events w).1
  | Stop job_id_list => (stop_post job_id_list w).1
  | Recover job_id_list => (recover_post X now job_id_list w).1
  | Tick => (github_repo_scheduler X now w).1
  end.

(** The run bookkeeping of an entry. *)
Definition counters (i : Scheduler.item) : Z * Z :=
  (Scheduler.run_number i, Scheduler.last_run_time i).

(** Every entry of [m] is still in [m'], with the same bookkeeping. *)
Definition keeps_counters (m m' : gmap string Scheduler.item) : Prop :=
  forall k i, m !! k = Some i ->
    exists i', m' !! k = Some i' /\ counters i' = counters i.

(** ** Cascading deletion *)

(** The store once [delete_github_repo_scheduler] has handled an [_id]
    that is spelled as the store renders it. *)
Definition purge (_id : string) (w : World) : World :=
  with_task
    (filter (fun kv : string * Task.doc =>
               Task.github_repo_scheduler_id kv.2 <> Some _id))
    (with_event
       (filter (fun d => Event.github_repo_scheduler_id d <> Some _id))
       (with_scheduler (delete _id) w)).

(** No record of the store can be reached through the schedule id. *)
Definition unreachable (_id : string) (w : World) : Prop :=
  db_scheduler w !! _id = None /\
  (forall k t, db_task w !! k = Some t ->
     Task.github_repo_scheduler_id t <> Some _id) /\
  (forall d, d ∈ db_event w -> Event.github_repo_scheduler_id d <> Some _id).

(** The records of [w'] are records of [w]. *)
Definition shrinks (w w' : World) : Prop :=
  (forall k i, db_scheduler w' !! k = Some i -> db_scheduler w !! k = Some i) /\
  (forall k t, db_task w' !! k = Some t -> db_task w !! k = Some t) /\
  (forall d, d ∈ db_event w' -> d ∈ db_event w).

(** ** What a send operation returns *)

(** The value the [try] block of a send operation ends with: the server's
    reply when it is a JSON object, the errcode -1 dictionary when the
    request, the decoding of its body, or [.get] on the reply raises. *)
Definition reply_of (X : Externals) (url : string) (message : Message) : PyValue :=
  match http_post X url message with
  | Ok conn =>
      match json conn with
      | Ok (PyDict d) => PyDict d
      | Ok v => errcode_dict (no_get v)
      | Raise e => errcode_dict e
      end
  | Raise e => errcode_dict e
  end.

(** [r] is a dictionary, and holds errcode -1 unless it is the JSON object
    the server replied to [url]. *)
Definition send_result (X : Externals) (url : string) (message : Message)
    (r : PyValue) : Prop :=
  exists d, r = PyDict d /\
    (dict_get d "errcode" = Some (PyInt (-1)) \/
     exists conn, http_post X url message = Ok conn /\ json conn = Ok (PyDict d)).

(** ** Persisting and notifying a batch *)

(** The event collection after the loop of [save_events] over [batch]. *)
Definition save_all (X : Externals) (self : GithubRepoMonitorTask) (now : Q)
    (batch : list Event.t) (stored : list Event.doc) : list Event.doc :=
  foldl (fun acc event =>
           match existing_records self event acc with
           | [] => acc ++ [event_doc X self now event]
           | _ :: _ => acc
           end) stored batch.


(** ** Concrete collaborators

    An instance of [Externals] to run the code on: dates are written as
    epoch seconds in decimal, the only cron expression is every five
    minutes, the worker queue answers [delay], the events endpoint returns
    [feed] and the webhook answers [reply]. *)

Module Sample.

(** Seconds until the next multiple of five minutes. *)
Definition every_five_minutes (now : Q) : Q :=
  (inject_Z (300 * (Qfloor (now / 300) + 1)) - now)%Q.

Definition cron_tab (expr : string) : Exc (Q -> Q) :=
  if String.eqb expr "*/5 * * * *" then Ok every_five_minutes
  else Raise "ValueError".

Fixpoint decimal (acc : Z) (s : string) : Exc Z :=
  match s with
  | EmptyString => Ok acc
  | String c r =>
      let n := Z.of_nat (nat_of_ascii c) - 48 in
      if ((0 <=? n)%Z && (n <=? 9)%Z)%bool then decimal (10 * acc + n) r
      else Raise "ValueError"
  end.

Definition parse (s : string) : Exc (option Q) :=
  match s with
  | EmptyString => Ok None
  | _ => let* n := decimal 0 s in Ok (Some (inject_Z n))
  end.

Definition date (t : Q) : string := pretty (Qfloor t).

(** A 24-character id numbering the documents of a collection. *)
Definition object_id (ids : gset string) : string :=
  let n := pretty (size ids) in
  String.substring 0 (24 - String.length n) "000000000000000000000000" +:+ n.

Definition externals (delay : TaskOptions -> Exc string) (feed : list Api.EventData)
    (reply : Exc (HttpResponse PyValue)) (token url key : string) : Externals :=
  {| CronTab := cron_tab;
     check_cron_interval := fun expr =>
       match cron_tab expr with
       | Ok _ => None
       | Raise e => Some (build_ret Error (DataMessage e))
       end;
     check_cron := fun expr now => let* entry := cron_tab expr in Ok (entry now);
     time2date := date;
     curr_date := date;
     curr_date_obj := date;
     parse_datetime := parse;
     new_ObjectId := object_id;
     celery_delay := delay;
     arl_github := fun _ => ret tt;
     http_get := fun _ _ => Ok {| status_code := 200; json := Ok feed |};
     http_post := fun _ _ => reply;
     hmac_sign := fun _ timestamp => "signature-" +:+ timestamp;
     GITHUB_TOKEN := token;
     DINGTALK_WEBHOOK_URL := url;
     DINGDING_SECRET := key |}.

Definition delay_ok (o : TaskOptions) : Exc string :=
  Ok ("celery-" +:+ data_task_id o).

Definition delay_down (_ : TaskOptions) : Exc string :=
  Raise "ConnectionError".

Definition reply_ok : Exc (HttpResponse PyValue) :=
  Ok {| status_code := 200;
        json := Ok (PyDict [("errcode", PyInt 0); ("errmsg", PyStr "ok")]) |}.

Definition hook : string := "https://oapi.dingtalk.com/robot/send?access_token=t".

(** Everything configured and answering. *)
Definition up (feed : list Api.EventData) : Externals :=
  externals delay_ok feed reply_ok "token" hook "".

(** The worker queue refuses every work item. *)
Definition queue_down : Externals :=
  externals delay_down [] reply_ok "token" hook "".

(** No source-API token is configured. *)
Definition no_token : Externals :=
  externals delay_ok [] reply_ok "" hook "".

(** The webhook answers with an object that has no ['errcode']. *)
Definition bare_reply : Externals :=
  externals delay_ok []
    (Ok {| status_code := 200; json := Ok (PyDict [("status", PyStr "accepted")]) |})
    "token" hook "".

Definition empty_world : World :=
  {| db_scheduler := ∅; db_task := ∅; db_event := [];
     celery_queue := []; trace := [] |}.

Definition sid : string := "65f000000000000000000001".

Definition tid : string := "65f0000000000000000000a1".

(** An entry every five minutes that last ran at [last]. *)
Definition entry (events : list string) (last : Z) (st : SchedulerStatus) : Scheduler.item :=
  {| Scheduler.name := "arl";
     Scheduler.repo_owner := "octocat";
     Scheduler.repo_name := "Hello-World";
     Scheduler.cron := "*/5 * * * *";
     Scheduler.monitored_events := events;
     Scheduler.run_number := 0;
     Scheduler.last_run_date := "-";
     Scheduler.last_run_time := last;
     Scheduler.next_run_date := "-";
     Scheduler.status := st |}.

Definition waiting_task : Task.doc :=
  {| Task.name := "GitHub仓库监控-arl";
     Task.repo_owner := "octocat";
     Task.repo_name := "Hello-World";
     Task.start_time := "-";
     Task.end_time := "-";
     Task.github_repo_scheduler_id := Some sid;
     Task.status := WAITING;
     Task.celery_id := "";
     Task.statistic := None |}.

Definition world_of (item : Scheduler.item) : World :=
  with_task (insert tid waiting_task)
    (with_scheduler (insert sid item) empty_world).

Definition event_of (event_id event_type created : string) : Api.EventData :=
  {| Api.id := Some event_id;
     Api.type := Some event_type;
     Api.event_created_at := Some created;
     Api.actor_login := Some "octocat";
     Api.repo_full_name := Some "octocat/Hello-World";
     Api.payload := None |}.

(** A reply of the events endpoint with one recent issues event. *)
Definition issue_feed : list Api.EventData :=
  [event_of "evt-2" "IssuesEvent" "1700000000"].


End Sample.

(** ** What the fetch keeps *)

(** The test of the loop of [GithubRepoMonitor.fetch_events] on one event:
    its type is monitored and, when a time is given, its creation time is
    not parsed to an instant at or before it. *)
Definition kept (X : Externals) (self : GithubRepoMonitor) (since_time : option Q)
    (event_data : Api.EventData) : bool :=
  bool_decide (default "" (Api.type event_data) ∈ monitored_events self) &&
  match since_time with
  | None => true
  | Some since =>
      match parse_datetime X (default "" (Api.event_created_at event_data)) with
      | Ok (Some created) => negb (Qle_bool created since)
      | _ => true
      end
  end.

(** The event object the loop builds for [event_data]. *)
Definition event_of_data (event_data : Api.EventData) : Event.t :=
  GithubRepoEvent event_data (default "" (Api.type event_data)).

(** [parse_datetime] raises on the creation time of [event_data]. *)
Definition unparsable (X : Externals) (event_data : Api.EventData) : Prop :=
  exists e, parse_datetime X (default "" (Api.event_created_at event_data)) = Raise e.


(** ** The worker's bookkeeping on its task record *)

(** The key the existence check of [save_events] compares. *)
Definition record_key (d : Event.doc) : string * option string :=
  (Event.event_id (Event.of_event d), Event.github_repo_scheduler_id d).


(** ** Blank strings *)

(** [s] is a sequence of white-space characters. *)
Definition blank (s : string) : Prop :=
  exists l, Forall (fun x => x ∈ white_space) l /\ s = join l.

(** ** [send_dingtalk_notification] *)

Section DingTalkMore.
Context (X : Externals).

(** [send_dingtalk_notification(title, content, msgtype, webhook_url, secret)]. *)
Definition send_dingtalk_notification (now : Q) (title content msgtype : string)
    (webhook_url secret : string) : M PyValue :=
  let dingtalk := DingTalkWebhook_init X webhook_url secret in
  if String.eqb msgtype "text" then send_text X dingtalk now content [] false
  else send_markdown X dingtalk now title content [] false.

End DingTalkMore.

(** ** [GithubTaskMonitor]: the keyword monitor of [app/tasks/github.py]

    The search results are instances of [GithubResult], a class of another
    file, taken with the attributes the code reads; [human_content] is its
    method.  An element of [results] that is not an instance is [None].  The
    collections this code writes are kept in a store of their own; of a
    [github_task] document only the status matters here. *)

Module Search.

Record GithubResult := {
  hash_md5 : string;
  path : string;
  content : string;
  repo_full_name : string;
  html_url : string;
  commit_date : string
}.

(** What [save_mongo] inserts in [github_monitor_result]: [result_to_dict]
    with the two keys it adds. *)
Record item := {
  of_result : GithubResult;
  human_content : string;
  keyword : string;
  github_task_id : string;
  github_scheduler_id : string;
  update_date : string
}.

Record Store := {
  github_task : gmap string TaskStatus;
  github_hash : list (string * string);
  github_monitor_result : list item
}.

(** The fields of a [GithubTaskMonitor]. *)
Record Monitor := {
  task_id : string;
  task_keyword : string;
  scheduler_id : string;
  results : list (option GithubResult);
  hash_md5_list : list string;
  new_results : list GithubResult
}.

Definition set_lists (hashes : list string) (new : list GithubResult) (self : Monitor)
    : Monitor :=
  {| task_id := task_id self; task_keyword := task_keyword self;
     scheduler_id := scheduler_id self; results := results self;
     hash_md5_list := hashes; new_results := new |}.

(** [needle in hay] on strings. *)
Fixpoint contains (needle hay : string) : bool :=
  String.prefix needle hay ||
  match hay with
  | EmptyString => false
  | String _ rest => contains needle rest
  end.

Definition path_keyword_list : list string :=
  ["open-app-filter/"; "/adbyby"; "/adblock"; "luci-app-dnsfilter/";
   "Spider/"; "/spider"; "_files/"; "alexa_10k.json"; "/WeWorkProviderTest.php"].

Definition content_keyword_list : list string :=
  ["DOMAIN-SUFFIX"; "HOST-SUFFIX"; "name:[proto;sport;dport;host";
   String.append "  " (String (ascii_of_nat 34) "websites")
     +:+ String (ascii_of_nat 34) ": [";
   "import android.app.Application;"; "import android.app.Activity;"].

(** [self.filter_result(result)]. *)
Definition filter_result (result : GithubResult) : bool :=
  existsb (fun p => contains p (path result)) path_keyword_list ||
  existsb (fun k => contains k (content result)) content_keyword_list.

(** [self.init_md5_list()]: the loop over the hashes stored for the
    scheduler. *)
Definition init_md5_list (self : Monitor) (s : Store) : Monitor :=
  let hashes :=
    (filter (fun h : string * string => h.2 = scheduler_id self) (github_hash s)).*1 in
  set_lists
    (foldl (fun l h => if bool_decide (h ∈ l) then l else l ++ [h])
           (hash_md5_list self) hashes)
    (new_results self) self.

Section Monitor.
Context (human : GithubResult -> string -> string) (curr_date_obj : string).

(** The loop of [save_mongo]. *)
Fixpoint save_loop (self : Monitor) (todo : list (option GithubResult)) (s : Store)
    : Monitor * Store :=
  match todo with
  | [] => (self, s)
  | None :: rest => save_loop self rest s
  | Some result :: rest =>
      if bool_decide (hash_md5 result ∈ hash_md5_list self) then save_loop self rest s
      else
        let self := set_lists (hash_md5_list self ++ [hash_md5 result])
                      (new_results self) self in
        let s :=
          {| github_task := github_task s;
             github_hash := github_hash s ++ [(hash_md5 result, scheduler_id self)];
             github_monitor_result := github_monitor_result s |} in
        if filter_result result then save_loop self rest s
        else
          let it :=
            {| of_result := result;
               human_content := human result (task_keyword self);
               keyword := task_keyword self;
               github_task_id := task_id self;
               github_scheduler_id := scheduler_id self;
               update_date := curr_date_obj |} in
          save_loop
            (set_lists (hash_md5_list self) (new_results self ++ [result]) self) rest
            {| github_task := github_task s;
               github_hash := github_hash s;
               github_monitor_result := github_monitor_result s ++ [it] |}
  end.

(** [self.save_mongo()]. *)
Definition save_mongo (self : Monitor) (s : Store) : Monitor * Store * Exc unit :=
  match ObjectId (task_id self) with
  | Raise e => (self, s, Raise e)
  | Ok oid =>
      let s :=
        {| github_task := alter (fun _ => Phase "fetch content") oid (github_task s);
           github_hash := github_hash s;
           github_monitor_result := github_monitor_result s |} in
      let '(self, s) := save_loop self (results self) s in
      (self, s, Ok tt)
  end.

End Monitor.

(** One step of the loop of [build_repo_map]; the dictionary is the list of
    its items in insertion order. *)
Fixpoint repo_map_add (repo_map : list (string * list GithubResult))
    (result : GithubResult) : list (string * list GithubResult) :=
  match repo_map with
  | [] => [(repo_full_name result, [result])]
  | (repo_name, group) :: rest =>
      if String.eqb repo_name (repo_full_name result)
      then (repo_name, group ++ [result]) :: rest
      else (repo_name, group) :: repo_map_add rest result
  end.

(** [self.build_repo_map()]. *)
Definition build_repo_map (self : Monitor) : list (string * list GithubResult) :=
  foldl repo_map_add [] (new_results self).

(** The line of the markdown report for [item], numbered [n]. *)
Definition entry_line (n : nat) (item : GithubResult) : string :=
  pretty n +:+ ". [" +:+ (repo_full_name item +:+ " " +:+ path item) +:+ "](" +:+
  html_url item +:+ ")  " +:+ nl.

(** The inner loop of [build_markdown_report], with its two counters. *)
Fixpoint markdown_items (tr_cnt global_cnt : nat) (items : list GithubResult)
    (markdown : string) : string * nat :=
  match items with
  | [] => (markdown, global_cnt)
  | item :: rest =>
      let tr_cnt := S tr_cnt in
      let global_cnt := S global_cnt in
      let markdown := markdown +:+ entry_line global_cnt item in
      if (5 <? tr_cnt)%nat then (markdown, global_cnt)
      else markdown_items tr_cnt global_cnt rest markdown
  end.

(** The outer loop of [build_markdown_report]. *)
Fixpoint markdown_repos (repo_cnt global_cnt : nat)
    (repo_map : list (string * list GithubResult)) (markdown : string) : string :=
  match repo_map with
  | [] => markdown
  | (_, items) :: rest =>
      let repo_cnt := S repo_cnt in
      if (5 <? repo_cnt)%nat then markdown
      else
        let '(markdown, global_cnt) := markdown_items 0 global_cnt items markdown in
        markdown_repos repo_cnt global_cnt rest markdown
  end.

Definition markdown_header (self : Monitor) : string :=
  "[监控-Github-" +:+ task_keyword self +:+ "] " +:+ nl +:+ " 仓库数:" +:+
  pretty (length (build_repo_map self)) +:+ "  结果数:" +:+
  pretty (length (new_results self)) +:+ " " +:+ nl +:+ " --- " +:+ nl.

(** [self.build_markdown_report()]. *)
Definition build_markdown_report (self : Monitor) : string :=
  markdown_repos 0 0 (build_repo_map self) (markdown_header self).

(** The lines for [items], numbered from [n + 1]. *)
Fixpoint entry_lines (n : nat) (items : list GithubResult) : string :=
  match items with
  | [] => ""
  | item :: rest => entry_line (S n) item +:+ entry_lines (S n) rest
  end.

End Search.

(** The items of the dictionary under the results [rs]: the keys are
    distinct, and the value under a repository name is the list of the
    results of that repository, in their order. *)
Definition groups_of (repo_map : list (string * list Search.GithubResult))
    (rs : list Search.GithubResult) : Prop :=
  NoDup repo_map.*1 /\
  forall name group,
    (name, group) ∈ repo_map <->
    group = filter (fun r => Search.repo_full_name r = name) rs /\ group <> [].

(** ** More concrete inputs *)

Module Cases.

(** A store with one entry and nothing else. *)
Definition registry (item : Scheduler.item) : World :=
  with_scheduler (insert Sample.sid item) Sample.empty_world.

(** A stopped entry whose cron expression does not parse. *)
Definition broken : Scheduler.item :=
  Scheduler.set_cron "every now and then" (Sample.entry [] 0 STOP).

(** A push event whose creation time is no date. *)
Definition undated : Api.EventData :=
  Sample.event_of "evt-9" "PushEvent" "yesterday".

Definition monitor : GithubRepoMonitor :=
  GithubRepoMonitor_init "octocat" "Hello-World" None.

Definition leak : Search.GithubResult :=
  {| Search.hash_md5 := "0cc175b9c0f1b6a831c399e269772661";
     Search.path := "config/settings.py";
     Search.content := "password = hunter2";
     Search.repo_full_name := "octocat/Hello-World";
     Search.html_url := "https://github.com/octocat/Hello-World/blob/main/config/settings.py";
     Search.commit_date := "2024-01-01" |}.

Definition crawler : Search.GithubResult :=
  {| Search.hash_md5 := "92eb5ffee6ae2fec3ad71c777531578f";
     Search.path := "tools/spider/run.py";
     Search.content := "password list";
     Search.repo_full_name := "octocat/Spoon-Knife";
     Search.html_url := "https://github.com/octocat/Spoon-Knife/blob/main/tools/spider/run.py";
     Search.commit_date := "2024-01-02" |}.

(** A new keyword monitor with its search results. *)
Definition keyword_monitor : Search.Monitor :=
  {| Search.task_id := Sample.tid;
     Search.task_keyword := "password";
     Search.scheduler_id := Sample.sid;
     Search.results := [Some leak; None; Some crawler; Some leak];
     Search.hash_md5_list := [];
     Search.new_results := [] |}.

Definition empty_store : Search.Store :=
  {| Search.github_task := ∅;
     Search.github_hash := [];
     Search.github_monitor_result := [] |}.

Definition human (result : Search.GithubResult) (keyword : string) : string :=
  Search.content result.

(** The id of the sample entry spelled in upper case. *)
Definition upper_sid : string := "65F000000000000000000001".

(** The id of another entry. *)
Definition other_sid : string := "65f000000000000000000002".

Definition push : Event.t :=
  GithubRepoEvent (Sample.event_of "evt-1" "PushEvent" "1700000000") "PushEvent".

Definition issue : Event.t :=
  GithubRepoEvent (Sample.event_of "evt-2" "IssuesEvent" "1700000000") "IssuesEvent".

(** The worker's task for the schedule [sched] holding the events [batch]. *)
Definition task_of (sched : string) (batch : list Event.t) : GithubRepoMonitorTask :=
  {| task_id := Sample.tid;
     repo_owner := "octocat";
     repo_name := "Hello-World";
     scheduler_id := Some sched;
     events := batch |}.

(** The record of [event] as an earlier run for [sched] stored it. *)
Definition stored (sched : string) (event : Event.t) : Event.doc :=
  event_doc (Sample.up []) (task_of sched []) 1699999000 event.

(** The sample entry with its task and the given event records. *)
Definition world_with (records : list Event.doc) : World :=
  with_event (fun _ => records) (Sample.world_of (Sample.entry [] 0 RUNNING)).

End Cases.

(** * Properties *)

(** ** Arithmetic of the clock *)



(** ** The store monad *)

Ltac unfold_m :=
  unfold bind, ret, raise, lift, modify, gets, try_except, try_finally in *.

Lemma ObjectId_len (s oid : string) : ObjectId s = Ok oid -> py_len s = 24%nat.
Proof.
  unfold ObjectId. destruct (py_len s =? 24)%nat eqn:E; [|done].
  intros _. by apply Nat.eqb_eq.
Qed.


Lemma is_hex_starts_char (c : ascii) : is_hex c = true -> starts_char c = true.
Proof.
  unfold is_hex, starts_char. cbv zeta. generalize (nat_of_ascii c). intros n H.
  apply orb_true_iff. left. apply Nat.ltb_lt.
  repeat (apply orb_true_iff in H as [H|H]);
    apply andb_true_iff in H as [_ H]; apply Nat.leb_le in H; lia.
Qed.

Lemma all_hex_len (s : string) : all_hex s = true -> py_len s = String.length s.
Proof.
  induction s as [|c r IH]; [done|]. cbn [all_hex py_len String.length].
  intros [Hc Hr]%andb_true_iff. rewrite (is_hex_starts_char c Hc). f_equal. auto.
Qed.

Lemma hex_lower_length (s : string) : String.length (hex_lower s) = String.length s.
Proof. induction s as [|c r IH]; cbn; [done|]. by rewrite IH. Qed.

(** The key of a document has 24 characters. *)
Lemma ObjectId_key_length (s oid : string) :
  ObjectId s = Ok oid -> String.length oid = 24%nat.
Proof.
  unfold ObjectId.
  destruct (py_len s =? 24)%nat eqn:E; [|done]. apply Nat.eqb_eq in E.
  destruct (all_hex s) eqn:Hh; [|done]. cbn [andb]. intros [= <-].
  rewrite hex_lower_length, <- (all_hex_len s Hh). done.
Qed.

Lemma lookup_find_one_and_replace {V} (m : gmap string V) (k j : string) (v : V) :
  find_one_and_replace k v m !! j =
  if decide (k = j) then (fun _ => v) <$> m !! j else m !! j.
Proof.
  unfold find_one_and_replace.
  destruct (m !! k) eqn:E; case_decide; subst; simplify_map_eq; done.
Qed.

(** ** The scheduler tick *)

Section SchedulerFacts.
Context (X : Externals).

Lemma submit_delay_eq (td : Task.doc) (w : World) :
  submit_github_repo_task X td true w =
  let td' := Task.set_celery_id "" td in
  let tid := new_ObjectId X (dom (db_task w)) in
  let opts := {| celery_action := GITHUB_REPO_MONITOR;
                 data_task_id := tid; data := td' |} in
  match celery_delay X opts with
  | Ok cid =>
      (with_task (alter (Task.set_celery_id cid) tid)
         (enqueue cid opts (with_task (insert tid td') w)),
       Ok (Submitted tid (Task.set_celery_id cid td')))
  | Raise e =>
      (with_task (delete tid) (with_task (insert tid td') w),
       Ok (SubmitFailed e))
  end.
Proof.
  unfold submit_github_repo_task. unfold_m. cbn.
  destruct (celery_delay X _); reflexivity.
Qed.

Lemma submit_delay_scheduler (td : Task.doc) (w : World) :
  db_scheduler (submit_github_repo_task X td true w).1 = db_scheduler w.
Proof.
  rewrite submit_delay_eq. cbn. destruct (celery_delay X _); reflexivity.
Qed.

Lemma submit_delay_ok (td : Task.doc) (w : World) :
  exists r, (submit_github_repo_task X td true w).2 = Ok r.
Proof.
  rewrite submit_delay_eq. cbn. destruct (celery_delay X _); eauto.
Qed.

Lemma tick_entry_fires (now : Q) (item : Scheduler.item) :
  fires X now item = true ->
  exists entry, CronTab X (Scheduler.cron item) = Ok entry /\
                tick_entry X now item = fired_item X now entry item.
Proof.
  unfold tick_entry. intros Hf. rewrite Hf.
  unfold fires in Hf. case_decide; [done|].
  destruct (CronTab X (Scheduler.cron item)) as [entry|]; [eauto | done].
Qed.

Lemma cron_run_eq (now : Q) (_id : string) (item : Scheduler.item) (w : World) :
  fires X now item = true ->
  exists w1,
    github_repo_cron_run X now _id item w =
      (with_scheduler (find_one_and_replace _id (tick_entry X now item)) w1, Ok tt)
    /\ db_scheduler w1 = db_scheduler w.
Proof.
  intros Hf. destruct (tick_entry_fires now item Hf) as (entry & He & ->).
  exists (submit_github_repo_task X
            (cron_task_data _id item) true w).1.
  split; [|apply submit_delay_scheduler].
  unfold github_repo_cron_run.
  unfold bind at 1.
  destruct (submit_github_repo_task X _ true w) as [w1 r] eqn:Es.
  pose proof (submit_delay_ok (cron_task_data _id item) w) as [r' Hr].
  rewrite Es in Hr. cbn in Hr. subst r.
  unfold_m. cbn. rewrite He. reflexivity.
Qed.

Lemma tick_item_eq (now : Q) (_id : string) (item : Scheduler.item) (w : World) :
  exists w',
    tick_item X now (_id, item) w = (w', Ok tt) /\
    db_scheduler w' =
      if fires X now item
      then find_one_and_replace _id (tick_entry X now item) (db_scheduler w)
      else db_scheduler w.
Proof.
  unfold tick_item. cbn [fst snd].
  destruct (fires X now item) eqn:Hf.
  - destruct (cron_run_eq now _id item w Hf) as (w1 & Hrun & Hdb).
    eexists. unfold try_except. rewrite Hrun. split; [reflexivity|].
    cbn. by rewrite Hdb.
  - exists w. done.
Qed.

Lemma for_each_tick (now : Q) (l : list (string * Scheduler.item)) (w : World) :
  NoDup l.*1 ->
  (forall k it, (k, it) ∈ l -> db_scheduler w !! k = Some it) ->
  exists w',
    for_each (tick_item X now) l w = (w', Ok tt) /\
    forall j, db_scheduler w' !! j =
      match (list_to_map l : gmap string Scheduler.item) !! j with
      | Some it => Some (tick_entry X now it)
      | None => db_scheduler w !! j
      end.
Proof.
  revert w. induction l as [|[k it] r IH]; intros w Hnd Hin.
  - exists w. done.
  - cbn in Hnd. apply NoDup_cons in Hnd as [Hk Hnd].
    destruct (tick_item_eq now k it w) as (w1 & Ht & Hdb).
    assert (Hw1 : forall j, db_scheduler w1 !! j =
              if decide (k = j) then Some (tick_entry X now it)
              else db_scheduler w !! j).
    { intros j. rewrite Hdb.
      assert (Hit : db_scheduler w !! k = Some it) by (apply Hin; left).
      destruct (fires X now it) eqn:Hf.
      - rewrite lookup_find_one_and_replace. case_decide; subst; [by rewrite Hit|done].
      - case_decide; subst; [|done].
        rewrite Hit. unfold tick_entry. by rewrite Hf. }
    destruct (IH w1 Hnd) as (w' & Hr & Hl).
    { intros k' it' Hel. rewrite Hw1.
      case_decide; subst.
      - exfalso. apply Hk. apply list_elem_of_fmap. by exists (k', it').
      - apply Hin. by right. }
    exists w'. split.
    + cbn. unfold bind. by rewrite Ht.
    + intros j. rewrite Hl, Hw1. cbn.
      destruct (decide (k = j)) as [->|Hne].
      * rewrite lookup_insert_eq.
        rewrite (not_elem_of_list_to_map_1 _ j Hk). done.
      * by rewrite lookup_insert_ne.
Qed.

(** A tick leaves the reply [Ok] and maps every stored entry through
    [tick_entry]. *)
Lemma tick_scheduler (now : Q) (w : World) :
  exists w',
    github_repo_scheduler X now w = (w', Ok tt) /\
    db_scheduler w' = tick_entry X now <$> db_scheduler w.
Proof.
  destruct (for_each_tick now (map_to_list (db_scheduler w)) w) as (w' & Hr & Hl).
  - apply NoDup_fst_map_to_list.
  - intros k it Hel. by apply elem_of_map_to_list.
  - exists w'. split.
    + unfold github_repo_scheduler. unfold_m. exact Hr.
    + apply map_eq. intros j. rewrite Hl, list_to_map_to_list, lookup_fmap.
      by destruct (db_scheduler w !! j).
Qed.

End SchedulerFacts.

Section TickClaims.
Context (X : Externals).




End TickClaims.


(** ** Submission *)

Section SubmitClaims.
Context (X : Externals).

(** A submission whose work item is accepted keeps the invariant too. *)
Lemma submit_enqueued_no_orphan (task_data : Task.doc) (w : World) (celery_id : string) :
  celery_delay X
    {| celery_action := GITHUB_REPO_MONITOR;
       data_task_id := new_ObjectId X (dom (db_task w));
       data := Task.set_celery_id "" task_data |} = Ok celery_id ->
  no_orphan_waiting w ->
  no_orphan_waiting (submit_github_repo_task X task_data true w).1.
Proof.
  intros Hd Hno. rewrite submit_delay_eq. cbn zeta. rewrite Hd. cbn.
  intros k t Hk Hs. unfold enqueued.
  unfold with_task, enqueue in *. cbn [db_task celery_queue] in *.
  destruct (decide (new_ObjectId X (dom (db_task w)) = k)) as [<-|Hne].
  - eexists _, _. split; [apply elem_of_app; right; apply list_elem_of_singleton; done|done].
  - rewrite lookup_alter_ne, lookup_insert_ne in Hk by done.
    destruct (Hno k t Hk Hs) as (c & o & Hin & Ho).
    exists c, o. split; [apply elem_of_app; by left|done].
Qed.

(** C4. When enqueueing the work item raises, [submit_github_repo_task]
    deletes the task record it has just inserted and returns the error: the
    record is gone, the other collections and the queue are as before (and
    so is the task collection, the id being new), and no WAITING record
    without a work item has appeared. *)
Theorem submit_enqueue_failure_rolls_back (task_data : Task.doc) (w : World) (e : string) :
  let task_id := new_ObjectId X (dom (db_task w)) in
  celery_delay X
    {| celery_action := GITHUB_REPO_MONITOR;
       data_task_id := task_id;
       data := Task.set_celery_id "" task_data |} = Raise e ->
  exists w',
    submit_github_repo_task X task_data true w = (w', Ok (SubmitFailed e)) /\
    db_task w' !! task_id = None /\
    (forall k, k <> task_id -> db_task w' !! k = db_task w !! k) /\
    (db_task w !! task_id = None -> db_task w' = db_task w) /\
    db_scheduler w' = db_scheduler w /\
    db_event w' = db_event w /\
    celery_queue w' = celery_queue w /\
    (no_orphan_waiting w -> no_orphan_waiting w').
Proof.
  intros task_id Hd. rewrite submit_delay_eq. cbn zeta. fold task_id. rewrite Hd.
  eexists. split; [reflexivity|]. cbn [db_task db_scheduler db_event celery_queue with_task].
  assert (Hother : forall k, k <> task_id ->
            delete task_id (<[task_id := Task.set_celery_id "" task_data]> (db_task w)) !! k
            = db_task w !! k).
  { intros k Hk. rewrite lookup_delete_ne, lookup_insert_ne; done. }
  split; [apply lookup_delete_eq|].
  split; [done|].
  split; [intros Hfresh; rewrite delete_insert_eq; by apply delete_id|].
  do 3 (split; [done|]).
  intros Hno k t Hk Hs.
  destruct (decide (k = task_id)) as [->|Hne].
  - cbn [db_task with_task] in Hk. by rewrite lookup_delete_eq in Hk.
  - cbn [db_task with_task] in Hk. rewrite Hother in Hk by done.
    destruct (Hno k t Hk Hs) as (c & o & Hin & Ho). by exists c, o.
Qed.

End SubmitClaims.

Lemma submit_enqueue_failure_rolls_back_witness :
  exists w',
    submit_github_repo_task
      (Sample.externals Sample.delay_down [] Sample.reply_ok "token" Sample.hook "")
      Sample.waiting_task true Sample.empty_world
    = (w', Ok (SubmitFailed "ConnectionError")) /\
    db_task w' = ∅.
Proof.
  destruct (submit_enqueue_failure_rolls_back
              (Sample.externals Sample.delay_down [] Sample.reply_ok "token" Sample.hook "")
              Sample.waiting_task Sample.empty_world "ConnectionError" eq_refl)
    as (w' & Hrun & _ & _ & Hsame & _).
  exists w'. split; [exact Hrun|]. apply Hsame. reflexivity.
Defined.

(** ** Run bookkeeping *)

Lemma keeps_counters_refl (m : gmap string Scheduler.item) : keeps_counters m m.
Proof. intros k i H. eauto. Qed.

Lemma keeps_counters_trans (m1 m2 m3 : gmap string Scheduler.item) :
  keeps_counters m1 m2 -> keeps_counters m2 m3 -> keeps_counters m1 m3.
Proof.
  intros H12 H23 k i H. destruct (H12 k i H) as (i2 & H2 & E2).
  destruct (H23 k i2 H2) as (i3 & H3 & E3). exists i3. split; [done|congruence].
Qed.

Lemma keeps_counters_replace (m : gmap string Scheduler.item) (k : string)
    (old new : Scheduler.item) :
  m !! k = Some old -> counters new = counters old ->
  keeps_counters m (find_one_and_replace k new m).
Proof.
  intros Hold Hc j i Hj. rewrite lookup_find_one_and_replace.
  case_decide; subst; [|eauto].
  rewrite Hj. cbn. exists new. split; [done|congruence].
Qed.

Lemma keeps_counters_insert_new (m : gmap string Scheduler.item) (k : string)
    (new : Scheduler.item) :
  m !! k = None -> keeps_counters m (<[k := new]> m).
Proof.
  intros Hnone j i Hj. exists i. split; [|done].
  rewrite lookup_insert_ne; [done|congruence].
Qed.

#[local] Hint Resolve keeps_counters_refl : core.

Section Bookkeeping.
Context (X : Externals).

Lemma find_scheduler_eq (_id : string) (w : World) :
  find_github_repo_scheduler _id w =
  match ObjectId _id with
  | Ok oid => (w, Ok (db_scheduler w !! oid))
  | Raise e => (w, Raise e)
  end.
Proof.
  unfold find_github_repo_scheduler. unfold_m. by destruct (ObjectId _id).
Qed.

Lemma stop_task_keeps (_id : string) (w : World) :
  keeps_counters (db_scheduler w) (db_scheduler (stop_github_repo_task _id w).1).
Proof.
  unfold stop_github_repo_task. destruct (negb _); [apply keeps_counters_refl|].
  unfold bind at 1. rewrite find_scheduler_eq.
  destruct (ObjectId _id) as [oid|] eqn:Ho; [|apply keeps_counters_refl].
  destruct (db_scheduler w !! oid) as [item|] eqn:Hl; [|apply keeps_counters_refl].
  unfold_m. cbn.
  by eapply keeps_counters_replace.
Qed.

Lemma recover_task_keeps (now : Q) (_id : string) (w : World) :
  keeps_counters (db_scheduler w) (db_scheduler (recover_github_repo_task X now _id w).1).
Proof.
  unfold recover_github_repo_task. destruct (negb _); [apply keeps_counters_refl|].
  unfold bind at 1. rewrite find_scheduler_eq.
  destruct (ObjectId _id) as [oid|] eqn:Ho; [|apply keeps_counters_refl].
  destruct (db_scheduler w !! oid) as [item|] eqn:Hl; [|apply keeps_counters_refl].
  unfold_m. cbn.
  destruct (CronTab X (Scheduler.cron item)); [|apply keeps_counters_refl].
  cbn. by eapply keeps_counters_replace.
Qed.

Lemma stop_loop_keeps (job_id_list : list string) (w : World) :
  keeps_counters (db_scheduler w) (db_scheduler (stop_loop job_id_list w).1).
Proof.
  revert w. induction job_id_list as [|job_id rest IH]; intros w; [apply keeps_counters_refl|].
  cbn [stop_loop]. unfold bind at 1. rewrite find_scheduler_eq.
  destruct (ObjectId job_id) as [oid|]; [|apply keeps_counters_refl].
  destruct (db_scheduler w !! oid) as [item|]; [|apply keeps_counters_refl].
  case_decide; [apply keeps_counters_refl|].
  unfold bind.
  pose proof (stop_task_keeps job_id w) as Hs.
  destruct (stop_github_repo_task job_id w) as [w1 [[]|e]]; [|exact Hs].
  eapply keeps_counters_trans; [exact Hs|apply IH].
Qed.

Lemma recover_loop_keeps (now : Q) (job_id_list : list string) (w : World) :
  keeps_counters (db_scheduler w) (db_scheduler (recover_loop X now job_id_list w).1).
Proof.
  revert w. induction job_id_list as [|job_id rest IH]; intros w; [apply keeps_counters_refl|].
  cbn [recover_loop]. unfold bind at 1. rewrite find_scheduler_eq.
  destruct (ObjectId job_id) as [oid|]; [|apply keeps_counters_refl].
  destruct (db_scheduler w !! oid) as [item|]; [|apply keeps_counters_refl].
  case_decide; [apply keeps_counters_refl|].
  unfold bind.
  pose proof (recover_task_keeps now job_id w) as Hs.
  destruct (recover_github_repo_task X now job_id w) as [w1 [[]|e]]; [|exact Hs].
  eapply keeps_counters_trans; [exact Hs|apply IH].
Qed.

Lemma update_post_keeps (now : Q) (job_id name repo_owner repo_name cron : string)
    (monitored_events : list string) (w : World) :
  keeps_counters (db_scheduler w)
    (db_scheduler
       (update_post X now job_id name repo_owner repo_name cron monitored_events w).1).
Proof.
  unfold update_post. unfold bind at 1. rewrite find_scheduler_eq.
  destruct (ObjectId job_id) as [oid|] eqn:Ho; [|apply keeps_counters_refl].
  destruct (db_scheduler w !! oid) as [item|] eqn:Hl; [|apply keeps_counters_refl].
  set (edited := match monitored_events with [] => _ | _ => _ end).
  assert (Hc : counters edited = counters item).
  { subst edited. destruct monitored_events, (truthy name), (truthy repo_owner),
      (truthy repo_name); reflexivity. }
  destruct (truthy cron).
  - destruct (check_cron_interval X cron); [apply keeps_counters_refl|].
    unfold_m. destruct (check_cron X cron now); [|apply keeps_counters_refl].
    cbn. by eapply keeps_counters_replace.
  - unfold_m. cbn. by eapply keeps_counters_replace.
Qed.

Lemma add_post_keeps (now : Q) (name repo_owner repo_name cron : string)
    (monitored_events : list string) (w : World) :
  db_scheduler w !! new_ObjectId X (dom (db_scheduler w)) = None ->
  keeps_counters (db_scheduler w)
    (db_scheduler (add_post X now name repo_owner repo_name cron monitored_events w).1).
Proof.
  intros Hnew. unfold add_post.
  destruct (_ || _); [apply keeps_counters_refl|].
  destruct (check_cron_interval X cron); [apply keeps_counters_refl|].
  unfold_m. destruct (check_cron X cron now); [|apply keeps_counters_refl].
  cbn. by apply keeps_counters_insert_new.
Qed.

End Bookkeeping.

Section BookkeepingClaims.
Context (X : Externals).

Lemma perform_keeps (now : Q) (op : Operation) (w : World) :
  op <> Tick ->
  db_scheduler w !! new_ObjectId X (dom (db_scheduler w)) = None ->
  keeps_counters (db_scheduler w) (db_scheduler (perform X now op w)).
Proof.
  intros Hop Hnew. destruct op; cbn [perform]; [| | | |done].
  - by apply add_post_keeps.
  - apply update_post_keeps.
  - unfold stop_post, bind. pose proof (stop_loop_keeps job_id_list w) as H.
    by destruct (stop_loop job_id_list w) as [w1 [[r|]|e]].
  - unfold recover_post, bind. pose proof (recover_loop_keeps X now job_id_list w) as H.
    by destruct (recover_loop X now job_id_list w) as [w1 [[r|]|e]].
Qed.

(** C6, amended. The run counter and the last-run timestamp of a stored
    entry are written by the tick alone: an entry the tick fires has its
    counter incremented and its last run set to the clock reading, whatever
    became of the enqueueing of its task, and an entry it does not fire is
    left as it is; create, update, stop and recover leave both fields of
    every stored entry as they are.  Across all five the counter never
    decreases. *)
Theorem counters_written_by_fire_only (now : Q) (op : Operation) (w : World)
    (_id : string) (item : Scheduler.item) :
  db_scheduler w !! _id = Some item ->
  db_scheduler w !! new_ObjectId X (dom (db_scheduler w)) = None ->
  exists item',
    db_scheduler (perform X now op w) !! _id = Some item' /\
    Scheduler.run_number item <= Scheduler.run_number item' /\
    (op <> Tick -> counters item' = counters item) /\
    (op = Tick ->
       if fires X now item
       then counters item' = (Scheduler.run_number item + 1, py_int now)
       else item' = item).
Proof.
  intros Hitem Hnew.
  assert (Hdec : op = Tick \/ op <> Tick) by (destruct op; eauto).
  destruct Hdec as [->|Hop].
  - cbn [perform]. destruct (tick_scheduler X now w) as (w' & Hrun & Hdb).
    rewrite Hrun. cbn [fst]. exists (tick_entry X now item).
    split; [by rewrite Hdb, lookup_fmap, Hitem|].
    destruct (fires X now item) eqn:Hf.
    + destruct (tick_entry_fires X now item Hf) as (entry & _ & ->).
      split; [cbn; lia|]. split; [done|]. intros _. reflexivity.
    + unfold tick_entry. rewrite Hf. split; [lia|]. split; done.
  - destruct (perform_keeps now op w Hop Hnew _id item Hitem) as (item' & Hl & Hc).
    exists item'. split; [done|].
    injection Hc as Hr Ht. split; [lia|]. split; [|done].
    intros _. unfold counters. congruence.
Qed.

End BookkeepingClaims.

Lemma counters_written_by_fire_only_witness :
  exists item',
    db_scheduler
      (perform (Sample.up []) 1700000070 (Stop [Sample.sid])
         (Sample.world_of (Sample.entry [] 1699999870 RUNNING))) !! Sample.sid
    = Some item' /\
    Scheduler.run_number item' = 0.
Proof.
  destruct (counters_written_by_fire_only (Sample.up []) 1700000070 (Stop [Sample.sid])
              (Sample.world_of (Sample.entry [] 1699999870 RUNNING))
              Sample.sid (Sample.entry [] 1699999870 RUNNING) eq_refl eq_refl)
    as (item' & Hl & _ & Hkeep & _).
  exists item'. split; [exact Hl|].
  specialize (Hkeep ltac:(discriminate)). injection Hkeep as Hr _. exact Hr.
Defined.

(** C6 as stated fails: with the queue refusing the work item the
    submission of the tick fails, and the entry's counter and last run are
    written all the same. *)
Lemma failed_submission_still_counted :
  (submit_github_repo_task Sample.queue_down
     (cron_task_data Sample.sid (Sample.entry [] 1699999870 RUNNING)) true
     (Sample.world_of (Sample.entry [] 1699999870 RUNNING))).2
  = Ok (SubmitFailed "ConnectionError") /\
  counters <$>
    db_scheduler (Sample.world_of (Sample.entry [] 1699999870 RUNNING)) !! Sample.sid
  = Some (0, 1699999870) /\
  counters <$>
    db_scheduler
      (perform Sample.queue_down 1700000070 Tick
         (Sample.world_of (Sample.entry [] 1699999870 RUNNING))) !! Sample.sid
  = Some (1, 1700000070).
Proof. vm_compute. repeat split; reflexivity. Qed.

(** ** Stop and recover *)

Section StopRecover.
Context (X : Externals).

Lemma find_scheduler_ok (_id oid : string) (w : World) :
  ObjectId _id = Ok oid ->
  find_github_repo_scheduler _id w = (w, Ok (db_scheduler w !! oid)).
Proof. intros H. by rewrite find_scheduler_eq, H. Qed.

Lemma stop_task_eq (_id oid : string) (item : Scheduler.item) (w : World) :
  ObjectId _id = Ok oid ->
  db_scheduler w !! oid = Some item ->
  stop_github_repo_task _id w =
  (with_scheduler
     (insert oid (Scheduler.set_next_run_date "-" (Scheduler.set_status STOP item))) w,
   Ok tt).
Proof.
  intros Hid Hitem. unfold stop_github_repo_task.
  rewrite (ObjectId_len _ _ Hid). cbn [Nat.eqb negb].
  unfold bind at 1. rewrite (find_scheduler_ok _id oid), Hitem by done.
  unfold_m. rewrite Hid.
  unfold with_scheduler, find_one_and_replace. by rewrite Hitem.
Qed.

Lemma recover_task_eq (now : Q) (_id oid : string) (item : Scheduler.item)
    (entry : Q -> Q) (w : World) :
  ObjectId _id = Ok oid ->
  db_scheduler w !! oid = Some item ->
  CronTab X (Scheduler.cron item) = Ok entry ->
  recover_github_repo_task X now _id w =
  (with_scheduler
     (insert oid
        (Scheduler.set_next_run_date (time2date X (now + entry now)%Q)
           (Scheduler.set_status RUNNING item))) w,
   Ok tt).
Proof.
  intros Hid Hitem He. unfold recover_github_repo_task.
  rewrite (ObjectId_len _ _ Hid). cbn [Nat.eqb negb].
  unfold bind at 1. rewrite (find_scheduler_ok _id oid), Hitem by done.
  unfold_m. cbn. rewrite He, Hid.
  unfold with_scheduler, find_one_and_replace. by rewrite Hitem.
Qed.

Lemma stop_post_not_running (_id oid : string) (item : Scheduler.item) (w : World) :
  ObjectId _id = Ok oid ->
  db_scheduler w !! oid = Some item ->
  Scheduler.status item <> RUNNING ->
  stop_post [_id] w = (w, Ok (build_ret SchedulerStatusNotRunning (DataId _id))).
Proof.
  intros Hid Hitem Hs. unfold stop_post, stop_loop.
  unfold bind. rewrite (find_scheduler_ok _id oid), Hitem by done.
  case_decide; done.
Qed.

Lemma stop_post_running (_id oid : string) (item : Scheduler.item) (w : World) :
  ObjectId _id = Ok oid ->
  db_scheduler w !! oid = Some item ->
  Scheduler.status item = RUNNING ->
  stop_post [_id] w =
  (with_scheduler
     (insert oid (Scheduler.set_next_run_date "-" (Scheduler.set_status STOP item))) w,
   Ok (build_ret Success (DataIds [_id]))).
Proof.
  intros Hid Hitem Hs. unfold stop_post, stop_loop.
  unfold bind. rewrite (find_scheduler_ok _id oid), Hitem by done.
  case_decide; [done|].
  by rewrite (stop_task_eq _id oid item w).
Qed.

Lemma recover_post_not_stopped (now : Q) (_id oid : string) (item : Scheduler.item)
    (w : World) :
  ObjectId _id = Ok oid ->
  db_scheduler w !! oid = Some item ->
  Scheduler.status item <> STOP ->
  recover_post X now [_id] w = (w, Ok (build_ret SchedulerStatusNotStop (DataId _id))).
Proof.
  intros Hid Hitem Hs. unfold recover_post, recover_loop.
  unfold bind. rewrite (find_scheduler_ok _id oid), Hitem by done.
  case_decide; done.
Qed.

Lemma recover_post_stopped (now : Q) (_id oid : string) (item : Scheduler.item)
    (entry : Q -> Q) (w : World) :
  ObjectId _id = Ok oid ->
  db_scheduler w !! oid = Some item ->
  Scheduler.status item = STOP ->
  CronTab X (Scheduler.cron item) = Ok entry ->
  recover_post X now [_id] w =
  (with_scheduler
     (insert oid
        (Scheduler.set_next_run_date (time2date X (now + entry now)%Q)
           (Scheduler.set_status RUNNING item))) w,
   Ok (build_ret Success (DataIds [_id]))).
Proof.
  intros Hid Hitem Hs He. unfold recover_post, recover_loop.
  unfold bind. rewrite (find_scheduler_ok _id oid), Hitem by done.
  case_decide; [done|].
  by rewrite (recover_task_eq now _id oid item entry w).
Qed.

(** C5. For an entry stored under the key [oid] that the requested id
    [_id] spells: stop on an entry that is not RUNNING is refused with
    [SchedulerStatusNotRunning] and recover on one that is not stopped with
    [SchedulerStatusNotStop], the store being left as it was; stop then
    recover on a RUNNING entry gives the entry back RUNNING with a next run
    formatted from an instant not before the clock reading of the recover;
    and a second stop in a row is refused. *)
Theorem stop_recover_transitions (now : Q) (w : World) (_id oid : string)
    (item : Scheduler.item) (entry : Q -> Q) :
  ObjectId _id = Ok oid ->
  db_scheduler w !! oid = Some item ->
  CronTab X (Scheduler.cron item) = Ok entry ->
  (0 <= entry now)%Q ->
  (Scheduler.status item <> RUNNING ->
     stop_post [_id] w = (w, Ok (build_ret SchedulerStatusNotRunning (DataId _id)))) /\
  (Scheduler.status item <> STOP ->
     recover_post X now [_id] w = (w, Ok (build_ret SchedulerStatusNotStop (DataId _id)))) /\
  (Scheduler.status item = RUNNING ->
     exists w1 stopped,
       stop_post [_id] w = (w1, Ok (build_ret Success (DataIds [_id]))) /\
       db_scheduler w1 !! oid = Some stopped /\
       Scheduler.status stopped = STOP /\
       Scheduler.next_run_date stopped = "-" /\
       stop_post [_id] w1 =
         (w1, Ok (build_ret SchedulerStatusNotRunning (DataId _id))) /\
       exists w2 recovered t,
         recover_post X now [_id] w1 = (w2, Ok (build_ret Success (DataIds [_id]))) /\
         db_scheduler w2 !! oid = Some recovered /\
         Scheduler.status recovered = RUNNING /\
         Scheduler.next_run_date recovered = time2date X t /\
         (now <= t)%Q /\
         recovered = Scheduler.set_next_run_date (time2date X t) item).
Proof.
  intros Hid Hitem He Hnext.
  split; [by apply (stop_post_not_running _id oid)|].
  split; [by apply (recover_post_not_stopped now _id oid)|].
  intros Hs.
  set (stopped := Scheduler.set_next_run_date "-" (Scheduler.set_status STOP item)).
  set (w1 := with_scheduler (insert oid stopped) w).
  assert (Hw1 : db_scheduler w1 !! oid = Some stopped) by apply lookup_insert_eq.
  exists w1, stopped.
  split; [by apply (stop_post_running _id oid)|].
  do 3 (split; [done|]).
  split; [by apply (stop_post_not_running _id oid stopped)|].
  set (recovered := Scheduler.set_next_run_date (time2date X (now + entry now)%Q)
                      (Scheduler.set_status RUNNING stopped)).
  exists (with_scheduler (insert oid recovered) w1), recovered, (now + entry now)%Q.
  split; [by apply (recover_post_stopped now _id oid stopped entry)|].
  split; [apply lookup_insert_eq|].
  do 2 (split; [done|]).
  split; [lra|].
  subst recovered stopped. destruct item. cbn in *. by subst.
Qed.

End StopRecover.

Lemma stop_recover_transitions_witness :
  exists w1 stopped,
    stop_post [Sample.sid] (Sample.world_of (Sample.entry [] 0 RUNNING))
    = (w1, Ok (build_ret Success (DataIds [Sample.sid]))) /\
    db_scheduler w1 !! Sample.sid = Some stopped /\
    Scheduler.status stopped = STOP.
Proof.
  destruct (stop_recover_transitions (Sample.up []) 1700000070
              (Sample.world_of (Sample.entry [] 0 RUNNING)) Sample.sid Sample.sid
              (Sample.entry [] 0 RUNNING) Sample.every_five_minutes
              eq_refl eq_refl eq_refl ltac:(vm_compute; discriminate))
    as (_ & _ & Hcycle).
  destruct (Hcycle eq_refl) as (w1 & stopped & Hstop & Hl & Hs & _).
  exists w1, stopped. repeat split; assumption.
Defined.

(** ** Deletion *)

Lemma delete_scheduler_eq (_id : string) (w : World) :
  ObjectId _id = Ok _id ->
  delete_github_repo_scheduler _id w = (purge _id w, Ok tt).
Proof.
  intros Hid. unfold delete_github_repo_scheduler.
  rewrite (ObjectId_len _ _ Hid). cbn [Nat.eqb negb].
  unfold_m. by rewrite Hid.
Qed.

Lemma purge_unreachable (_id : string) (w : World) : unreachable _id (purge _id w).
Proof.
  unfold unreachable, purge. cbn. split; [apply lookup_delete_eq|]. split.
  - intros k t Hk. apply map_lookup_filter_Some in Hk as [_ Hk]. exact Hk.
  - intros d Hd. apply list_elem_of_filter in Hd as [Hd _]. exact Hd.
Qed.

Lemma purge_shrinks (_id : string) (w : World) : shrinks w (purge _id w).
Proof.
  unfold shrinks, purge. cbn. split; [|split].
  - intros k i Hk. apply lookup_delete_Some in Hk as [_ Hk]. exact Hk.
  - intros k t Hk. apply map_lookup_filter_Some in Hk as [Hk _]. exact Hk.
  - intros d Hd. apply list_elem_of_filter in Hd as [_ Hd]. exact Hd.
Qed.

Lemma shrinks_unreachable (_id : string) (w w' : World) :
  shrinks w w' -> unreachable _id w -> unreachable _id w'.
Proof.
  intros (Hs & Ht & He) (Us & Ut & Ue). split; [|split].
  - destruct (db_scheduler w' !! _id) as [i|] eqn:E; [|done].
    apply Hs in E. congruence.
  - intros k t Hk. eapply Ut. eauto.
  - intros d Hd. apply Ue. eauto.
Qed.

(** What [purge] keeps: everything that does not carry the id. *)
Lemma purge_keeps (_id : string) (w : World) :
  (forall k, k <> _id -> db_scheduler (purge _id w) !! k = db_scheduler w !! k) /\
  (forall k t, db_task w !! k = Some t ->
     Task.github_repo_scheduler_id t <> Some _id ->
     db_task (purge _id w) !! k = Some t) /\
  (forall d, d ∈ db_event w -> Event.github_repo_scheduler_id d <> Some _id ->
     d ∈ db_event (purge _id w)).
Proof.
  unfold purge. cbn. split; [|split].
  - intros k Hk. by rewrite lookup_delete_ne.
  - intros k t Hk Hne. by apply map_lookup_filter_Some.
  - intros d Hd Hne. by apply list_elem_of_filter.
Qed.

Section Deletion.
Context (X : Externals).

Lemma delete_check_found (ret_data : RetData) (job_id_list : list string) (w : World) :
  (forall _id, _id ∈ job_id_list ->
     exists oid, ObjectId _id = Ok oid /\ is_Some (db_scheduler w !! oid)) ->
  delete_check ret_data job_id_list w = (w, Ok None).
Proof.
  induction job_id_list as [|job_id rest IH]; intros Hall; [done|].
  cbn [delete_check]. unfold bind.
  destruct (Hall job_id ltac:(left)) as (oid & Hid & item & Hitem).
  rewrite (find_scheduler_ok job_id oid), Hitem by done.
  apply IH. intros j Hj. apply Hall. by right.
Qed.

Lemma for_each_delete (job_id_list : list string) (w : World) :
  (forall _id, _id ∈ job_id_list -> ObjectId _id = Ok _id) ->
  exists w',
    for_each delete_github_repo_scheduler job_id_list w = (w', Ok tt) /\
    shrinks w w' /\
    (forall _id, _id ∈ job_id_list -> unreachable _id w') /\
    (forall k, k ∉ job_id_list -> db_scheduler w' !! k = db_scheduler w !! k) /\
    (forall k t, db_task w !! k = Some t ->
       (forall _id, _id ∈ job_id_list -> Task.github_repo_scheduler_id t <> Some _id) ->
       db_task w' !! k = Some t) /\
    (forall d, d ∈ db_event w ->
       (forall _id, _id ∈ job_id_list -> Event.github_repo_scheduler_id d <> Some _id) ->
       d ∈ db_event w').
Proof.
  revert w. induction job_id_list as [|job_id rest IH]; intros w Hlen.
  - exists w. split; [done|]. split; [by repeat split|].
    split; [intros j Hj; by apply elem_of_nil in Hj|]. by repeat split.
  - cbn [for_each]. unfold bind.
    rewrite delete_scheduler_eq by (apply Hlen; left).
    destruct (IH (purge job_id w)) as (w' & Hrun & Hsh & Hun & Hks & Hkt & Hke).
    { intros j Hj. apply Hlen. by right. }
    destruct (purge_keeps job_id w) as (Pks & Pkt & Pke).
    destruct (purge_shrinks job_id w) as (Ps & Pt & Pe).
    destruct Hsh as (Hs & Ht & He).
    exists w'. split; [done|]. split; [|split; [|split; [|split]]].
    + repeat split; eauto.
    + intros j Hj. apply elem_of_cons in Hj as [->|Hj]; [|by apply Hun].
      apply (shrinks_unreachable _ (purge job_id w)); [by repeat split|].
      apply purge_unreachable.
    + intros k Hk. apply not_elem_of_cons in Hk as [Hne Hk].
      by rewrite Hks, Pks.
    + intros k t Hk Hall. apply Hkt.
      * apply Pkt; [done|]. apply Hall. left.
      * intros j Hj. apply Hall. by right.
    + intros d Hd Hall. apply Hke.
      * apply Pke; [done|]. apply Hall. left.
      * intros j Hj. apply Hall. by right.
Qed.

(** X29. Deleting stored schedule entries by their ids as the store renders
    them (in lower case) removes each entry together with every task record
    and every event record that carries its id: nothing remains reachable
    through a deleted id, and the records of the other entries are kept. *)
Theorem delete_cascades (job_id_list : list string) (w : World) :
  (forall _id, _id ∈ job_id_list ->
     ObjectId _id = Ok _id /\ is_Some (db_scheduler w !! _id)) ->
  exists w',
    delete_post job_id_list w = (w', Ok (build_ret Success (DataIds job_id_list))) /\
    (forall _id, _id ∈ job_id_list -> unreachable _id w') /\
    (forall k, k ∉ job_id_list -> db_scheduler w' !! k = db_scheduler w !! k) /\
    (forall k t, db_task w !! k = Some t ->
       (forall _id, _id ∈ job_id_list -> Task.github_repo_scheduler_id t <> Some _id) ->
       db_task w' !! k = Some t) /\
    (forall d, d ∈ db_event w ->
       (forall _id, _id ∈ job_id_list -> Event.github_repo_scheduler_id d <> Some _id) ->
       d ∈ db_event w').
Proof.
  intros Hall.
  destruct (for_each_delete job_id_list w) as (w' & Hrun & _ & Hrest).
  { intros j Hj. by apply Hall. }
  exists w'. split; [|exact Hrest].
  unfold delete_post, bind. rewrite delete_check_found; [by rewrite Hrun|].
  intros j Hj. exists j. by apply Hall.
Qed.

End Deletion.

Lemma delete_cascades_witness :
  exists w',
    delete_post [Sample.sid] (Sample.world_of (Sample.entry [] 0 RUNNING))
    = (w', Ok (build_ret Success (DataIds [Sample.sid]))) /\
    unreachable Sample.sid w'.
Proof.
  destruct (delete_cascades [Sample.sid]
              (Sample.world_of (Sample.entry [] 0 RUNNING)))
    as (w' & Hrun & Hgone & _).
  - intros _id Hin. apply list_elem_of_singleton in Hin. subst _id.
    split; [reflexivity|]. eexists. reflexivity.
  - exists w'. split; [exact Hrun|]. apply Hgone. apply list_elem_of_singleton.
    reflexivity.
Defined.

(** What the deletion of one entry does when the requested id [_id]
    spells the key [oid]: the entry goes by its key, the tasks and the events
    by the requested spelling. *)
Lemma delete_scheduler_spelled (_id oid : string) (w : World) :
  ObjectId _id = Ok oid ->
  delete_github_repo_scheduler _id w =
  (with_task
     (filter (fun kv : string * Task.doc =>
                Task.github_repo_scheduler_id kv.2 <> Some _id))
     (with_event
        (filter (fun d => Event.github_repo_scheduler_id d <> Some _id))
        (with_scheduler (delete oid) w)),
   Ok tt).
Proof.
  intros Hid. unfold delete_github_repo_scheduler.
  rewrite (ObjectId_len _ _ Hid). cbn [Nat.eqb negb].
  unfold_m. by rewrite Hid.
Qed.

(** C8 fails in the code.  [ObjectId] reads an id in either case, while the
    tasks and the events are matched on the text of the request.  The
    entry stored under 65f000000000000000000001, requested in upper case,
    is found and deleted and the handler answers [Success]; its task and
    its event record, which carry the id as the store renders it, are both
    kept, and stay reachable through the id of the deleted entry. *)
Theorem delete_by_upper_case_id_keeps_records :
  let w := Cases.world_with [Cases.stored Sample.sid Cases.push] in
  let w' := (delete_post [Cases.upper_sid] w).1 in
  ObjectId Cases.upper_sid = Ok Sample.sid /\
  db_scheduler w !! Sample.sid = Some (Sample.entry [] 0 RUNNING) /\
  delete_post [Cases.upper_sid] w
    = (w', Ok (build_ret Success (DataIds [Cases.upper_sid]))) /\
  db_scheduler w' !! Sample.sid = None /\
  db_task w' !! Sample.tid = Some Sample.waiting_task /\
  Task.github_repo_scheduler_id Sample.waiting_task = Some Sample.sid /\
  db_event w' = [Cases.stored Sample.sid Cases.push] /\
  Event.github_repo_scheduler_id (Cases.stored Sample.sid Cases.push)
    = Some Sample.sid /\
  ~ unreachable Sample.sid w'.
Proof.
  cbv zeta. split; [reflexivity|]. split; [reflexivity|].
  split; [vm_compute; reflexivity|].
  split; [vm_compute; reflexivity|].
  assert (Ht : db_task (delete_post [Cases.upper_sid]
                          (Cases.world_with [Cases.stored Sample.sid Cases.push])).1
               !! Sample.tid = Some Sample.waiting_task)
    by (vm_compute; reflexivity).
  split; [exact Ht|]. split; [reflexivity|].
  split; [vm_compute; reflexivity|]. split; [reflexivity|].
  intros (_ & Hno & _). by apply (Hno _ _ Ht).
Qed.

(** ** The webhook client *)

Section WebhookClaims.
Context (X : Externals).

Lemma post_message_eq (url : string) (message : Message) (w : World) :
  post_message X url message w =
  (emit (HttpPost url message) w, Ok (reply_of X url message)).
Proof.
  unfold post_message, reply_of. unfold_m.
  destruct (http_post X url message) as [conn|e]; [|done].
  destruct (json conn) as [[]|e]; done.
Qed.

Lemma reply_of_result (url : string) (message : Message) :
  send_result X url message (reply_of X url message).
Proof.
  unfold reply_of, send_result, errcode_dict.
  destruct (http_post X url message) as [conn|e] eqn:Hp.
  - destruct (json conn) as [v|e] eqn:Hj.
    + destruct v; try (eexists; split; [reflexivity|left; reflexivity]).
      eexists. split; [reflexivity|right; eauto].
    + eexists. split; [reflexivity|left; reflexivity].
  - eexists. split; [reflexivity|left; reflexivity].
Qed.

Lemma reply_of_raise (url : string) (message : Message) (e : string) :
  http_post X url message = Raise e ->
  reply_of X url message = errcode_dict e.
Proof. intros H. unfold reply_of. by rewrite H. Qed.

(** C10, amended. Each send operation returns a dictionary and never
    raises.  With no webhook URL it returns the errcode -1 dictionary and
    sends nothing; otherwise it posts one message and returns the errcode -1
    dictionary when the request (or the decoding of the reply) raises, and the
    server's reply object when there is one, which carries an ['errcode'] key
    only if the server put it there. *)
Theorem send_operations_return_a_dictionary (self : DingTalkWebhook) (now : Q)
    (title content message_url pic_url : string) (at_mobiles : list string)
    (is_at_all : bool) (w : World) :
  let url := request_url X self now in
  let at_ := at_entry at_mobiles is_at_all in
  let outcome (run : World * Exc PyValue) (message : Message) :=
    if truthy (webhook_url self) then
      run = (emit (HttpPost url message) w, Ok (reply_of X url message)) /\
      send_result X url message (reply_of X url message) /\
      (forall e, http_post X url message = Raise e ->
                 reply_of X url message = errcode_dict e)
    else
      run = (w, Ok (errcode_dict "Webhook URL not configured")) in
  outcome (send_text X self now content at_mobiles is_at_all w)
    {| body := TextMessage content; at_ := at_ |} /\
  outcome (send_markdown X self now title content at_mobiles is_at_all w)
    {| body := MarkdownMessage title content; at_ := at_ |} /\
  outcome (send_link X self now title content message_url pic_url w)
    {| body := LinkMessage title content message_url
                 (if truthy pic_url then Some pic_url else None);
       at_ := None |}.
Proof.
  intros url at_ outcome. subst outcome. cbv beta.
  unfold send_text, send_markdown, send_link.
  destruct (truthy (webhook_url self)); cbn [negb]; [|done].
  rewrite !post_message_eq.
  repeat split; auto using reply_of_result, reply_of_raise.
Qed.

End WebhookClaims.

Lemma send_operations_return_a_dictionary_witness :
  send_result Sample.bare_reply Sample.hook
    {| body := TextMessage "hello"; at_ := None |}
    (PyDict [("status", PyStr "accepted")]).
Proof.
  pose proof (send_operations_return_a_dictionary Sample.bare_reply
                {| webhook_url := Sample.hook; secret := "" |} 1700000070
                "title" "hello" "" "" [] false Sample.empty_world) as (Htext & _).
  cbv zeta in Htext. destruct Htext as (_ & Hres & _). exact Hres.
Defined.

(** C10 as stated fails: the server's reply is returned as it is, so a
    reply object without ['errcode'] gives a result without that key. *)
Lemma send_text_reply_without_errcode :
  (send_text Sample.bare_reply
     {| webhook_url := Sample.hook; secret := "" |} 1700000070 "hello" [] false
     Sample.empty_world).2
  = Ok (PyDict [("status", PyStr "accepted")]) /\
  dict_get [("status", PyStr "accepted")] "errcode" = None.
Proof. split; reflexivity. Qed.

(** ** The worker *)

Section WorkerClaims.
Context (X : Externals).

(** C7. With no source-API token, [github_repo_monitor_task] takes a
    WAITING task, stored under the key [oid] that the task id spells,
    straight to ERROR and sets its end time: the only status written is
    ERROR and no request is made, the events endpoint included. *)
Theorem missing_token_fails_without_fetch (now : Q)
    (tid oid owner repo : string) (sched : option string)
    (w : World) (t : Task.doc) :
  GITHUB_TOKEN X = "" ->
  ObjectId tid = Ok oid ->
  db_task w !! oid = Some t ->
  Task.status t = WAITING ->
  exists w' t',
    github_repo_monitor_task X now tid owner repo sched w
      = (w', Ok tt) /\
    db_task w' !! oid = Some t' /\
    Task.status t' = ERROR /\
    Task.end_time t' = curr_date X now /\
    Task.start_time t' = Task.start_time t /\
    trace w' = (trace w ++ [StatusWrite oid ERROR])%list /\
    db_event w' = db_event w /\
    celery_queue w' = celery_queue w.
Proof.
  intros Htoken Hid Ht Hs.
  unfold github_repo_monitor_task. rewrite Htoken. cbn [truthy String.eqb negb].
  unfold update_status, set_end_time, GithubRepoMonitorTask_init.
  unfold_m. cbn [task_id]. rewrite Hid.
  eexists _, _. split; [reflexivity|]. cbn.
  split.
  { rewrite lookup_alter_eq, lookup_alter_eq, Ht. reflexivity. }
  done.
Qed.

(** C9. [send_notification] with no events does nothing: the store and the
    trace of requests are as before, and it returns normally. *)
Theorem notification_of_no_events_is_silent (now : Q)
    (tid owner repo : string) (sched : option string) (w : World) :
  send_notification X
    {| task_id := tid; repo_owner := owner; repo_name := repo;
       scheduler_id := sched; events := [] |} now w
  = (w, Ok tt).
Proof. reflexivity. Qed.

End WorkerClaims.

Lemma missing_token_fails_without_fetch_witness :
  exists w' t',
    github_repo_monitor_task Sample.no_token 1700000070
      Sample.tid "octocat" "Hello-World" (Some Sample.sid)
      (Sample.world_of (Sample.entry [] 0 RUNNING)) = (w', Ok tt) /\
    db_task w' !! Sample.tid = Some t' /\
    Task.status t' = ERROR /\
    trace w' = [StatusWrite Sample.tid ERROR].
Proof.
  destruct (missing_token_fails_without_fetch Sample.no_token 1700000070
              Sample.tid Sample.tid "octocat" "Hello-World" (Some Sample.sid)
              (Sample.world_of (Sample.entry [] 0 RUNNING)) Sample.waiting_task
              eq_refl eq_refl eq_refl eq_refl)
    as (w' & t' & Hrun & Hl & Hs & _ & _ & Htrace & _).
  exists w', t'. repeat split; assumption.
Defined.

(** The guard is the worker's: [send_github_event_notification] itself,
    given no events, posts the message that says there are none. *)
Remark helper_posts_for_no_events :
  exists w url message,
    send_github_event_notification (Sample.up []) 1700000070
      "octocat" "Hello-World" [] Sample.hook "" Sample.empty_world
    = (w, Ok (PyDict [("errcode", PyInt 0); ("errmsg", PyStr "ok")])) /\
    trace w = [HttpPost url message] /\
    body message =
      MarkdownMessage "GitHub 监控 - octocat/Hello-World"
        ("### GitHub 仓库监控 - octocat/Hello-World" +:+ nl +:+ nl +:+ "暂无新事件").
Proof.
  eexists _, _, _. vm_compute. repeat split; reflexivity.
Qed.

(** ** Persisting a batch *)

Section Persist.
Context (X : Externals) (self : GithubRepoMonitorTask).

Lemma existing_records_app (event : Event.t) (l1 l2 : list Event.doc) :
  existing_records self event (l1 ++ l2) =
  existing_records self event l1 ++ existing_records self event l2.
Proof. apply filter_app. Qed.

Lemma existing_records_doc (now : Q) (event other : Event.t) :
  existing_records self event [event_doc X self now other] =
  if decide (Event.event_id other = Event.event_id event)
  then [event_doc X self now other] else [].
Proof.
  unfold existing_records.
  destruct (decide (Event.event_id other = Event.event_id event)) as [Heq|Hne].
  - rewrite filter_cons_True; [done|]. by split.
  - rewrite filter_cons_False; [done|]. by intros [? _].
Qed.

Lemma save_all_cons (now : Q) (event : Event.t) (batch : list Event.t)
    (stored : list Event.doc) :
  save_all X self now (event :: batch) stored =
  save_all X self now batch
    (match existing_records self event stored with
     | [] => stored ++ [event_doc X self now event]
     | _ :: _ => stored
     end).
Proof. reflexivity. Qed.

(** The loop only appends. *)
Lemma save_all_extends (now : Q) (batch : list Event.t) (stored : list Event.doc) :
  exists extra, save_all X self now batch stored = stored ++ extra.
Proof.
  revert stored. induction batch as [|event batch IH]; intros stored.
  - exists []. by rewrite app_nil_r.
  - rewrite save_all_cons.
    destruct (existing_records self event stored); [|apply IH].
    destruct (IH (stored ++ [event_doc X self now event])) as [extra ->].
    eexists. by rewrite <- app_assoc.
Qed.





(** A batch of distinct, unknown events is appended whole. *)
Lemma save_all_new (now : Q) (batch : list Event.t) (stored : list Event.doc) :
  NoDup (Event.event_id <$> batch) ->
  (forall event, event ∈ batch -> existing_records self event stored = []) ->
  save_all X self now batch stored = stored ++ (event_doc X self now <$> batch).
Proof.
  revert stored. induction batch as [|first batch IH]; intros stored Hnd Hall.
  - cbn. by rewrite app_nil_r.
  - rewrite save_all_cons, (Hall first) by left.
    cbn in Hnd. apply NoDup_cons in Hnd as [Hfirst Hnd].
    rewrite IH; [by rewrite <- app_assoc|done|].
    intros event Hin. rewrite existing_records_app, Hall by (by right).
    rewrite existing_records_doc. case_decide as Heq; [|done].
    exfalso. apply Hfirst. rewrite Heq. apply list_elem_of_fmap. by exists event.
Qed.

Lemma for_each_save_event (now : Q) (batch : list Event.t) (w : World) :
  exists w',
    for_each (save_event X self now) batch w = (w', Ok tt) /\
    db_event w' = save_all X self now batch (db_event w) /\
    db_task w' = db_task w /\ db_scheduler w' = db_scheduler w /\
    trace w' = trace w /\ celery_queue w' = celery_queue w.
Proof.
  revert w. induction batch as [|event batch IH]; intros w.
  - exists w. done.
  - cbn [for_each]. rewrite save_all_cons. unfold bind at 1.
    unfold save_event at 1. unfold_m.
    destruct (existing_records self event (db_event w)) eqn:Hex.
    + destruct (IH (with_event (fun l => l ++ [event_doc X self now event]) w))
        as (w' & Hrun & Hev & Hrest).
      exists w'. split; [done|]. split; [done|]. exact Hrest.
    + apply IH.
Qed.

Lemma save_events_eq (now : Q) (w : World) (oid : string) :
  ObjectId (task_id self) = Ok oid ->
  exists w',
    save_events X self now w = (w', Ok tt) /\
    db_event w' = save_all X self now (events self) (db_event w) /\
    db_scheduler w' = db_scheduler w /\ celery_queue w' = celery_queue w /\
    (forall e, e ∈ trace w' -> e ∈ trace w \/ exists v, e = StatusWrite oid v).
Proof.
  intros Hid. unfold save_events, update_status. unfold_m.
  rewrite Hid.
  match goal with |- context [for_each _ _ ?w1] =>
    destruct (for_each_save_event now (events self) w1)
      as (w' & Hrun & Hev & Htask & Hsched & Htrace & Hq) end.
  exists w'. rewrite Hrun. split; [done|]. split; [done|].
  split; [done|]. split; [done|].
  intros e He. rewrite Htrace in He. cbn in He.
  apply elem_of_app in He as [He|He]; [by left|].
  apply list_elem_of_singleton in He. right. eauto.
Qed.

End Persist.

Section BatchClaims.
Context (X : Externals).




End BatchClaims.



(** ** The types the fetch keeps *)

Section FetchFacts.
Context (X : Externals).

(** The monitor keeps events of the types it was given only. *)
Lemma fetch_loop_types (self : GithubRepoMonitor) (since_time : option Q)
    (data : list Api.EventData) (acc kept : list Event.t) :
  fetch_loop X self since_time data acc = Ok kept ->
  forall event, event ∈ kept ->
    event ∈ acc \/ Event.event_type event ∈ monitored_events self.
Proof.
  revert acc. induction data as [|event_data rest IH]; intros acc Hrun event Hin.
  - cbn in Hrun. injection Hrun as <-. by left.
  - cbn [fetch_loop] in Hrun.
    destruct (bool_decide _) eqn:Hty; cbn [negb] in Hrun; [|by eapply IH].
    apply bool_decide_eq_true in Hty.
    unfold exc_bind in Hrun.
    destruct (match since_time with Some _ => _ | None => _ end) as [[]|]; [..|done].
    + by eapply IH.
    + destruct (IH _ Hrun event Hin) as [Hacc|Hm]; [|by right].
      apply elem_of_app in Hacc as [Hacc|Hnew]; [by left|].
      apply list_elem_of_singleton in Hnew as ->. by right.
Qed.

(** The worker's fetch gives the monitor no list of types. *)
Lemma worker_monitor_types (owner repo : string) :
  monitored_events (GithubRepoMonitor_init owner repo None) = default_monitored_events.
Proof. reflexivity. Qed.

End FetchFacts.

(** C2 on the code: for an entry configured to monitor push events only,
    the scheduled run keeps, stores and counts an issues event of the feed;
    the fetch filters by the monitor's default types, not by the entry's. *)
Lemma fetch_keeps_type_not_configured :
  Scheduler.monitored_events <$>
    db_scheduler (Sample.world_of (Sample.entry ["PushEvent"] 0 RUNNING)) !! Sample.sid
  = Some ["PushEvent"] /\
  exists w1 task w2 stored,
    fetch_events (Sample.up Sample.issue_feed)
      (GithubRepoMonitorTask_init Sample.tid "octocat" "Hello-World" (Some Sample.sid))
      1700000070 (Sample.world_of (Sample.entry ["PushEvent"] 0 RUNNING))
    = (w1, Ok task) /\
    Event.event_type <$> events task = ["IssuesEvent"] /\
    github_repo_monitor_task (Sample.up Sample.issue_feed) 1700000070
      Sample.tid "octocat" "Hello-World" (Some Sample.sid)
      (Sample.world_of (Sample.entry ["PushEvent"] 0 RUNNING))
    = (w2, Ok tt) /\
    db_event w2 = [stored] /\
    Event.event_type (Event.of_event stored) = "IssuesEvent" /\
    Event.github_repo_scheduler_id stored = Some Sample.sid.
Proof.
  split; [reflexivity|].
  eexists _, _, _, _. vm_compute. repeat split; reflexivity.
Qed.

(** * Further properties of the code *)

(** ** The monitor's fetch *)

Section FetchMore.
Context (X : Externals).

(** X1. When [parse_datetime] raises on no monitored event, the loop of
    [fetch_events] returns, in the order of the reply, the events whose type
    is monitored and whose creation time is not parsed to an instant at or
    before [since_time]; an event whose creation time parses to nothing is
    kept. *)
Theorem fetch_loop_keeps_filtered (self : GithubRepoMonitor) (since_time : option Q)
    (data : list Api.EventData) (acc : list Event.t) :
  (forall event_data, event_data ∈ data ->
     default "" (Api.type event_data) ∈ monitored_events self ->
     is_Some since_time -> ~ unparsable X event_data) ->
  fetch_loop X self since_time data acc =
  Ok (acc ++ (event_of_data <$> filter (fun d => kept X self since_time d = true) data)).
Proof.
  revert acc. induction data as [|d rest IH]; intros acc Hparse.
  - cbn. by rewrite app_nil_r.
  - assert (Hrest : forall event_data, event_data ∈ rest ->
              default "" (Api.type event_data) ∈ monitored_events self ->
              is_Some since_time -> ~ unparsable X event_data).
    { intros e He. apply Hparse. by right. }
    cbn [fetch_loop]. unfold kept at 1.
    destruct (bool_decide (default "" (Api.type d) ∈ monitored_events self)) eqn:Hty;
      cbn [negb andb].
    + apply bool_decide_eq_true in Hty.
      destruct since_time as [since|]; cbn [exc_bind].
      * destruct (parse_datetime X (default "" (Api.event_created_at d)))
          as [[created|]|e] eqn:Hp; cbn [exc_bind].
        -- destruct (Qle_bool created since) eqn:Hle; cbn [negb].
           ++ rewrite filter_cons_False; [by apply IH|].
              unfold kept. rewrite Hp, Hle. by rewrite andb_false_r.
           ++ rewrite filter_cons_True.
              ** rewrite IH by done. cbn. by rewrite <- app_assoc.
              ** unfold kept. rewrite Hp, Hle, andb_true_r. by apply bool_decide_eq_true.
        -- rewrite filter_cons_True.
           ** rewrite IH by done. cbn. by rewrite <- app_assoc.
           ** unfold kept. rewrite Hp, andb_true_r. by apply bool_decide_eq_true.
        -- exfalso. apply (Hparse d); [by left|done|by eexists|by exists e].
      * rewrite filter_cons_True.
        -- rewrite IH by done. cbn. by rewrite <- app_assoc.
        -- unfold kept. rewrite andb_true_r. by apply bool_decide_eq_true.
    + rewrite filter_cons_False; [by apply IH|].
      unfold kept. by rewrite Hty.
Qed.

(** X2. One monitored event whose creation time [parse_datetime] raises on
    makes the whole loop raise, whatever was kept before it. *)
Theorem fetch_loop_raises_on_unparsable (self : GithubRepoMonitor) (since : Q)
    (data : list Api.EventData) (acc : list Event.t) (event_data : Api.EventData) :
  event_data ∈ data ->
  default "" (Api.type event_data) ∈ monitored_events self ->
  unparsable X event_data ->
  exists e, fetch_loop X self (Some since) data acc = Raise e.
Proof.
  revert acc. induction data as [|d rest IH]; intros acc Hin Hty [e He].
  - by apply elem_of_nil in Hin.
  - cbn [fetch_loop]. apply elem_of_cons in Hin as [->|Hin].
    + rewrite bool_decide_eq_true_2 by done. cbn [negb].
      rewrite He. cbn. eauto.
    + assert (Hrest : forall acc', exists e',
                fetch_loop X self (Some since) rest acc' = Raise e').
      { intros acc'. apply IH; [done..|by exists e]. }
      destruct (bool_decide _); cbn [negb]; [|apply Hrest].
      destruct (parse_datetime X (default "" (Api.event_created_at d)))
        as [[created|]|e'] eqn:Hp; cbn [exc_bind]; [| |by eauto].
      * destruct (Qle_bool created since); apply Hrest.
      * apply Hrest.
Qed.

Lemma monitor_fetch_spec (self : GithubRepoMonitor) (since_time : option Q)
    (w : World) :
  let url := "https://api.github.com/repos/" +:+ full_repo_name self +:+ "/events" in
  let headers := [("Authorization", "Bearer " +:+ GITHUB_TOKEN X);
                  ("Accept", "application/vnd.github.v3+json")] in
  exists w' fetched,
    monitor_fetch_events X self since_time w = (w', Ok fetched) /\
    db_scheduler w' = db_scheduler w /\ db_task w' = db_task w /\
    db_event w' = db_event w /\ celery_queue w' = celery_queue w /\
    trace w' = trace w ++
      (if truthy (GITHUB_TOKEN X) then [Sleep 1; HttpGet url headers] else []) /\
    (fetched <> [] ->
       truthy (GITHUB_TOKEN X) = true /\
       exists conn data,
         http_get X url headers = Ok conn /\ status_code conn = 200 /\
         json conn = Ok data /\
         fetch_loop X self since_time data [] = Ok fetched).
Proof.
  intros url headers. unfold monitor_fetch_events. fold url. fold headers.
  destruct (truthy (GITHUB_TOKEN X)); cbn [negb].
  - unfold_m. cbn.
    destruct (http_get X url headers) as [conn|e] eqn:Hget; cbn.
    + destruct (status_code conn =? 200)%Z eqn:Hst; cbn [negb].
      * apply Z.eqb_eq in Hst.
        destruct (json conn) as [data|e] eqn:Hjs; cbn.
        -- destruct (fetch_loop X self since_time data []) as [evs|e] eqn:Hloop.
           ++ eexists _, _. split; [reflexivity|]. cbn.
              rewrite <- app_assoc. repeat split; try done.
              exists conn, data. done.
           ++ eexists _, _. split; [reflexivity|]. cbn.
              rewrite <- app_assoc. repeat split; done.
        -- eexists _, _. split; [reflexivity|]. cbn.
           rewrite <- app_assoc. repeat split; done.
      * eexists _, _. split; [reflexivity|]. cbn.
        rewrite <- app_assoc. repeat split; done.
    + eexists _, _. split; [reflexivity|]. cbn.
      rewrite <- app_assoc. repeat split; done.
  - exists w, []. rewrite app_nil_r. repeat split; done.
Qed.

(** X3. [GithubRepoMonitor.fetch_events] never raises and never writes to
    the store.  Without a token it makes no request and returns nothing;
    with one it sleeps a second and makes one request, and it returns events
    only when the reply has status 200, decodes, and the loop over it does
    not raise. *)
Theorem monitor_fetch_never_raises (self : GithubRepoMonitor) (since_time : option Q)
    (w : World) :
  let url := "https://api.github.com/repos/" +:+ full_repo_name self +:+ "/events" in
  let headers := [("Authorization", "Bearer " +:+ GITHUB_TOKEN X);
                  ("Accept", "application/vnd.github.v3+json")] in
  exists w' fetched,
    monitor_fetch_events X self since_time w = (w', Ok fetched) /\
    db_scheduler w' = db_scheduler w /\ db_task w' = db_task w /\
    db_event w' = db_event w /\ celery_queue w' = celery_queue w /\
    trace w' = trace w ++
      (if truthy (GITHUB_TOKEN X) then [Sleep 1; HttpGet url headers] else []) /\
    (fetched <> [] ->
       truthy (GITHUB_TOKEN X) = true /\
       exists conn data,
         http_get X url headers = Ok conn /\ status_code conn = 200 /\
         json conn = Ok data /\
         fetch_loop X self since_time data [] = Ok fetched).
Proof. apply monitor_fetch_spec. Qed.

End FetchMore.

(** ** The worker's run *)

Section RunMore.
Context (X : Externals).










End RunMore.

(** ** The event collection *)

Section EventStore.
Context (X : Externals) (self : GithubRepoMonitorTask).

Lemma existing_records_nil_iff (event : Event.t) (stored : list Event.doc) :
  existing_records self event stored = [] <->
  (Event.event_id event, scheduler_id self) ∉ record_key <$> stored.
Proof.
  unfold existing_records. split.
  - intros Hnil Hin. apply list_elem_of_fmap in Hin as (d & Hk & Hd).
    eapply filter_nil_not_elem_of; [exact Hnil| |exact Hd].
    unfold record_key in Hk. by injection Hk as -> ->.
  - intros Hnot. destruct (filter _ stored) as [|d r] eqn:Hf; [done|].
    exfalso. apply Hnot.
    assert (Hd : d ∈ filter (fun d =>
                   Event.event_id (Event.of_event d) = Event.event_id event /\
                   Event.github_repo_scheduler_id d = scheduler_id self) stored)
      by (rewrite Hf; left).
    apply list_elem_of_filter in Hd as [[H1 H2] Hd].
    apply list_elem_of_fmap. exists d. split; [|done].
    unfold record_key. by rewrite H1, H2.
Qed.

(** X6. [save_events] keeps the pairs of event id and schedule id of the
    event collection distinct: it never stores a second record for a pair,
    also when the fetched batch repeats an event. *)
Theorem save_events_keeps_keys_distinct (now : Q) (w : World) (oid : string) :
  ObjectId (task_id self) = Ok oid ->
  NoDup (record_key <$> db_event w) ->
  exists w',
    save_events X self now w = (w', Ok tt) /\
    NoDup (record_key <$> db_event w') /\
    (forall d, d ∈ db_event w -> d ∈ db_event w').
Proof.
  intros Hid Hnd.
  destruct (save_events_eq X self now w oid Hid) as (w' & Hrun & Hev & _).
  exists w'. split; [done|]. rewrite Hev. clear Hrun Hev. split.
  - revert Hnd. generalize (db_event w) as stored.
    induction (events self) as [|event batch IH]; intros stored Hnd; [done|].
    rewrite save_all_cons.
    destruct (existing_records self event stored) as [|d r] eqn:Hex; [|by apply IH].
    apply IH. rewrite fmap_app. apply NoDup_app. split; [done|].
    split; [|apply NoDup_singleton].
    intros k Hk Hk'. cbn in Hk'. apply list_elem_of_singleton in Hk'. subst k.
    apply existing_records_nil_iff in Hex. by apply Hex.
  - intros d Hd.
    destruct (save_all_extends X self now (events self) (db_event w)) as [extra ->].
    apply elem_of_app. by left.
Qed.

(** X7. The existence check is per schedule id: an event whose stored
    records all belong to other schedule ids is stored again for this one,
    whatever else the collection holds. *)
Theorem save_events_dedups_per_schedule (now : Q) (w : World) (event : Event.t)
    (oid : string) :
  ObjectId (task_id self) = Ok oid ->
  events self = [event] ->
  (forall d, d ∈ db_event w ->
     Event.event_id (Event.of_event d) = Event.event_id event ->
     Event.github_repo_scheduler_id d <> scheduler_id self) ->
  exists w',
    save_events X self now w = (w', Ok tt) /\
    db_event w' = db_event w ++ [event_doc X self now event].
Proof.
  intros Hid Hev Hother.
  destruct (save_events_eq X self now w oid Hid) as (w' & Hrun & Hdb & _).
  exists w'. split; [done|]. rewrite Hdb, Hev.
  rewrite (save_all_new X self now [event]); [done|apply NoDup_singleton|].
  intros e He. apply list_elem_of_singleton in He. subst e.
  apply existing_records_nil_iff. intros Hin.
  apply list_elem_of_fmap in Hin as (d & Hk & Hd).
  unfold record_key in Hk. injection Hk as Hk1 Hk2.
  by apply (Hother d Hd).
Qed.

End EventStore.

(** ** More on the tick *)

Section TickMore.
Context (X : Externals).

Lemma for_each_idle (now : Q) (l : list (string * Scheduler.item)) (w : World) :
  (forall p, p ∈ l -> fires X now p.2 = false) ->
  for_each (tick_item X now) l w = (w, Ok tt).
Proof.
  induction l as [|p l IH]; intros Hidle; [done|].
  cbn [for_each]. unfold bind. unfold tick_item at 1. unfold try_except.
  rewrite (Hidle p) by left. unfold ret at 1. apply IH.
  intros q Hq. apply Hidle. by right.
Qed.

(** X8. A tick at which no stored entry is due changes nothing: no entry is
    rewritten, no task is created, nothing is enqueued. *)
Theorem idle_tick_changes_nothing (now : Q) (w : World) :
  (forall _id item, db_scheduler w !! _id = Some item -> fires X now item = false) ->
  github_repo_scheduler X now w = (w, Ok tt).
Proof.
  intros Hidle. unfold github_repo_scheduler. unfold bind, gets.
  apply for_each_idle. intros [k item] Hin.
  apply elem_of_map_to_list in Hin. by apply (Hidle k).
Qed.

Lemma submit_delay_no_orphan (task_data : Task.doc) (w : World) :
  no_orphan_waiting w ->
  no_orphan_waiting (submit_github_repo_task X task_data true w).1.
Proof.
  intros Hno.
  destruct (celery_delay X
              {| celery_action := GITHUB_REPO_MONITOR;
                 data_task_id := new_ObjectId X (dom (db_task w));
                 data := Task.set_celery_id "" task_data |}) as [cid|e] eqn:Hd.
  - by eapply submit_enqueued_no_orphan.
  - rewrite submit_delay_eq. cbn zeta. rewrite Hd. cbn [fst].
    intros k t Hk Hs. unfold with_task in Hk. cbn [db_task] in Hk.
    apply lookup_delete_Some in Hk as [Hne Hk].
    rewrite lookup_insert_ne in Hk by done.
    destruct (Hno k t Hk Hs) as (c & o & Hin & Ho). by exists c, o.
Qed.

Lemma no_orphan_with_scheduler (f : gmap string Scheduler.item -> gmap string Scheduler.item)
    (w : World) :
  no_orphan_waiting w -> no_orphan_waiting (with_scheduler f w).
Proof. intros Hno k t Hk Hs. destruct (Hno k t Hk Hs) as (c & o & H). by exists c, o. Qed.

Lemma cron_run_no_orphan (now : Q) (_id : string) (item : Scheduler.item) (w : World) :
  no_orphan_waiting w ->
  no_orphan_waiting (github_repo_cron_run X now _id item w).1.
Proof.
  intros Hno. unfold github_repo_cron_run. unfold bind at 1.
  pose proof (submit_delay_no_orphan (cron_task_data _id item) w Hno) as Hsub.
  destruct (submit_github_repo_task X (cron_task_data _id item) true w) as [w1 [r|e]];
    [|done].
  unfold_m. cbn.
  destruct (CronTab X (Scheduler.cron item)); [|done].
  by apply no_orphan_with_scheduler.
Qed.

Lemma for_each_tick_no_orphan (now : Q) (l : list (string * Scheduler.item)) (w : World) :
  no_orphan_waiting w ->
  no_orphan_waiting (for_each (tick_item X now) l w).1.
Proof.
  revert w. induction l as [|p l IH]; intros w Hno; [done|].
  cbn [for_each]. unfold bind.
  assert (Hstep : exists w1, tick_item X now p w = (w1, Ok tt) /\ no_orphan_waiting w1).
  { unfold tick_item, try_except. destruct (fires X now p.2); [|by exists w].
    pose proof (cron_run_no_orphan now p.1 p.2 w Hno) as Hrun.
    destruct (github_repo_cron_run X now p.1 p.2 w) as [w1 [[]|e]]; by exists w1. }
  destruct Hstep as (w1 & -> & Hno1). by apply IH.
Qed.

(** X9. The tick keeps the store free of orphans: if every WAITING task
    record has a work item in the queue before a tick, so it is after it,
    whether the queue took the new work items or refused them. *)
Theorem tick_keeps_no_orphan (now : Q) (w : World) :
  no_orphan_waiting w ->
  no_orphan_waiting (github_repo_scheduler X now w).1.
Proof.
  intros Hno. unfold github_repo_scheduler. unfold bind, gets.
  by apply for_each_tick_no_orphan.
Qed.

(** X10. Stopping an entry keeps every later tick from firing it: after the
    stop handler has stopped a RUNNING entry, stored under the key [oid]
    that the requested id spells, a tick at any time leaves the entry as the
    stop wrote it. *)
Theorem stopped_entry_is_not_fired (now : Q) (w : World) (_id oid : string)
    (item : Scheduler.item) :
  ObjectId _id = Ok oid ->
  db_scheduler w !! oid = Some item ->
  Scheduler.status item = RUNNING ->
  exists w1 w2 stopped,
    stop_post [_id] w = (w1, Ok (build_ret Success (DataIds [_id]))) /\
    github_repo_scheduler X now w1 = (w2, Ok tt) /\
    db_scheduler w2 !! oid = Some stopped /\
    Scheduler.status stopped = STOP /\
    Scheduler.run_number stopped = Scheduler.run_number item /\
    Scheduler.next_run_date stopped = "-".
Proof.
  intros Hid Hitem Hs.
  rewrite (stop_post_running _id oid item w) by done.
  set (stopped := Scheduler.set_next_run_date "-" (Scheduler.set_status STOP item)).
  set (w1 := with_scheduler (insert oid stopped) w).
  destruct (tick_scheduler X now w1) as (w2 & Hrun & Hdb).
  exists w1, w2, stopped. split; [done|]. split; [done|].
  split; [|done].
  rewrite Hdb, lookup_fmap. subst w1. cbn [db_scheduler with_scheduler].
  rewrite lookup_insert_eq. cbn. unfold tick_entry, fires.
  by rewrite decide_True.
Qed.

End TickMore.

(** ** The request handlers *)

Lemma lstrip_white_space (x rest : string) :
  x ∈ white_space -> lstrip (x +:+ rest) = lstrip rest.
Proof.
  intros H. vm_compute in H.
  repeat (apply elem_of_cons in H as [->|H]; [reflexivity|]).
  by apply elem_of_nil in H.
Qed.

Lemma lstrip_blank (s : string) : blank s -> lstrip s = "".
Proof.
  intros (l & Hl & ->). induction Hl as [|x l Hx Hl IH]; [done|].
  cbn [join]. by rewrite lstrip_white_space.
Qed.

Lemma strip_blank (s : string) : blank s -> strip s = "".
Proof. intros H. unfold strip. by rewrite (lstrip_blank s H). Qed.

Lemma dom_find_one_and_replace {V} (k : string) (v : V) (m : gmap string V) :
  dom (find_one_and_replace k v m) = dom m.
Proof.
  unfold find_one_and_replace. destruct (m !! k) eqn:E; [|done].
  rewrite dom_insert_L. apply elem_of_dom_2 in E.
  apply set_eq. intros j. rewrite elem_of_union, elem_of_singleton.
  split; [intros [->|Hj]; done|by right].
Qed.

Section HandlersMore.
Context (X : Externals).

(** X11. The add handler stores nothing unless the owner and the repository
    name are non-empty once stripped and the cron expression passes both
    checks; an owner or a name made of white-space characters only (those of
    [str.isspace], the non-ASCII ones included) is refused with [Error]. *)
Theorem add_post_stores_only_checked (now : Q) (name repo_owner repo_name cron : string)
    (monitored_events : list string) (w : World) :
  let run := add_post X now name repo_owner repo_name cron monitored_events w in
  (run.1 <> w ->
     truthy (strip repo_owner) = true /\ truthy (strip repo_name) = true /\
     check_cron_interval X cron = None /\
     exists next_sec, check_cron X cron now = Ok next_sec) /\
  (blank repo_owner \/ blank repo_name ->
     run = (w, Ok (build_ret Error (DataMessage "仓库所有者和仓库名称不能为空")))).
Proof.
  cbv zeta. unfold add_post. split.
  - destruct (truthy (strip repo_owner)), (truthy (strip repo_name)); cbn [negb orb];
      try done.
    destruct (check_cron_interval X cron); [done|].
    unfold_m. destruct (check_cron X cron now) as [next|e]; [|done].
    intros _. repeat split. by exists next.
  - intros [Hb|Hb]; rewrite (strip_blank _ Hb); cbn [truthy String.eqb negb orb]; [done|].
    by rewrite orb_true_r.
Qed.

(** X12. An accepted add stores, under the new id, an entry that is
    RUNNING with run counter 0, last run "-" and 0, the stripped owner and
    name, the given events or the three default ones, and the next run
    computed from the clock; it returns that entry and leaves every other
    entry, task and event as it was. *)
Theorem add_post_creates_running_entry (now : Q) (name repo_owner repo_name cron : string)
    (monitored_events : list string) (w : World) (next_sec : Q) :
  truthy (strip repo_owner) = true ->
  truthy (strip repo_name) = true ->
  check_cron_interval X cron = None ->
  check_cron X cron now = Ok next_sec ->
  let _id := new_ObjectId X (dom (db_scheduler w)) in
  exists w' item,
    add_post X now name repo_owner repo_name cron monitored_events w
      = (w', Ok (build_ret Success (DataItem _id item))) /\
    db_scheduler w' = <[_id := item]> (db_scheduler w) /\
    db_task w' = db_task w /\ db_event w' = db_event w /\
    celery_queue w' = celery_queue w /\ trace w' = trace w /\
    Scheduler.status item = RUNNING /\
    counters item = (0, 0) /\
    Scheduler.last_run_date item = "-" /\
    Scheduler.name item = name /\
    Scheduler.repo_owner item = strip repo_owner /\
    Scheduler.repo_name item = strip repo_name /\
    Scheduler.cron item = cron /\
    Scheduler.next_run_date item = time2date X (now + next_sec)%Q /\
    Scheduler.monitored_events item =
      (if decide (monitored_events = [])
       then ["PushEvent"; "IssuesEvent"; "PullRequestEvent"]
       else monitored_events).
Proof.
  intros Ho Hr Hc Hn _id. unfold add_post.
  rewrite Ho, Hr, Hc. cbn [negb orb]. unfold_m. rewrite Hn.
  eexists _, _. split; [reflexivity|]. cbn.
  repeat split. by destruct monitored_events.
Qed.

Lemma delete_check_world (ret_data : RetData) (job_id_list : list string) (w : World) :
  (delete_check ret_data job_id_list w).1 = w.
Proof.
  induction job_id_list as [|job_id rest IH]; [done|].
  cbn [delete_check]. unfold bind. rewrite find_scheduler_eq.
  destruct (ObjectId job_id) as [oid|]; [|done].
  by destruct (db_scheduler w !! oid).
Qed.

(** X13. The delete handler checks every id before it deletes any: if
    every id of the request is one that [ObjectId] accepts and one of them
    spells the key of no stored entry, it answers [JobNotFound] and the
    store is as before, the entries of the other ids included. *)
Theorem delete_post_all_or_nothing (job_id_list : list string) (w : World)
    (missing oid : string) :
  (forall _id, _id ∈ job_id_list -> exists k, ObjectId _id = Ok k) ->
  missing ∈ job_id_list ->
  ObjectId missing = Ok oid ->
  db_scheduler w !! oid = None ->
  delete_post job_id_list w = (w, Ok (build_ret JobNotFound (DataIds job_id_list))).
Proof.
  intros Hvalid Hin Hoid Hmiss. unfold delete_post. unfold bind.
  assert (Hcheck : forall ret_data,
            delete_check ret_data job_id_list w
            = (w, Ok (Some (build_ret JobNotFound ret_data)))).
  { intros ret_data. revert Hvalid Hin.
    induction job_id_list as [|job_id rest IH]; intros Hvalid Hin.
    - by apply elem_of_nil in Hin.
    - cbn [delete_check]. unfold bind.
      destruct (Hvalid job_id ltac:(left)) as [k Hk].
      rewrite (find_scheduler_ok job_id k) by done.
      destruct (db_scheduler w !! k) as [item|] eqn:Hj; [|done].
      apply IH.
      + intros j Hj'. apply Hvalid. by right.
      + apply elem_of_cons in Hin as [->|Hin]; [congruence|done]. }
  by rewrite Hcheck.
Qed.

(** The delete handler raises [InvalidId], with the store as before, on a
    request whose first id is one that [ObjectId] rejects. *)
Lemma delete_post_invalid_first (job_id : string) (rest : list string) (w : World)
    (e : string) :
  ObjectId job_id = Raise e ->
  delete_post (job_id :: rest) w = (w, Raise e).
Proof.
  intros Hoid. unfold delete_post. unfold bind. cbn [delete_check]. unfold bind.
  by rewrite find_scheduler_eq, Hoid.
Qed.

(** X14. The stop handler is not all-or-nothing: it stops the entries in
    the order of the request, so when a later id, one that [ObjectId]
    accepts, spells the key of no stored entry it answers [JobNotFound] with
    the earlier entry already stopped. *)
Theorem stop_post_stops_before_failing (running missing oid other : string)
    (item : Scheduler.item) (w : World) :
  ObjectId running = Ok oid ->
  ObjectId missing = Ok other ->
  db_scheduler w !! oid = Some item ->
  Scheduler.status item = RUNNING ->
  db_scheduler w !! other = None ->
  stop_post [running; missing] w =
  (with_scheduler
     (insert oid (Scheduler.set_next_run_date "-" (Scheduler.set_status STOP item)))
     w,
   Ok (build_ret JobNotFound (DataId missing))).
Proof.
  intros Hl1 Hl2 Hitem Hs Hmiss. unfold stop_post, stop_loop. unfold bind.
  rewrite (find_scheduler_ok running oid), Hitem by done.
  rewrite decide_False by (by rewrite Hs; intros ?).
  rewrite (stop_task_eq running oid item w) by done.
  rewrite (find_scheduler_ok missing other) by done. cbn [db_scheduler with_scheduler].
  rewrite lookup_insert_ne by congruence. by rewrite Hmiss.
Qed.

(** X15. Recovering a stopped entry whose cron expression no longer parses
    raises and leaves the entry stopped. *)
Theorem recover_unparsable_cron_raises (now : Q) (_id oid : string)
    (item : Scheduler.item) (w : World) (e : string) :
  ObjectId _id = Ok oid ->
  db_scheduler w !! oid = Some item ->
  Scheduler.status item = STOP ->
  CronTab X (Scheduler.cron item) = Raise e ->
  recover_post X now [_id] w = (w, Raise e).
Proof.
  intros Hid Hitem Hs He. unfold recover_post, recover_loop. unfold bind.
  rewrite (find_scheduler_ok _id oid), Hitem by done.
  rewrite decide_False by (by rewrite Hs; intros ?).
  unfold recover_github_repo_task. rewrite (ObjectId_len _ _ Hid). cbn [Nat.eqb negb].
  unfold bind. rewrite (find_scheduler_ok _id oid), Hitem by done.
  unfold lift. cbn. by rewrite He.
Qed.

Lemma stop_task_dom (_id : string) (w : World) :
  dom (db_scheduler (stop_github_repo_task _id w).1) = dom (db_scheduler w).
Proof.
  unfold stop_github_repo_task. destruct (negb _); [done|].
  unfold bind at 1. rewrite find_scheduler_eq.
  destruct (ObjectId _id) as [oid|] eqn:Ho; [|done].
  destruct (db_scheduler w !! oid) as [item|]; [|done].
  unfold_m. cbn. apply dom_find_one_and_replace.
Qed.

Lemma recover_task_dom (now : Q) (_id : string) (w : World) :
  dom (db_scheduler (recover_github_repo_task X now _id w).1) = dom (db_scheduler w).
Proof.
  unfold recover_github_repo_task. destruct (negb _); [done|].
  unfold bind at 1. rewrite find_scheduler_eq.
  destruct (ObjectId _id) as [oid|] eqn:Ho; [|done].
  destruct (db_scheduler w !! oid) as [item|]; [|done].
  unfold_m. cbn. destruct (CronTab X (Scheduler.cron item)); [|done].
  cbn. apply dom_find_one_and_replace.
Qed.

Lemma stop_loop_dom (job_id_list : list string) (w : World) :
  dom (db_scheduler (stop_loop job_id_list w).1) = dom (db_scheduler w).
Proof.
  revert w. induction job_id_list as [|job_id rest IH]; intros w; [done|].
  cbn [stop_loop]. unfold bind at 1. rewrite find_scheduler_eq.
  destruct (ObjectId job_id) as [oid|]; [|done].
  destruct (db_scheduler w !! oid) as [item|]; [|done].
  case_decide; [done|]. unfold bind.
  pose proof (stop_task_dom job_id w) as Hs.
  destruct (stop_github_repo_task job_id w) as [w1 [[]|e]]; [|done].
  by rewrite IH.
Qed.

Lemma recover_loop_dom (now : Q) (job_id_list : list string) (w : World) :
  dom (db_scheduler (recover_loop X now job_id_list w).1) = dom (db_scheduler w).
Proof.
  revert w. induction job_id_list as [|job_id rest IH]; intros w; [done|].
  cbn [recover_loop]. unfold bind at 1. rewrite find_scheduler_eq.
  destruct (ObjectId job_id) as [oid|]; [|done].
  destruct (db_scheduler w !! oid) as [item|]; [|done].
  case_decide; [done|]. unfold bind.
  pose proof (recover_task_dom now job_id w) as Hs.
  destruct (recover_github_repo_task X now job_id w) as [w1 [[]|e]]; [|done].
  by rewrite IH.
Qed.

(** X16. Only the add handler changes the set of stored ids: update, stop,
    recover and the tick keep it. *)
Theorem ids_change_only_on_create (now : Q) (op : Operation) (w : World) :
  (forall name repo_owner repo_name cron monitored_events,
     op <> Create name repo_owner repo_name cron monitored_events) ->
  dom (db_scheduler (perform X now op w)) = dom (db_scheduler w).
Proof.
  intros Hop. destruct op as [n o r c m| | | |]; cbn [perform].
  - by destruct (Hop n o r c m).
  - unfold update_post. unfold bind at 1. rewrite find_scheduler_eq.
    destruct (ObjectId job_id) as [oid|] eqn:Ho; [|done].
    destruct (db_scheduler w !! oid); [|done].
    destruct (truthy cron).
    + destruct (check_cron_interval X cron); [done|].
      unfold_m. destruct (check_cron X cron now); [|done].
      cbn. apply dom_find_one_and_replace.
    + unfold_m. cbn. apply dom_find_one_and_replace.
  - unfold stop_post, bind. pose proof (stop_loop_dom job_id_list w) as H.
    by destruct (stop_loop job_id_list w) as [w1 [[r|]|e]].
  - unfold recover_post, bind. pose proof (recover_loop_dom now job_id_list w) as H.
    by destruct (recover_loop X now job_id_list w) as [w1 [[r|]|e]].
  - destruct (tick_scheduler X now w) as (w' & Hrun & Hdb).
    rewrite Hrun. cbn [fst]. rewrite Hdb. apply dom_fmap_L.
Qed.

End HandlersMore.

Section UpdateMore.
Context (X : Externals).

(** X17. An accepted update rewrites the entry stored under the key [oid]
    that the requested id spells, field by field: a field of the request that
    is empty keeps its stored value, owner and name are stored stripped, the
    next run is recomputed only when a cron expression is given, and status,
    run counter and last run are never touched.  A request with no field at
    all stores the entry as it was.  The reply carries the key and the entry
    as stored. *)
Theorem update_post_edits_given_fields (now : Q)
    (job_id oid name repo_owner repo_name cron : string) (monitored_events : list string)
    (w : World) (item : Scheduler.item) (next_sec : Q) :
  ObjectId job_id = Ok oid ->
  db_scheduler w !! oid = Some item ->
  (truthy cron = true ->
     check_cron_interval X cron = None /\ check_cron X cron now = Ok next_sec) ->
  exists item',
    update_post X now job_id name repo_owner repo_name cron monitored_events w
      = (with_scheduler (insert oid item') w,
         Ok (build_ret Success (DataItem oid item'))) /\
    Scheduler.status item' = Scheduler.status item /\
    counters item' = counters item /\
    Scheduler.last_run_date item' = Scheduler.last_run_date item /\
    Scheduler.name item' = (if truthy name then name else Scheduler.name item) /\
    Scheduler.repo_owner item' =
      (if truthy repo_owner then strip repo_owner else Scheduler.repo_owner item) /\
    Scheduler.repo_name item' =
      (if truthy repo_name then strip repo_name else Scheduler.repo_name item) /\
    Scheduler.monitored_events item' =
      (if decide (monitored_events = []) then Scheduler.monitored_events item
       else monitored_events) /\
    Scheduler.cron item' = (if truthy cron then cron else Scheduler.cron item) /\
    Scheduler.next_run_date item' =
      (if truthy cron then time2date X (now + next_sec)%Q
       else Scheduler.next_run_date item) /\
    (truthy name = false -> truthy repo_owner = false -> truthy repo_name = false ->
     truthy cron = false -> monitored_events = [] -> item' = item).
Proof.
  intros Hid Hitem Hcron. unfold update_post. unfold bind at 1.
  rewrite (find_scheduler_ok job_id oid), Hitem by done.
  destruct (truthy cron) eqn:Hc.
  - destruct (Hcron eq_refl) as [Hci Hcc]. rewrite Hci. unfold_m.
    rewrite Hcc, Hid.
    unfold with_scheduler at 1, find_one_and_replace. cbn [db_scheduler]. rewrite Hitem.
    eexists. split; [reflexivity|].
    destruct monitored_events, (truthy name), (truthy repo_owner), (truthy repo_name);
      repeat split; done.
  - unfold_m. rewrite Hid.
    unfold with_scheduler at 1, find_one_and_replace. cbn [db_scheduler]. rewrite Hitem.
    eexists. split; [reflexivity|].
    destruct monitored_events, (truthy name), (truthy repo_owner), (truthy repo_name);
      repeat split; try done; by destruct item.
Qed.

(** X18. An update whose cron expression is rejected stores nothing: the
    other fields of the same request are dropped with it. *)
Theorem update_post_rejected_cron (now : Q)
    (job_id oid name repo_owner repo_name cron : string) (monitored_events : list string)
    (w : World) (item : Scheduler.item) (msg : Ret) :
  ObjectId job_id = Ok oid ->
  db_scheduler w !! oid = Some item ->
  truthy cron = true ->
  check_cron_interval X cron = Some msg ->
  update_post X now job_id name repo_owner repo_name cron monitored_events w
    = (w, Ok msg).
Proof.
  intros Hid Hitem Hc Hrej. unfold update_post. unfold bind at 1.
  rewrite (find_scheduler_ok job_id oid), Hitem by done. by rewrite Hc, Hrej.
Qed.

(** X19. A submission the queue accepts stores the task under the new id
    with the handle the queue returned, appends one work item that carries
    the task id, and returns the stored task; the work item holds the task
    as it was before the handle was known. *)
Theorem submit_accepted_records_handle (task_data : Task.doc) (w : World)
    (celery_id : string) :
  let task_id := new_ObjectId X (dom (db_task w)) in
  let options :=
    {| celery_action := GITHUB_REPO_MONITOR;
       data_task_id := task_id;
       data := Task.set_celery_id "" task_data |} in
  celery_delay X options = Ok celery_id ->
  exists w',
    submit_github_repo_task X task_data true w
      = (w', Ok (Submitted task_id (Task.set_celery_id celery_id task_data))) /\
    db_task w' = <[task_id := Task.set_celery_id celery_id task_data]> (db_task w) /\
    celery_queue w' = celery_queue w ++ [(celery_id, options)] /\
    enqueued w' task_id /\
    db_scheduler w' = db_scheduler w /\ db_event w' = db_event w.
Proof.
  intros task_id options Hd. rewrite submit_delay_eq. cbn zeta.
  fold task_id. fold options. rewrite Hd.
  eexists. split; [by destruct task_data|].
  cbn [db_task db_scheduler db_event celery_queue with_task enqueue].
  split.
  { apply map_eq. intros k. destruct (decide (k = task_id)) as [->|Hne].
    - rewrite lookup_alter_eq, !lookup_insert_eq. by destruct task_data.
    - by rewrite lookup_alter_ne, !lookup_insert_ne. }
  split; [done|]. split; [|done].
  exists celery_id, options. split; [|done].
  cbn. apply elem_of_app. right. by apply list_elem_of_singleton.
Qed.

End UpdateMore.

(** ** The last check time *)

Lemma leb_of_not_ltb (a b : string) : String.ltb a b = false -> String.leb b a = true.
Proof.
  unfold String.ltb, String.leb. rewrite (String.compare_antisym b a).
  by destruct (a ?= b)%string.
Qed.

Lemma leb_of_ltb (a b : string) : String.ltb a b = true -> String.leb a b = true.
Proof. unfold String.ltb, String.leb. by destruct (a ?= b)%string. Qed.

Lemma leb_refl (a : string) : String.leb a a = true.
Proof. apply Is_true_true. apply (reflexivity (R := String.le)). Qed.

Lemma leb_trans (a b c : string) :
  String.leb a b = true -> String.leb b c = true -> String.leb a c = true.
Proof.
  intros H1 H2. apply Is_true_true.
  apply (transitivity (R := String.le) (y := b)); by apply Is_true_true.
Qed.

Lemma latest_by_end_time_greatest (l : list Task.doc) :
  match latest_by_end_time l with
  | None => l = []
  | Some u =>
      u ∈ l /\
      forall t, t ∈ l -> String.leb (Task.end_time t) (Task.end_time u) = true
  end.
Proof.
  induction l as [|t r IH]; [done|]. cbn [latest_by_end_time].
  destruct (latest_by_end_time r) as [u|].
  - destruct IH as [Hu Hmax].
    destruct (String.ltb (Task.end_time t) (Task.end_time u)) eqn:Hlt.
    + split; [by right|]. intros x Hx.
      apply elem_of_cons in Hx as [->|Hx]; [by apply leb_of_ltb|by apply Hmax].
    + apply leb_of_not_ltb in Hlt.
      split; [by left|]. intros x Hx. apply elem_of_cons in Hx as [->|Hx].
      * apply leb_refl.
      * eapply leb_trans; [by apply Hmax|done].
  - subst r. split; [by left|]. intros x Hx. apply list_elem_of_singleton in Hx as ->.
    apply leb_refl.
Qed.

Section LastCheck.
Context (X : Externals).

(** X20. [get_last_check_time] never raises and never writes.  It answers
    the clock minus one hour, or what [parse_datetime] makes of the end time
    of a DONE task of the same schedule id whose end time is greatest among
    them; with no DONE task of that schedule id it answers the clock minus
    one hour. *)
Theorem last_check_time_is_latest_done (self : GithubRepoMonitorTask) (now : Q) (w : World) :
  exists since,
    get_last_check_time X self now w = (w, Ok since) /\
    (since = Some (now - 3600)%Q \/
     exists k t,
       db_task w !! k = Some t /\
       Task.github_repo_scheduler_id t = scheduler_id self /\
       Task.status t = DONE /\
       parse_datetime X (Task.end_time t) = Ok since /\
       forall k' t',
         db_task w !! k' = Some t' ->
         Task.github_repo_scheduler_id t' = scheduler_id self ->
         Task.status t' = DONE ->
         String.leb (Task.end_time t') (Task.end_time t) = true) /\
    ((forall k t, db_task w !! k = Some t ->
        Task.github_repo_scheduler_id t = scheduler_id self ->
        Task.status t <> DONE) ->
     since = Some (now - 3600)%Q).
Proof.
  unfold get_last_check_time. unfold_m.
  set (P := fun t => Task.github_repo_scheduler_id t = scheduler_id self /\
                     Task.status t = DONE).
  set (l := filter P (map_to_list (db_task w)).*2).
  assert (Hl : forall t, t ∈ l <-> P t /\ exists k, db_task w !! k = Some t).
  { intros t. subst l. rewrite list_elem_of_filter, list_elem_of_fmap. split.
    - intros [HP ([k t'] & -> & Hin)]. split; [done|].
      exists k. by apply elem_of_map_to_list.
    - intros [HP [k Hk]]. split; [done|]. exists (k, t). split; [done|].
      by apply elem_of_map_to_list. }
  pose proof (latest_by_end_time_greatest l) as Hlatest.
  destruct (latest_by_end_time l) as [u|].
  - destruct Hlatest as [Hu Hmax]. apply Hl in Hu as [[Hs Hd] [k Hk]].
    assert (Hnone : (forall k t, db_task w !! k = Some t ->
                       Task.github_repo_scheduler_id t = scheduler_id self ->
                       Task.status t <> DONE) -> False).
    { intros Hno. by apply (Hno k u). }
    destruct (truthy (Task.end_time u)).
    + destruct (parse_datetime X (Task.end_time u)) as [since|e] eqn:Hp.
      * exists since. split; [done|]. split; [|by intros ?%Hnone].
        right. exists k, u. repeat split; try done.
        intros k' t' Hk' Hs' Hd'. apply Hmax. apply Hl. split; [done|by exists k'].
      * eexists. split; [done|]. split; [by left|by intros ?%Hnone].
    + eexists. split; [done|]. split; [by left|by intros ?%Hnone].
  - eexists. split; [done|]. split; [by left|done].
Qed.

End LastCheck.

(** ** Event objects and their summaries *)


Lemma append_empty (a : string) : a +:+ "" = a.
Proof.
  induction a as [|x a IH]; [done|].
  change (String x (a +:+ "") = String x a). by rewrite IH.
Qed.




(** X22. The constructor of [GithubRepoEvent] parses a payload for the six
    default monitored types and for no other: the detail is missing exactly
    for a type outside the default list, and the type is kept as given. *)
Theorem event_detail_iff_default_type (event_data : Api.EventData) (event_type : string) :
  (Event.detail (GithubRepoEvent event_data event_type) = NoDetail <->
   event_type ∉ default_monitored_events) /\
  Event.event_type (GithubRepoEvent event_data event_type) = event_type.
Proof.
  split; [|done]. unfold GithubRepoEvent, default_monitored_events. cbn [Event.detail].
  repeat match goal with
  | |- context [String.eqb event_type ?s] =>
      let E := fresh "E" in
      destruct (String.eqb event_type s) eqn:E;
      [apply String.eqb_eq in E; subst event_type;
       split; [discriminate|intros H; exfalso; apply H; set_solver]|
       apply String.eqb_neq in E]
  end.
  split; [|done]. intros _ Hin.
  repeat (apply elem_of_cons in Hin as [?|Hin]; [done|]).
  by apply elem_of_nil in Hin.
Qed.

Section SendMore.
Context (X : Externals).

(** X23. [send_dingtalk_notification] never raises and returns a
    dictionary; it sends a text message, without the title, for the message
    type "text", and a markdown message for every other type, "link"
    included. *)
Theorem send_dingtalk_notification_types (now : Q) (title content msgtype : string)
    (hook key : string) (w : World) :
  let dingtalk := DingTalkWebhook_init X hook key in
  let url := request_url X dingtalk now in
  let message :=
    {| body := if String.eqb msgtype "text" then TextMessage content
               else MarkdownMessage title content;
       at_ := None |} in
  send_dingtalk_notification X now title content msgtype hook key w =
  if truthy (py_or hook (DINGTALK_WEBHOOK_URL X)) then
    (emit (HttpPost url message) w, Ok (reply_of X url message))
  else (w, Ok (errcode_dict "Webhook URL not configured")).
Proof.
  cbv zeta. unfold send_dingtalk_notification, send_text, send_markdown.
  cbn [webhook_url DingTalkWebhook_init].
  destruct (truthy (py_or hook (DINGTALK_WEBHOOK_URL X))); cbn [negb].
  - destruct (String.eqb msgtype "text"); by rewrite post_message_eq.
  - by destruct (String.eqb msgtype "text").
Qed.

End SendMore.

(** ** The keyword monitor *)

Section KeywordMonitor.
Import Search.
Context (human : GithubResult -> string -> string) (today : string).

Lemma save_loop_known (self : Monitor) (todo : list (option GithubResult)) (s : Store) :
  (forall result, Some result ∈ todo -> hash_md5 result ∈ hash_md5_list self) ->
  save_loop human today self todo s = (self, s).
Proof.
  induction todo as [|[result|] rest IH]; intros Hknown; [done| |].
  - cbn [save_loop]. rewrite bool_decide_eq_true_2 by (apply Hknown; left).
    apply IH. intros r Hr. apply Hknown. by right.
  - cbn [save_loop]. apply IH. intros r Hr. apply Hknown. by right.
Qed.

(** What the loop of [save_mongo] has done once it ends. *)
Lemma save_loop_spec (self : Monitor) (todo : list (option GithubResult)) (s : Store) :
  exists added fresh,
    let '(self', s') := save_loop human today self todo s in
    hash_md5_list self' = hash_md5_list self ++ added /\
    new_results self' = new_results self ++ fresh /\
    scheduler_id self' = scheduler_id self /\
    task_id self' = task_id self /\
    results self' = results self /\
    github_task s' = github_task s /\
    github_hash s' = github_hash s ++ ((fun h => (h, scheduler_id self)) <$> added) /\
    of_result <$> github_monitor_result s' =
      (of_result <$> github_monitor_result s) ++ fresh /\
    NoDup added /\
    (forall h, h ∈ added -> h ∉ hash_md5_list self) /\
    hash_md5 <$> fresh ⊆+ added /\
    (forall r, r ∈ fresh -> filter_result r = false /\ Some r ∈ todo) /\
    (forall r, Some r ∈ todo -> hash_md5 r ∈ hash_md5_list self ++ added).
Proof.
  revert self s. induction todo as [|[result|] rest IH]; intros self s.
  - exists [], []. cbn. rewrite !app_nil_r.
    repeat split; try done; try apply NoDup_nil_2;
      intros; match goal with H : _ ∈ [] |- _ => by apply elem_of_nil in H end.
  - cbn [save_loop].
    destruct (bool_decide (hash_md5 result ∈ hash_md5_list self)) eqn:Hin.
    + apply bool_decide_eq_true in Hin.
      destruct (IH self s) as (added & fresh & H). exists added, fresh.
      destruct (save_loop human today self rest s) as [self' s'].
      destruct H as (H1 & H2 & H3 & H4 & H5 & H6 & H7 & H8 & H9 & H10 & H11 & H12 & H13).
      repeat split; try done.
      * apply H12 in H as [? _]. done.
      * apply H12 in H as [_ ?]. by right.
      * intros r Hr. apply elem_of_cons in Hr as [Hr|Hr]; [|by apply H13].
        injection Hr as ->. apply elem_of_app. by left.
    + apply bool_decide_eq_false in Hin.
      set (self1 := set_lists (hash_md5_list self ++ [hash_md5 result])
                      (new_results self) self).
      destruct (filter_result result) eqn:Hf.
      * match goal with |- context [save_loop human today self1 rest ?s1] =>
          destruct (IH self1 s1) as (added & fresh & H);
          destruct (save_loop human today self1 rest s1) as [self' s'] end.
        destruct H as (H1 & H2 & H3 & H4 & H5 & H6 & H7 & H8 & H9 & H10 & H11 & H12 & H13).
        cbn [hash_md5_list new_results scheduler_id task_id results self1 set_lists
             github_task github_hash github_monitor_result] in *.
        exists (hash_md5 result :: added), fresh.
        rewrite H1, H7, <- !app_assoc. cbn [fmap list_fmap app].
        repeat split; try done.
        -- apply NoDup_cons. split; [|done]. intros Hr. apply (H10 _ Hr).
           apply elem_of_app. right. by left.
        -- intros h Hh Hh'. apply elem_of_cons in Hh as [->|Hh]; [done|].
           apply (H10 _ Hh). apply elem_of_app. by left.
        -- by apply submseteq_cons.
        -- apply H12 in H as [? _]. done.
        -- apply H12 in H as [_ ?]. by right.
        -- intros r Hr. apply elem_of_cons in Hr as [Hr|Hr].
           ++ injection Hr as ->. apply elem_of_app. right. by left.
           ++ specialize (H13 r Hr). rewrite <- app_assoc in H13. exact H13.
      * match goal with |- context [save_loop human today ?self2 rest ?s2] =>
          destruct (IH self2 s2) as (added & fresh & H);
          destruct (save_loop human today self2 rest s2) as [self' s'] end.
        destruct H as (H1 & H2 & H3 & H4 & H5 & H6 & H7 & H8 & H9 & H10 & H11 & H12 & H13).
        cbn [hash_md5_list new_results scheduler_id task_id results self1 set_lists
             github_task github_hash github_monitor_result of_result] in *.
        exists (hash_md5 result :: added), (result :: fresh).
        rewrite H1, H2, H7, H8, fmap_app, <- !app_assoc. cbn [fmap list_fmap app of_result].
        repeat split; try done.
        -- apply NoDup_cons. split; [|done]. intros Hr. apply (H10 _ Hr).
           apply elem_of_app. right. by left.
        -- intros h Hh Hh'. apply elem_of_cons in Hh as [->|Hh]; [done|].
           apply (H10 _ Hh). apply elem_of_app. by left.
        -- by apply submseteq_skip.
        -- apply elem_of_cons in H as [->|H]; [done|]. apply H12 in H as [? _]. done.
        -- apply elem_of_cons in H as [->|H]; [by left|]. apply H12 in H as [_ ?]. by right.
        -- intros r Hr. apply elem_of_cons in Hr as [Hr|Hr].
           ++ injection Hr as ->. apply elem_of_app. right. by left.
           ++ specialize (H13 r Hr). rewrite <- app_assoc in H13. exact H13.
  - cbn [save_loop]. destruct (IH self s) as (added & fresh & H). exists added, fresh.
    destruct (save_loop human today self rest s) as [self' s'].
    destruct H as (H1 & H2 & H3 & H4 & H5 & H6 & H7 & H8 & H9 & H10 & H11 & H12 & H13).
    repeat split; try done.
    + apply H12 in H as [? _]. done.
    + apply H12 in H as [_ ?]. by right.
    + intros r Hr. apply elem_of_cons in Hr as [Hr|Hr]; [done|by apply H13].
Qed.

Lemma init_fold_elem (hashes l : list string) (h : string) :
  h ∈ foldl (fun l h => if bool_decide (h ∈ l) then l else l ++ [h]) l hashes <->
  h ∈ l \/ h ∈ hashes.
Proof.
  revert l. induction hashes as [|x hashes IH]; intros l; cbn [foldl].
  - split; [by left|]. intros [H|H]; [done|by apply elem_of_nil in H].
  - rewrite IH. destruct (bool_decide (x ∈ l)) eqn:Hx.
    + apply bool_decide_eq_true in Hx. rewrite elem_of_cons.
      split; [intros [H|H]; auto|]. intros [H|[->|H]]; auto.
    + rewrite elem_of_app, list_elem_of_singleton, elem_of_cons.
      split; [intros [[H|H]|H]; auto|]. intros [H|[H|H]]; auto.
Qed.

(** The hashes [init_md5_list] collects for a new monitor are those stored
    for its scheduler. *)
Lemma init_md5_list_elem (self : Monitor) (s : Store) (h : string) :
  hash_md5_list self = [] ->
  h ∈ hash_md5_list (init_md5_list self s) <-> (h, scheduler_id self) ∈ github_hash s.
Proof.
  intros Hnil. unfold init_md5_list. cbn [hash_md5_list set_lists].
  rewrite init_fold_elem, Hnil, list_elem_of_fmap. split.
  - intros [H|([h' sid] & -> & Hin)]; [by apply elem_of_nil in H|].
    apply list_elem_of_filter in Hin as [Hsid Hin]. cbn in Hsid. by subst sid.
  - intros Hin. right. exists (h, scheduler_id self). split; [done|].
    by apply list_elem_of_filter.
Qed.

Lemma NoDup_of_submseteq {A} (l k : list A) : l ⊆+ k -> NoDup k -> NoDup l.
Proof.
  intros Hsub Hk. apply submseteq_Permutation in Hsub as [k' Hp].
  rewrite Hp in Hk. by apply NoDup_app in Hk as [? _].
Qed.

Lemma keyword_pass_spec (self : Monitor) (s : Store) (oid : string) :
  ObjectId (task_id self) = Ok oid ->
  hash_md5_list self = [] ->
  new_results self = [] ->
  exists self' s',
    save_mongo human today (init_md5_list self s) s = (self', s', Ok tt) /\
    NoDup (hash_md5 <$> new_results self') /\
    (forall r, r ∈ new_results self' ->
       filter_result r = false /\ Some r ∈ results self /\
       (hash_md5 r, scheduler_id self) ∉ github_hash s) /\
    (forall r, Some r ∈ results self ->
       (hash_md5 r, scheduler_id self) ∈ github_hash s') /\
    of_result <$> github_monitor_result s' =
      (of_result <$> github_monitor_result s) ++ new_results self' /\
    (forall p, p ∈ github_hash s -> p ∈ github_hash s').
Proof.
  intros Hid Hnil Hnew. unfold save_mongo.
  change (task_id (init_md5_list self s)) with (task_id self).
  change (results (init_md5_list self s)) with (results self).
  rewrite Hid.
  match goal with |- context [save_loop human today ?m ?t ?s1] =>
    destruct (save_loop_spec m t s1) as (added & fresh & H);
    destruct (save_loop human today m t s1) as [self' s'] end.
  destruct H as (H1 & H2 & H3 & H4 & H5 & H6 & H7 & H8 & H9 & H10 & H11 & H12 & H13).
  cbn [github_hash github_monitor_result github_task] in *.
  change (new_results (init_md5_list self s)) with (new_results self) in H2.
  change (scheduler_id (init_md5_list self s)) with (scheduler_id self) in *.
  rewrite Hnew in H2. cbn [app] in H2.
  exists self', s'. split; [done|]. rewrite H2, H7, H8.
  split; [|split; [|split; [|split]]].
  - eapply NoDup_of_submseteq; [exact H11|exact H9].
  - intros r Hr. destruct (H12 r Hr) as [Hf Hin]. split; [done|]. split; [done|].
    intros Hstored. apply (init_md5_list_elem self s _ Hnil) in Hstored.
    apply (H10 (hash_md5 r)); [|done].
    eapply elem_of_submseteq; [|exact H11]. apply list_elem_of_fmap. by exists r.
  - intros r Hr. apply H13 in Hr. apply elem_of_app in Hr as [Hr|Hr].
    + apply elem_of_app. left. by apply (init_md5_list_elem self s _ Hnil).
    + apply elem_of_app. right. apply list_elem_of_fmap. by exists (hash_md5 r).
  - done.
  - intros p Hp. apply elem_of_app. by left.
Qed.

(** X24. One pass of the keyword monitor (collect the stored hashes, then
    [save_mongo]) reports as new only results that pass the filter and whose
    hash was not stored for the scheduler, each hash once; it stores the hash
    of every result it was given, filtered out or not, and one monitor
    record for each new result. *)
Theorem save_mongo_new_results (self : Monitor) (s : Store) (oid : string) :
  ObjectId (task_id self) = Ok oid ->
  hash_md5_list self = [] ->
  new_results self = [] ->
  exists self' s',
    save_mongo human today (init_md5_list self s) s = (self', s', Ok tt) /\
    NoDup (hash_md5 <$> new_results self') /\
    (forall r, r ∈ new_results self' ->
       filter_result r = false /\ Some r ∈ results self /\
       (hash_md5 r, scheduler_id self) ∉ github_hash s) /\
    (forall r, Some r ∈ results self ->
       (hash_md5 r, scheduler_id self) ∈ github_hash s') /\
    of_result <$> github_monitor_result s' =
      (of_result <$> github_monitor_result s) ++ new_results self' /\
    (forall p, p ∈ github_hash s -> p ∈ github_hash s').
Proof. apply keyword_pass_spec. Qed.

(** X25. The pass is idempotent: run again on the store it left, with the
    same search results, it reports nothing new and stores nothing. *)
Theorem save_mongo_second_pass_is_empty (self : Monitor) (s : Store) (oid : string) :
  ObjectId (task_id self) = Ok oid ->
  hash_md5_list self = [] ->
  new_results self = [] ->
  exists self1 s1 self2 s2,
    save_mongo human today (init_md5_list self s) s = (self1, s1, Ok tt) /\
    save_mongo human today (init_md5_list self s1) s1 = (self2, s2, Ok tt) /\
    new_results self2 = [] /\
    github_hash s2 = github_hash s1 /\
    github_monitor_result s2 = github_monitor_result s1.
Proof.
  intros Hid Hnil Hnew.
  destruct (keyword_pass_spec self s oid Hid Hnil Hnew)
    as (self1 & s1 & Hrun & _ & _ & Hall & _).
  exists self1, s1. rewrite Hrun.
  unfold save_mongo.
  change (task_id (init_md5_list self s1)) with (task_id self).
  change (results (init_md5_list self s1)) with (results self).
  rewrite Hid.
  rewrite save_loop_known.
  - eexists _, _. split; [done|]. split; [reflexivity|]. by cbn.
  - intros r Hr. apply (init_md5_list_elem self s1 _ Hnil). by apply Hall.
Qed.

End KeywordMonitor.

(** ** The keyword monitor's report *)

Section Report.
Import Search.

Lemma repo_map_add_keys (repo_map : list (string * list GithubResult)) (r : GithubResult)
    (name : string) :
  name ∈ (repo_map_add repo_map r).*1 <-> name ∈ repo_map.*1 \/ name = repo_full_name r.
Proof.
  induction repo_map as [|[k g] rest IH]; cbn [repo_map_add].
  - cbn. rewrite list_elem_of_singleton. split; [by right|].
    intros [H|H]; [by apply elem_of_nil in H|done].
  - destruct (String.eqb k (repo_full_name r)) eqn:E.
    + apply String.eqb_eq in E. cbn. rewrite !elem_of_cons.
      split; [by left|]. intros [H| ->]; [done|by left].
    + cbn. rewrite !elem_of_cons, IH. split.
      * intros [H|[H|H]]; auto.
      * intros [[H|H]|H]; auto.
Qed.

Lemma repo_map_add_elem (repo_map : list (string * list GithubResult)) (r : GithubResult)
    (name : string) (group : list GithubResult) :
  NoDup repo_map.*1 ->
  (name, group) ∈ repo_map_add repo_map r <->
  (name <> repo_full_name r /\ (name, group) ∈ repo_map) \/
  (name = repo_full_name r /\
   ((exists old, (name, old) ∈ repo_map /\ group = old ++ [r]) \/
    ((name ∉ repo_map.*1) /\ group = [r]))).
Proof.
  induction repo_map as [|[k g] rest IH]; intros Hnd; cbn [repo_map_add].
  - rewrite list_elem_of_singleton. split.
    + intros H. injection H as -> ->. right. split; [done|]. right.
      split; [|done]. intros H. by apply elem_of_nil in H.
    + intros [[_ H]|[-> [(old & H & _)|[_ ->]]]]; [by apply elem_of_nil in H| |done].
      by apply elem_of_nil in H.
  - cbn in Hnd. apply NoDup_cons in Hnd as [Hk Hnd].
    destruct (String.eqb k (repo_full_name r)) eqn:E.
    + apply String.eqb_eq in E. subst k. rewrite elem_of_cons. split.
      * intros [H|H].
        -- injection H as -> ->. right. split; [done|]. left. exists g. split; [by left|done].
        -- destruct (decide (name = repo_full_name r)) as [->|Hne].
           ++ exfalso. apply Hk. apply list_elem_of_fmap. by exists (repo_full_name r, group).
           ++ left. split; [done|by right].
      * intros [[Hne H]|[-> [(old & H & ->)|[Hnot _]]]].
        -- apply elem_of_cons in H as [H|H]; [by injection H as -> _|by right].
        -- apply elem_of_cons in H as [H|H]; [injection H as ->; by left|].
           exfalso. apply Hk. apply list_elem_of_fmap. by exists (repo_full_name r, old).
        -- exfalso. apply Hnot. cbn. by left.
    + apply String.eqb_neq in E. rewrite elem_of_cons, (IH Hnd). split.
      * intros [H|[[Hne H]|[-> [(old & H & ->)|[Hnot ->]]]]].
        -- injection H as -> ->. left. split; [done|by left].
        -- left. split; [done|by right].
        -- right. split; [done|]. left. exists old. split; [by right|done].
        -- right. split; [done|]. right. split; [|done].
           intros H. apply elem_of_cons in H as [H|H]; [done|by apply Hnot].
      * intros [[Hne H]|[-> [(old & H & ->)|[Hnot ->]]]].
        -- apply elem_of_cons in H as [H|H]; [by left|]. right. left. done.
        -- apply elem_of_cons in H as [H|H]; [by injection H as ? _|].
           right. right. split; [done|]. left. by exists old.
        -- right. right. split; [done|]. right. split; [|done].
           intros H. apply Hnot. cbn. by right.
Qed.

Lemma groups_of_add (repo_map : list (string * list GithubResult))
    (rs : list GithubResult) (r : GithubResult) :
  groups_of repo_map rs -> groups_of (repo_map_add repo_map r) (rs ++ [r]).
Proof.
  intros [Hnd Hg]. split.
  - clear Hg. induction repo_map as [|[k g] rest IH]; cbn [repo_map_add].
    + cbn. apply NoDup_singleton.
    + cbn in Hnd. apply NoDup_cons in Hnd as [Hk Hnd].
      destruct (String.eqb k (repo_full_name r)) eqn:E; cbn.
      * apply NoDup_cons. done.
      * apply String.eqb_neq in E. apply NoDup_cons. split; [|by apply IH].
        intros H. apply repo_map_add_keys in H as [H|H]; done.
  - intros name group. rewrite (repo_map_add_elem _ _ _ _ Hnd), filter_app.
    assert (Hkey : name ∈ repo_map.*1 <->
              filter (fun x => repo_full_name x = name) rs <> []).
    { split.
      - intros H. apply list_elem_of_fmap in H as ([k g] & Hk & H).
        cbn in Hk. subst name. apply Hg in H as [Hf H]. by rewrite <- Hf.
      - intros H. apply list_elem_of_fmap.
        exists (name, filter (fun x => repo_full_name x = name) rs). split; [done|].
        by apply Hg. }
    destruct (decide (repo_full_name r = name)) as [Heq|Hne].
    + rewrite (filter_cons_True _ r []) by done. rewrite filter_nil. split.
      * intros [[Hn _]|[_ [(old & Hold & ->)|[Hnot ->]]]]; [done| |].
        -- apply Hg in Hold as [-> _]. split; [done|].
           intros Hnil. apply app_eq_nil in Hnil as [_ Hnil]. discriminate.
        -- destruct (filter (fun x => repo_full_name x = name) rs) as [|x l] eqn:Hf;
             [done|]. exfalso. apply Hnot. by apply Hkey.
      * intros [-> _]. right. split; [done|].
        destruct (filter (fun x => repo_full_name x = name) rs) as [|x l] eqn:Hf.
        -- right. split; [|done]. by intros Hin%Hkey.
        -- left. exists (x :: l). split; [|done]. apply Hg. by rewrite Hf.
    + rewrite (filter_cons_False _ r []) by done. rewrite filter_nil, app_nil_r. split.
      * intros [[_ H]|[Hn _]]; [by apply Hg|done].
      * intros H. left. split; [done|]. by apply Hg.
Qed.

(** X26. [build_repo_map] groups the new results by repository: the names
    of the dictionary are distinct, and under a name stands the list of all
    new results of that repository, in their order; a repository without a
    result has no entry. *)
Theorem build_repo_map_groups (self : Monitor) :
  NoDup (build_repo_map self).*1 /\
  forall name group,
    (name, group) ∈ build_repo_map self <->
    group = filter (fun r => repo_full_name r = name) (new_results self) /\
    group <> [].
Proof.
  unfold build_repo_map.
  change (groups_of (foldl repo_map_add [] (new_results self)) (new_results self)).
  induction (new_results self) as [|r rs IH] using rev_ind.
  - split; [apply NoDup_nil_2|]. intros name group. split.
    + intros H. by apply elem_of_nil in H.
    + intros [-> H]. done.
  - rewrite foldl_app. cbn [foldl]. by apply groups_of_add.
Qed.

End Report.

Section Markdown.
Import Search.

Lemma append_assoc (a b c : string) : (a +:+ b) +:+ c = a +:+ (b +:+ c).
Proof.
  induction a as [|x a IH]; [done|].
  change (String x ((a +:+ b) +:+ c) = String x (a +:+ (b +:+ c))). by rewrite IH.
Qed.

Lemma entry_lines_app (n : nat) (l1 l2 : list GithubResult) :
  entry_lines n (l1 ++ l2) = entry_lines n l1 +:+ entry_lines (n + length l1) l2.
Proof.
  revert n. induction l1 as [|x l1 IH]; intros n.
  - cbn [app length entry_lines]. by rewrite Nat.add_0_r.
  - cbn [app length entry_lines]. rewrite IH, append_assoc.
    by replace (S n + length l1)%nat with (n + S (length l1))%nat by lia.
Qed.

Lemma markdown_items_eq (tr_cnt global_cnt : nat) (items : list GithubResult)
    (markdown : string) :
  (tr_cnt <= 5)%nat ->
  markdown_items tr_cnt global_cnt items markdown =
  (markdown +:+ entry_lines global_cnt (take (6 - tr_cnt) items),
   (global_cnt + length (take (6 - tr_cnt) items))%nat).
Proof.
  revert tr_cnt global_cnt markdown.
  induction items as [|item rest IH]; intros tr_cnt global_cnt markdown Htr.
  - cbn [markdown_items]. rewrite take_nil. cbn [entry_lines length].
    by rewrite append_empty, Nat.add_0_r.
  - cbn [markdown_items].
    replace (6 - tr_cnt)%nat with (S (5 - tr_cnt)) by lia. cbn [take entry_lines length].
    destruct (5 <? S tr_cnt)%nat eqn:Hlt.
    + apply Nat.ltb_lt in Hlt. replace (5 - tr_cnt)%nat with 0%nat by lia.
      rewrite take_0. cbn [entry_lines length].
      by rewrite append_empty, Nat.add_1_r.
    + apply Nat.ltb_ge in Hlt. rewrite IH by lia.
      replace (6 - S tr_cnt)%nat with (5 - tr_cnt)%nat by lia.
      rewrite append_assoc. f_equal. lia.
Qed.

Lemma markdown_repos_eq (repo_cnt global_cnt : nat)
    (repo_map : list (string * list GithubResult)) (markdown : string) :
  (repo_cnt <= 5)%nat ->
  markdown_repos repo_cnt global_cnt repo_map markdown =
  markdown +:+
  entry_lines global_cnt
    (flat_map (fun g => take 6 g.2) (take (5 - repo_cnt) repo_map)).
Proof.
  revert repo_cnt global_cnt markdown.
  induction repo_map as [|[name items] rest IH]; intros repo_cnt global_cnt markdown Hrc.
  - cbn [markdown_repos]. rewrite take_nil. cbn. by rewrite append_empty.
  - cbn [markdown_repos].
    destruct (5 <? S repo_cnt)%nat eqn:Hlt.
    + apply Nat.ltb_lt in Hlt. replace (5 - repo_cnt)%nat with 0%nat by lia.
      rewrite take_0. cbn. by rewrite append_empty.
    + apply Nat.ltb_ge in Hlt.
      rewrite (markdown_items_eq 0 global_cnt items markdown) by lia.
      rewrite IH by lia.
      replace (5 - repo_cnt)%nat with (S (5 - S repo_cnt)) by lia.
      cbn [take flat_map snd]. change (6 - 0)%nat with 6%nat.
      by rewrite entry_lines_app, append_assoc.
Qed.

(** X27. The markdown report is its header followed by one line for each
    of the first six results of each of the first five repositories of
    [build_repo_map], numbered consecutively from 1: six, not five, because
    the inner loop tests its counter after it has written the line. *)
Theorem markdown_report_lists_six_per_repo (self : Monitor) :
  build_markdown_report self =
  markdown_header self +:+
  entry_lines 0
    (flat_map (fun g => take 6 g.2) (take 5 (build_repo_map self))).
Proof.
  unfold build_markdown_report. by rewrite markdown_repos_eq by lia.
Qed.

End Markdown.

Section Filter.
Import Search.

Lemma prefix_iff (needle hay : string) :
  String.prefix needle hay = true <-> exists b, hay = needle +:+ b.
Proof.
  revert hay. induction needle as [|c needle IH]; intros hay.
  - split; [intros _; by exists hay|]. intros _. by destruct hay.
  - destruct hay as [|d hay]; cbn [String.prefix].
    + split; [done|]. intros [b Hb]. discriminate Hb.
    + destruct (Ascii.ascii_dec c d) as [->|Hne].
      * rewrite IH. split.
        -- intros [b ->]. by exists b.
        -- intros [b Hb]. injection Hb as ->. by exists b.
      * split; [done|]. intros [b Hb]. by injection Hb as ->.
Qed.

(** [contains] is Python's [in]: the needle stands somewhere in the string. *)
Lemma contains_iff (needle hay : string) :
  contains needle hay = true <-> exists a b, hay = a +:+ needle +:+ b.
Proof.
  induction hay as [|d hay IH]; cbn [contains].
  - rewrite orb_false_r, prefix_iff. split.
    + intros [b Hb]. by exists "", b.
    + intros ([|x a] & b & Hab); [by exists b|discriminate Hab].
  - rewrite orb_true_iff, prefix_iff, IH. split.
    + intros [[b Hb]|(a & b & ->)]; [by exists "", b|by exists (String d a), b].
    + intros ([|x a] & b & Hab); [left; by exists b|].
      right. injection Hab as -> ->. by exists a, b.
Qed.

(** X28. [filter_result] rejects a result exactly when its path has one of
    the nine path keywords, or its content one of the six content keywords,
    as a substring. *)
Theorem filter_result_iff_keyword (result : GithubResult) :
  filter_result result = true <->
  (exists k a b, k ∈ path_keyword_list /\ path result = a +:+ k +:+ b) \/
  (exists k a b, k ∈ content_keyword_list /\ content result = a +:+ k +:+ b).
Proof.
  unfold filter_result. rewrite orb_true_iff, !existsb_exists.
  split; intros [H|H]; [left|right|left|right].
  - destruct H as (k & Hin & Hc). apply contains_iff in Hc as (a & b & Hc).
    exists k, a, b. split; [by apply list_elem_of_In|done].
  - destruct H as (k & Hin & Hc). apply contains_iff in Hc as (a & b & Hc).
    exists k, a, b. split; [by apply list_elem_of_In|done].
  - destruct H as (k & a & b & Hin & Hc). exists k. split; [by apply list_elem_of_In|].
    apply contains_iff. by exists a, b.
  - destruct H as (k & a & b & Hin & Hc). exists k. split; [by apply list_elem_of_In|].
    apply contains_iff. by exists a, b.
Qed.

End Filter.

(** ** The properties above on concrete inputs *)

Lemma fetch_loop_keeps_filtered_witness :
  fetch_loop (Sample.up []) Cases.monitor (Some 1699999000%Q) Sample.issue_feed [] =
  Ok ([] ++ (event_of_data <$>
               filter (fun d => kept (Sample.up []) Cases.monitor
                                  (Some 1699999000%Q) d = true)
                 Sample.issue_feed)).
Proof.
  apply (fetch_loop_keeps_filtered (Sample.up []) Cases.monitor
           (Some 1699999000%Q) Sample.issue_feed []).
  intros d Hd _ _ [e He]. apply list_elem_of_singleton in Hd. subst d.
  vm_compute in He. discriminate He.
Defined.

Lemma fetch_loop_raises_on_unparsable_witness :
  exists e,
    fetch_loop (Sample.up []) Cases.monitor (Some 1699999000%Q)
      (Sample.issue_feed ++ [Cases.undated]) [] = Raise e.
Proof.
  apply (fetch_loop_raises_on_unparsable (Sample.up []) Cases.monitor 1699999000%Q
           (Sample.issue_feed ++ [Cases.undated]) [] Cases.undated).
  - right. left.
  - left.
  - exists "ValueError". reflexivity.
Defined.



(** A batch that repeats the push event, saved to a collection that holds
    the push event already: only the issues event is stored. *)
Lemma save_events_keeps_keys_distinct_witness :
  exists w',
    save_events (Sample.up [])
      (Cases.task_of Sample.sid [Cases.push; Cases.issue; Cases.push; Cases.issue])
      1700000070 (Cases.world_with [Cases.stored Sample.sid Cases.push])
      = (w', Ok tt) /\
    NoDup (record_key <$> db_event w') /\
    Cases.stored Sample.sid Cases.push ∈ db_event w' /\
    length (db_event w') = 2%nat.
Proof.
  destruct (save_events_keeps_keys_distinct (Sample.up [])
              (Cases.task_of Sample.sid
                 [Cases.push; Cases.issue; Cases.push; Cases.issue])
              1700000070 (Cases.world_with [Cases.stored Sample.sid Cases.push])
              Sample.tid eq_refl (NoDup_singleton _))
    as (w' & Hrun & Hnd & Hkept).
  exists w'. split; [exact Hrun|]. split; [exact Hnd|].
  split; [apply Hkept; left|].
  replace w' with
    (save_events (Sample.up [])
       (Cases.task_of Sample.sid [Cases.push; Cases.issue; Cases.push; Cases.issue])
       1700000070 (Cases.world_with [Cases.stored Sample.sid Cases.push])).1
    by (rewrite Hrun; reflexivity).
  vm_compute. reflexivity.
Defined.

(** The push event is stored for another schedule, and the issues event
    for this one: the push event is stored again, for this schedule. *)
Lemma save_events_dedups_per_schedule_witness :
  exists w',
    save_events (Sample.up []) (Cases.task_of Sample.sid [Cases.push]) 1700000070
      (Cases.world_with [Cases.stored Cases.other_sid Cases.push;
                         Cases.stored Sample.sid Cases.issue])
      = (w', Ok tt) /\
    db_event w' =
      [Cases.stored Cases.other_sid Cases.push; Cases.stored Sample.sid Cases.issue;
       event_doc (Sample.up []) (Cases.task_of Sample.sid [Cases.push]) 1700000070
         Cases.push].
Proof.
  destruct (save_events_dedups_per_schedule (Sample.up [])
              (Cases.task_of Sample.sid [Cases.push]) 1700000070
              (Cases.world_with [Cases.stored Cases.other_sid Cases.push;
                                 Cases.stored Sample.sid Cases.issue])
              Cases.push Sample.tid eq_refl eq_refl)
    as (w' & Hrun & Hdb).
  - intros d Hd Hsame.
    apply elem_of_cons in Hd as [->|Hd]; [discriminate|].
    apply list_elem_of_singleton in Hd. subst d. discriminate Hsame.
  - exists w'. split; [exact Hrun|]. rewrite Hdb. reflexivity.
Defined.

Lemma idle_tick_changes_nothing_witness :
  github_repo_scheduler (Sample.up []) 1700000070
    (Cases.registry (Sample.entry [] 0 STOP))
  = (Cases.registry (Sample.entry [] 0 STOP), Ok tt).
Proof.
  apply (idle_tick_changes_nothing (Sample.up []) 1700000070
           (Cases.registry (Sample.entry [] 0 STOP))).
  intros _id item Hl.
  unfold Cases.registry, with_scheduler, Sample.empty_world in Hl.
  cbn [db_scheduler] in Hl.
  apply lookup_insert_Some in Hl as [[_ <-]|[_ Hl]]; [reflexivity|].
  rewrite lookup_empty in Hl. discriminate Hl.
Defined.

Lemma tick_keeps_no_orphan_witness :
  no_orphan_waiting
    (github_repo_scheduler (Sample.up []) 1700000070
       (Cases.registry (Sample.entry [] 1699999870 RUNNING))).1.
Proof.
  apply (tick_keeps_no_orphan (Sample.up []) 1700000070
           (Cases.registry (Sample.entry [] 1699999870 RUNNING))).
  intros k t Hk.
  unfold Cases.registry, with_scheduler, Sample.empty_world in Hk.
  cbn [db_task] in Hk. rewrite lookup_empty in Hk. discriminate Hk.
Defined.

Lemma stopped_entry_is_not_fired_witness :
  exists w1 w2 stopped,
    stop_post [Sample.sid] (Cases.registry (Sample.entry [] 1699999870 RUNNING))
      = (w1, Ok (build_ret Success (DataIds [Sample.sid]))) /\
    github_repo_scheduler (Sample.up []) 1700000070 w1 = (w2, Ok tt) /\
    db_scheduler w2 !! Sample.sid = Some stopped /\
    Scheduler.status stopped = STOP.
Proof.
  destruct (stopped_entry_is_not_fired (Sample.up []) 1700000070
              (Cases.registry (Sample.entry [] 1699999870 RUNNING)) Sample.sid Sample.sid
              (Sample.entry [] 1699999870 RUNNING) eq_refl eq_refl eq_refl)
    as (w1 & w2 & stopped & H1 & H2 & H3 & H4 & _).
  exists w1, w2, stopped. repeat split; assumption.
Defined.

(** An owner of a space, a tab, a file separator and an ideographic
    space is refused. *)
Lemma add_post_stores_only_checked_witness :
  add_post (Sample.up []) 1700000070 "arl"
    (join [chr 32; chr 9; chr 28; chr3 227 128 128]) "Hello-World" "*/5 * * * *" []
    Sample.empty_world
  = (Sample.empty_world,
     Ok (build_ret Error (DataMessage "仓库所有者和仓库名称不能为空"))).
Proof.
  apply (add_post_stores_only_checked (Sample.up []) 1700000070 "arl"
           (join [chr 32; chr 9; chr 28; chr3 227 128 128]) "Hello-World"
           "*/5 * * * *" [] Sample.empty_world).
  left. exists [chr 32; chr 9; chr 28; chr3 227 128 128]. split; [|reflexivity].
  repeat (apply Forall_cons_2; [apply (bool_decide_unpack _); vm_compute; exact I|]).
  apply Forall_nil_2.
Defined.

(** The owner is stored without the no-break space before it and the unit
    separator and line feed after it. *)
Lemma add_post_creates_running_entry_witness :
  exists w' item,
    add_post (Sample.up []) 1700000070 "arl"
      (chr2 194 160 +:+ "octocat" +:+ chr 31 +:+ chr 10) "Hello-World" "*/5 * * * *" []
      Sample.empty_world
    = (w', Ok (build_ret Success (DataItem (Sample.object_id ∅) item))) /\
    Scheduler.repo_owner item = "octocat" /\
    Scheduler.status item = RUNNING.
Proof.
  destruct (add_post_creates_running_entry (Sample.up []) 1700000070
              "arl" (chr2 194 160 +:+ "octocat" +:+ chr 31 +:+ chr 10) "Hello-World"
              "*/5 * * * *" [] Sample.empty_world
              (Sample.every_five_minutes 1700000070) eq_refl eq_refl eq_refl eq_refl)
    as (w' & item & Hrun & _ & _ & _ & _ & _ & Hs & _ & _ & _ & Ho & _).
  exists w', item. split; [exact Hrun|]. split; [exact Ho|exact Hs].
Defined.

(** The second id is well formed and names no entry: nothing is deleted,
    though the first id, in upper case, names the stored entry. *)
Lemma delete_post_all_or_nothing_witness :
  delete_post [Cases.upper_sid; Cases.other_sid]
    (Sample.world_of (Sample.entry [] 0 RUNNING))
  = (Sample.world_of (Sample.entry [] 0 RUNNING),
     Ok (build_ret JobNotFound (DataIds [Cases.upper_sid; Cases.other_sid]))).
Proof.
  apply (delete_post_all_or_nothing [Cases.upper_sid; Cases.other_sid]
           (Sample.world_of (Sample.entry [] 0 RUNNING)) Cases.other_sid
           Cases.other_sid).
  - intros _id Hin. apply elem_of_cons in Hin as [->|Hin]; [by eexists|].
    apply list_elem_of_singleton in Hin. subst _id. by eexists.
  - right. left.
  - reflexivity.
  - reflexivity.
Defined.

Lemma stop_post_stops_before_failing_witness :
  stop_post [Cases.upper_sid; Cases.other_sid]
    (Sample.world_of (Sample.entry [] 0 RUNNING))
  = (with_scheduler
       (insert Sample.sid
          (Scheduler.set_next_run_date "-"
             (Scheduler.set_status STOP (Sample.entry [] 0 RUNNING))))
       (Sample.world_of (Sample.entry [] 0 RUNNING)),
     Ok (build_ret JobNotFound (DataId Cases.other_sid))).
Proof.
  exact (stop_post_stops_before_failing Cases.upper_sid Cases.other_sid
           Sample.sid Cases.other_sid (Sample.entry [] 0 RUNNING)
           (Sample.world_of (Sample.entry [] 0 RUNNING))
           eq_refl eq_refl eq_refl eq_refl eq_refl).
Defined.

Lemma recover_unparsable_cron_raises_witness :
  recover_post (Sample.up []) 1700000070 [Sample.sid] (Cases.registry Cases.broken)
  = (Cases.registry Cases.broken, Raise "ValueError").
Proof.
  exact (recover_unparsable_cron_raises (Sample.up []) 1700000070 Sample.sid Sample.sid
           Cases.broken (Cases.registry Cases.broken) "ValueError"
           eq_refl eq_refl eq_refl eq_refl).
Defined.

Lemma ids_change_only_on_create_witness :
  dom (db_scheduler
         (perform (Sample.up []) 1700000070 Tick
            (Cases.registry (Sample.entry [] 1699999870 RUNNING))))
  = dom (db_scheduler (Cases.registry (Sample.entry [] 1699999870 RUNNING))).
Proof.
  apply (ids_change_only_on_create (Sample.up []) 1700000070 Tick
           (Cases.registry (Sample.entry [] 1699999870 RUNNING))).
  intros name owner repo cron events. discriminate.
Defined.

(** The entry is named in upper case, and the new owner has an em space
    before it and a group separator after it. *)
Lemma update_post_edits_given_fields_witness :
  exists item',
    update_post (Sample.up []) 1700000070 Cases.upper_sid "renamed"
      (chr3 226 128 131 +:+ "github" +:+ chr 29) "" "" []
      (Cases.registry (Sample.entry [] 0 RUNNING))
    = (with_scheduler (insert Sample.sid item')
         (Cases.registry (Sample.entry [] 0 RUNNING)),
       Ok (build_ret Success (DataItem Sample.sid item'))) /\
    Scheduler.name item' = "renamed" /\
    Scheduler.repo_owner item' = "github" /\
    Scheduler.cron item' = "*/5 * * * *".
Proof.
  destruct (update_post_edits_given_fields (Sample.up []) 1700000070 Cases.upper_sid
              Sample.sid "renamed" (chr3 226 128 131 +:+ "github" +:+ chr 29) "" "" []
              (Cases.registry (Sample.entry [] 0 RUNNING))
              (Sample.entry [] 0 RUNNING) 0%Q eq_refl eq_refl)
    as (item' & Hrun & _ & _ & _ & Hname & Howner & _ & _ & Hcron & _).
  - intros Hc. discriminate Hc.
  - exists item'. split; [exact Hrun|]. split; [exact Hname|].
    split; [exact Howner|exact Hcron].
Defined.

Lemma update_post_rejected_cron_witness :
  update_post (Sample.up []) 1700000070 Sample.sid "renamed" "" "" "hourly" []
    (Cases.registry (Sample.entry [] 0 RUNNING))
  = (Cases.registry (Sample.entry [] 0 RUNNING),
     Ok (build_ret Error (DataMessage "ValueError"))).
Proof.
  exact (update_post_rejected_cron (Sample.up []) 1700000070 Sample.sid Sample.sid
           "renamed" "" "" "hourly" [] (Cases.registry (Sample.entry [] 0 RUNNING))
           (Sample.entry [] 0 RUNNING) (build_ret Error (DataMessage "ValueError"))
           eq_refl eq_refl eq_refl eq_refl).
Defined.

Lemma submit_accepted_records_handle_witness :
  exists w',
    (submit_github_repo_task (Sample.up []) Sample.waiting_task true
       Sample.empty_world).1 = w' /\
    enqueued w' (Sample.object_id ∅).
Proof.
  destruct (submit_accepted_records_handle (Sample.up []) Sample.waiting_task
              Sample.empty_world ("celery-" +:+ Sample.object_id ∅) eq_refl)
    as (w' & Hrun & _ & _ & Henq & _).
  exists w'. split; [by rewrite Hrun|exact Henq].
Defined.


Lemma save_mongo_new_results_witness :
  exists self' s',
    Search.save_mongo Cases.human "2024-01-03"
      (Search.init_md5_list Cases.keyword_monitor Cases.empty_store) Cases.empty_store
    = (self', s', Ok tt) /\
    NoDup (Search.hash_md5 <$> Search.new_results self').
Proof.
  destruct (save_mongo_new_results Cases.human "2024-01-03" Cases.keyword_monitor
              Cases.empty_store Sample.tid eq_refl eq_refl eq_refl)
    as (self' & s' & Hrun & Hnd & _).
  exists self', s'. split; assumption.
Defined.

Lemma save_mongo_second_pass_is_empty_witness :
  exists self1 s1 self2 s2,
    Search.save_mongo Cases.human "2024-01-03"
      (Search.init_md5_list Cases.keyword_monitor Cases.empty_store) Cases.empty_store
    = (self1, s1, Ok tt) /\
    Search.save_mongo Cases.human "2024-01-03"
      (Search.init_md5_list Cases.keyword_monitor s1) s1 = (self2, s2, Ok tt) /\
    Search.new_results self2 = [].
Proof.
  destruct (save_mongo_second_pass_is_empty Cases.human "2024-01-03"
              Cases.keyword_monitor Cases.empty_store Sample.tid eq_refl eq_refl eq_refl)
    as (self1 & s1 & self2 & s2 & H1 & H2 & H3 & _).
  exists self1, s1, self2, s2. repeat split; assumption.
Defined.
